(** * Chat backend: request/accept lifecycle, message ledger, delivery

    A shallow embedding of [server/src/services/chat.service.ts],
    [server/src/services/user.service.ts] and
    [server/src/websocket/message.handler.ts], with the Mongoose
    collections as lists in insertion order, the presence map as a
    [gmap], the text of a message as its UTF-16 code units, and
    [throw]/[await] as a state-and-exception monad. *)

From stdpp Require Import base strings list gmap sorting.
From Stdlib Require Import ZArith Lia Ascii String.

Local Open Scope string_scope.
Local Open Scope Z_scope.

(** ** Object ids

    [Types.ObjectId] comes from the bson package, not from this
    repository.  The services use two of its operations on strings:
    [Types.ObjectId.isValid(s)] and [new Types.ObjectId(s)], whose
    [toString()] is the canonical hexadecimal rendering.  Both are taken
    as an interface; a stored id is kept as its canonical rendering. *)

Abbreviation ObjectId := string.

Class ObjectIdOps := {
  isValid : string → bool;
  toHexString : string → ObjectId
}.

(** ** JavaScript strings

    A JavaScript string is a sequence of UTF-16 code units.  The text
    of a message, which the code trims and measures, is kept as that
    sequence; ids, names, socket ids and the fixed texts of errors,
    which the code only compares and tests for emptiness, are kept as
    [string]. *)

Definition JsString : Type := list Z.

(** The code units that [String.prototype.trim] removes: the
    WhiteSpace and LineTerminator code points of ECMAScript, all of
    them in the basic plane.  TAB, LF, VT, FF, CR; SPACE; NO-BREAK
    SPACE; OGHAM SPACE MARK; EN QUAD .. HAIR SPACE; LINE SEPARATOR,
    PARAGRAPH SEPARATOR; NARROW NO-BREAK SPACE; MEDIUM MATHEMATICAL
    SPACE; IDEOGRAPHIC SPACE; ZERO WIDTH NO-BREAK SPACE. *)
Definition is_white_space (c : Z) : bool :=
  ((0x09 <=? c) && (c <=? 0x0D))
  || (c =? 0x20) || (c =? 0xA0) || (c =? 0x1680)
  || ((0x2000 <=? c) && (c <=? 0x200A))
  || (c =? 0x2028) || (c =? 0x2029) || (c =? 0x202F) || (c =? 0x205F)
  || (c =? 0x3000) || (c =? 0xFEFF).

Fixpoint trimStart (s : JsString) : JsString :=
  match s with
  | c :: s' => if is_white_space c then trimStart s' else s
  | [] => []
  end.

Fixpoint trimEnd (s : JsString) : JsString :=
  match s with
  | c :: s' =>
      match trimEnd s' with
      | [] => if is_white_space c then [] else [c]
      | t => c :: t
      end
  | [] => []
  end.

Definition trim (s : JsString) : JsString := trimEnd (trimStart s).

(** A string literal of the basic Latin range as a JavaScript string. *)
Definition js (s : string) : JsString :=
  map (λ c, Z.of_nat (nat_of_ascii c)) (list_ascii_of_string s).

(** [!s] for a JavaScript string. *)
Definition falsy_text (s : JsString) : bool :=
  match s with [] => true | _ => false end.

(** ** Documents ([types/index.ts], [models/Chat.ts], [models/Message.ts]) *)

Inductive ChatStatus := pending | accepted | rejected.

Definition ChatStatus_eqb (a b : ChatStatus) : bool :=
  match a, b with
  | pending, pending | accepted, accepted | rejected, rejected => true
  | _, _ => false
  end.

Definition ChatStatus_toString (s : ChatStatus) : string :=
  match s with
  | pending => "pending"
  | accepted => "accepted"
  | rejected => "rejected"
  end.

Module IUser.
Record t := mk { _id : ObjectId; username : string }.
End IUser.

Module IChat.
Record t := mk {
  _id : ObjectId;
  participants : list ObjectId;
  status : ChatStatus;
  initiatedBy : ObjectId;
  createdAt : Z;
  acceptedAt : option Z
}.
End IChat.

Module IMessage.
Record t := mk {
  _id : ObjectId;
  chatId : ObjectId;
  senderId : ObjectId;
  content : JsString;
  replyTo : option ObjectId;
  createdAt : Z;
  readAt : option Z
}.
End IMessage.

Module ChatResponse.
Record t := mk {
  _id : string;
  participants : list string;
  status : ChatStatus;
  initiatedBy : string;
  createdAt : Z;
  acceptedAt : option Z
}.
End ChatResponse.

Module MessageResponse.
Record t := mk {
  _id : string;
  chatId : string;
  senderId : string;
  content : JsString;
  createdAt : Z;
  readAt : option Z
}.
End MessageResponse.

Module PaginationQuery.
(** [page?: number; limit?: number].  [None] stands for a missing
    field and for [NaN] (what [parseInt] gives the controller on a
    non-number): both are falsy under [||]. *)
Record t := mk { page : option Z; limit : option Z }.
End PaginationQuery.

Module PaginatedResponse.
Record t := mk {
  data : list MessageResponse.t;
  page : Z;
  limit : Z;
  total : Z;
  totalPages : Z
}.
End PaginatedResponse.

(** ** Errors

    The services throw [new Error(<message>)]; one constructor per
    message in the source, plus the three errors Mongoose itself raises
    ([CastError] on an id it cannot cast, [ValidationError] from a schema
    validator, with the model, the path and the text of the validator
    that failed, and the duplicate-key write error with
    [code === 11000]), and the [TypeError] of the engine on a call of
    what is no function, with the engine's text. *)

Inductive Error :=
| InvalidUserId
| CannotChatWithYourself
| UsersDoNotExist
| InvalidChatOrUserId
| ChatNotFound
| NotAParticipant
| CannotAcceptOwnRequest
| ChatIsAlready (s : ChatStatus)
| InvalidChatId
| InvalidChatOrSenderId
| ChatNotAccepted
| CastError
| ValidationError (model path msg : string)
| DuplicateKey
| TypeError (msg : string).

Definition Error_message (e : Error) : string :=
  match e with
  | InvalidUserId => "Invalid user ID"
  | CannotChatWithYourself => "Cannot create chat with yourself"
  | UsersDoNotExist => "One or both users do not exist"
  | InvalidChatOrUserId => "Invalid chat ID or user ID"
  | ChatNotFound => "Chat not found"
  | NotAParticipant => "User is not a participant in this chat"
  | CannotAcceptOwnRequest => "Cannot accept your own chat request"
  | ChatIsAlready s => ("Chat is already " ++ ChatStatus_toString s)%string
  | InvalidChatId => "Invalid chat ID"
  | InvalidChatOrSenderId => "Invalid chat ID or sender ID"
  | ChatNotAccepted => "Cannot send messages to a chat that is not accepted"
  | CastError => "Cast to ObjectId failed"
  | ValidationError model path msg =>
      (model ++ " validation failed: " ++ path ++ ": " ++ msg)%string
  | DuplicateKey => "E11000 duplicate key error"
  | TypeError msg => msg
  end.

Definition Error_code (e : Error) : option Z :=
  match e with DuplicateKey => Some 11000 | _ => None end.

(** The error taxonomy of the design document, as it classifies the
    errors above. *)
Inductive ErrorKind :=
  InvalidArgument | Unauthorized | Forbidden | NotFound | Conflict | Internal.

Definition Error_kind (e : Error) : ErrorKind :=
  match e with
  | InvalidUserId | CannotChatWithYourself | InvalidChatOrUserId
  | InvalidChatId | InvalidChatOrSenderId | ValidationError _ _ _ => InvalidArgument
  | UsersDoNotExist | ChatNotFound => NotFound
  | NotAParticipant | CannotAcceptOwnRequest => Forbidden
  | ChatIsAlready _ | ChatNotAccepted => Conflict
  | CastError | DuplicateKey | TypeError _ => Internal
  end.

(** ** The store and the monad of service calls *)

Record Db := mkDb {
  users : list IUser.t;
  chats : list IChat.t;
  messages : list IMessage.t
}.

Inductive Result (A : Type) :=
| Ok (a : A)
| Throw (e : Error).
Arguments Ok {A} a.
Arguments Throw {A} e.

Definition M (A : Type) : Type := Db → Result A * Db.

Definition ret {A} (a : A) : M A := λ db, (Ok a, db).
Definition throw {A} (e : Error) : M A := λ db, (Throw e, db).
Definition bind {A B} (m : M A) (k : A → M B) : M B :=
  λ db, match m db with
        | (Ok a, db') => k a db'
        | (Throw e, db') => (Throw e, db')
        end.
Definition try_catch {A} (m : M A) (h : Error → M A) : M A :=
  λ db, match m db with
        | (Ok a, db') => (Ok a, db')
        | (Throw e, db') => h e db'
        end.

Notation "'let!' x ':=' m 'in' k" := (bind m (λ x, k))
  (at level 10, x pattern, m at level 100, k at level 200,
   format "'[v' 'let!'  x  ':='  m  'in' '/' k ']'").

(** ** Truthiness

    [!s] for a string. *)
Definition falsy (s : string) : bool :=
  match s with EmptyString => true | _ => false end.

(** [x || d] for a number that may be missing. *)
Definition or_number (x : option Z) (d : Z) : Z :=
  match x with
  | Some v => if v =? 0 then d else v
  | None => d
  end.

(** [s || d] for a string. *)
Definition or_string (s d : string) : string :=
  if falsy s then d else s.

(** ** The Mongoose models

    Each collection is the list of its documents in insertion order.
    A query casts the ids it is given and throws [CastError] on one
    that does not cast; [findOne]/[findById] give the first match. *)

Module User.
Section with_ids.
Context {ids : ObjectIdOps}.

Definition findById (id : string) : M (option IUser.t) :=
  λ db,
    if isValid id
    then (Ok (List.find (λ u, String.eqb (IUser._id u) (toHexString id)) (users db)), db)
    else (Throw CastError, db).
End with_ids.
End User.

Module Chat.
Section with_ids.
Context {ids : ObjectIdOps}.

Definition has_id (id : ObjectId) (c : IChat.t) : bool :=
  String.eqb (IChat._id c) id.

Definition findById (id : string) : M (option IChat.t) :=
  λ db,
    if isValid id
    then (Ok (List.find (has_id (toHexString id)) (chats db)), db)
    else (Throw CastError, db).

(** The filter [{ participants: { $all: [a, b] } }]. *)
Definition participants_all (a b : ObjectId) (c : IChat.t) : bool :=
  existsb (String.eqb a) (IChat.participants c)
  && existsb (String.eqb b) (IChat.participants c).

Definition findOne_participants_all (a b : string) : M (option IChat.t) :=
  λ db,
    if isValid a && isValid b
    then (Ok (List.find (participants_all (toHexString a) (toHexString b)) (chats db)), db)
    else (Throw CastError, db).

(** The [validate] entry of [chatSchema.participants]. *)
Definition validator (participants : list ObjectId) : bool :=
  match participants with
  | [p0; p1] => negb (String.eqb p0 p1)
  | _ => false
  end.

(** [save()] of a document made with [new Chat(...)]: validation,
    then insertion, which the unique index on [_id] may refuse. *)
Definition save_new (c : IChat.t) : M IChat.t :=
  λ db,
    if negb (validator (IChat.participants c))
    then (Throw (ValidationError "Chat" "participants"
                     "Chat must have exactly two different participants"), db)
    else if existsb (has_id (IChat._id c)) (chats db)
    then (Throw DuplicateKey, db)
    else (Ok c, mkDb (users db) (chats db ++ [c]) (messages db)).

Fixpoint replace (c : IChat.t) (cs : list IChat.t) : list IChat.t :=
  match cs with
  | [] => []
  | d :: cs' => if has_id (IChat._id c) d then c :: cs' else d :: replace c cs'
  end.

(** [save()] of a document that was loaded from the collection and
    then assigned to: the stored document with that [_id] is updated. *)
Definition save (c : IChat.t) : M IChat.t :=
  λ db, (Ok c, mkDb (users db) (replace c (chats db)) (messages db)).
End with_ids.
End Chat.

Module Message.
Section with_ids.
Context {ids : ObjectIdOps}.

Definition has_id (id : ObjectId) (m : IMessage.t) : bool :=
  String.eqb (IMessage._id m) id.

Definition in_chat (chatId : ObjectId) (m : IMessage.t) : bool :=
  String.eqb (IMessage.chatId m) chatId.

(** [sort({ createdAt: -1 })]: newest first.  MongoDB does not fix the
    order of documents with equal [createdAt]; the sort below is one
    fixed order, the same in every query. *)
Definition newer_first (a b : IMessage.t) : Prop :=
  IMessage.createdAt b ≤ IMessage.createdAt a.

#[global] Instance newer_first_dec : RelDecision newer_first :=
  λ a b, Z_le_dec (IMessage.createdAt b) (IMessage.createdAt a).

Definition sort_createdAt_desc (ms : list IMessage.t) : list IMessage.t :=
  merge_sort newer_first ms.

(** [populate('senderId', 'username')]: the message with the user
    document its [senderId] refers to, or [null] when there is none. *)
Definition populate_senderId (db : Db) (m : IMessage.t) : IMessage.t * option IUser.t :=
  (m, List.find (λ u, String.eqb (IUser._id u) (IMessage.senderId m)) (users db)).

(** [Message.find({ chatId }).populate('senderId', 'username')
      .sort({ createdAt: -1 }).skip(skip).limit(limit)] *)
Definition find_populate_sort_skip_limit (chatId : string) (skip limit : Z)
  : M (list (IMessage.t * option IUser.t)) :=
  λ db,
    if isValid chatId
    then (Ok (map (populate_senderId db)
                (take (Z.to_nat limit)
                   (drop (Z.to_nat skip)
                      (sort_createdAt_desc
                         (List.filter (in_chat (toHexString chatId)) (messages db)))))), db)
    else (Throw CastError, db).

Definition countDocuments (chatId : string) : M Z :=
  λ db,
    if isValid chatId
    then (Ok (Z.of_nat (List.length (List.filter (in_chat (toHexString chatId)) (messages db)))), db)
    else (Throw CastError, db).

(** [content] of [messageSchema]: the [trim] setter, then the
    validators in the order Mongoose runs them, [required] first, and
    the text of the first that fails.  [required] refuses the empty
    string (so [minlength 1] never fails after it), [maxlength 5000]
    compares the [length] of the string, its number of code units. *)
Definition validate_content (content : JsString) : option string :=
  let n := List.length (trim content) in
  if (n =? 0)%nat then Some "Path `content` is required."
  else if (5000 <? n)%nat then Some "Message cannot exceed 5000 characters"
  else None.

Definition save_new (m : IMessage.t) : M IMessage.t :=
  λ db,
    match validate_content (IMessage.content m) with
    | Some msg => (Throw (ValidationError "Message" "content" msg), db)
    | None =>
        if existsb (has_id (IMessage._id m)) (messages db)
        then (Throw DuplicateKey, db)
        else
          let m' := IMessage.mk (IMessage._id m) (IMessage.chatId m) (IMessage.senderId m)
                      (trim (IMessage.content m)) (IMessage.replyTo m)
                      (IMessage.createdAt m) (IMessage.readAt m) in
          (Ok m', mkDb (users db) (chats db) (messages db ++ [m']))
    end.
End with_ids.
End Message.

(** ** [services/user.service.ts] *)

Module UserService.
Section with_ids.
Context {ids : ObjectIdOps}.

Definition userExists (userId : string) : M bool :=
  if negb (isValid userId) then ret false
  else
    let! user := User.findById userId in
    ret (match user with Some _ => true | None => false end).
End with_ids.
End UserService.

(** ** [services/chat.service.ts] *)

Module CreateChatRequest.
Record t := mk { fromUserId : string; toUserId : string }.
End CreateChatRequest.

Module ChatService.
Section with_ids.
Context {ids : ObjectIdOps}.

Definition toChatResponse (chat : IChat.t) : ChatResponse.t :=
  {| ChatResponse._id := IChat._id chat;
     ChatResponse.participants := map (λ p, p) (IChat.participants chat);
     ChatResponse.status := IChat.status chat;
     ChatResponse.initiatedBy := IChat.initiatedBy chat;
     ChatResponse.createdAt := IChat.createdAt chat;
     ChatResponse.acceptedAt := IChat.acceptedAt chat |}.

(** [senderId] is the populated user document (or [null]) after
    [populate], and the bare id otherwise. *)
Definition toMessageResponse (message : IMessage.t) (populated : option (option IUser.t))
  : MessageResponse.t :=
  let senderId :=
    match populated with
    | None => IMessage.senderId message
    | Some (Some user) => IUser._id user
    | Some None => ""
    end in
  {| MessageResponse._id := IMessage._id message;
     MessageResponse.chatId := IMessage.chatId message;
     MessageResponse.senderId := senderId;
     MessageResponse.content := IMessage.content message;
     MessageResponse.createdAt := IMessage.createdAt message;
     MessageResponse.readAt := IMessage.readAt message |}.

(** [now] and [newId] are the clock reading and the [_id] that
    [new Chat(...)] gives the document. *)
Definition createChatRequest (data : CreateChatRequest.t) (now : Z) (newId : ObjectId)
  : M ChatResponse.t :=
  let fromUserId := CreateChatRequest.fromUserId data in
  let toUserId := CreateChatRequest.toUserId data in
  if negb (isValid fromUserId) || negb (isValid toUserId) then throw InvalidUserId
  else if String.eqb fromUserId toUserId then throw CannotChatWithYourself
  else
    let! fromUserExists := UserService.userExists fromUserId in
    let! toUserExists := UserService.userExists toUserId in
    if negb fromUserExists || negb toUserExists then throw UsersDoNotExist
    else
      let! existingChat := Chat.findOne_participants_all fromUserId toUserId in
      match existingChat with
      | Some existingChat => ret (toChatResponse existingChat)
      | None =>
          let chat :=
            {| IChat._id := newId;
               IChat.participants := [toHexString fromUserId; toHexString toUserId];
               IChat.status := pending;
               IChat.initiatedBy := toHexString fromUserId;
               IChat.createdAt := now;
               IChat.acceptedAt := None |} in
          try_catch
            (let! savedChat := Chat.save_new chat in
             ret (toChatResponse savedChat))
            (λ error,
               match Error_code error with
               | Some 11000 =>
                   let! existing := Chat.findOne_participants_all fromUserId toUserId in
                   match existing with
                   | Some existing => ret (toChatResponse existing)
                   | None => throw error
                   end
               | _ => throw error
               end)
      end.

Definition acceptChat (chatId userId : string) (now : Z) : M ChatResponse.t :=
  if negb (isValid chatId) || negb (isValid userId) then throw InvalidChatOrUserId
  else
    let! chat := Chat.findById chatId in
    match chat with
    | None => throw ChatNotFound
    | Some chat =>
        let isParticipant :=
          existsb (λ p, String.eqb p userId) (IChat.participants chat) in
        if negb isParticipant then throw NotAParticipant
        else if String.eqb (IChat.initiatedBy chat) userId then throw CannotAcceptOwnRequest
        else if negb (ChatStatus_eqb (IChat.status chat) pending)
        then throw (ChatIsAlready (IChat.status chat))
        else
          let chat :=
            {| IChat._id := IChat._id chat;
               IChat.participants := IChat.participants chat;
               IChat.status := accepted;
               IChat.initiatedBy := IChat.initiatedBy chat;
               IChat.createdAt := IChat.createdAt chat;
               IChat.acceptedAt := Some now |} in
          let! updatedChat := Chat.save chat in
          ret (toChatResponse updatedChat)
    end.

Definition getChatById (chatId : string) : M (option IChat.t) :=
  if negb (isValid chatId) then ret None
  else Chat.findById chatId.

Definition validateChatParticipants (chatId userId : string) : M IChat.t :=
  if negb (isValid chatId) || negb (isValid userId) then throw InvalidChatOrUserId
  else
    let! chat := Chat.findById chatId in
    match chat with
    | None => throw ChatNotFound
    | Some chat =>
        let isParticipant :=
          existsb (λ p, String.eqb p userId) (IChat.participants chat) in
        if negb isParticipant then throw NotAParticipant
        else ret chat
    end.

(** [Math.ceil(total / limit)], in exact arithmetic. *)
Definition ceil_div (total limit : Z) : Z := - ((- total) / limit).

Definition getChatMessages (chatId : string) (query : PaginationQuery.t)
  : M PaginatedResponse.t :=
  if negb (isValid chatId) then throw InvalidChatId
  else
    let page := Z.max 1 (or_number (PaginationQuery.page query) 1) in
    let limit := Z.min 100 (Z.max 1 (or_number (PaginationQuery.limit query) 50)) in
    let skip := (page - 1) * limit in
    let! chat := Chat.findById chatId in
    match chat with
    | None => throw ChatNotFound
    | Some _ =>
        let! messages := Message.find_populate_sort_skip_limit chatId skip limit in
        let! total := Message.countDocuments chatId in
        ret {| PaginatedResponse.data :=
                 rev (map (λ msg, toMessageResponse msg.1 (Some msg.2)) messages);
               PaginatedResponse.page := page;
               PaginatedResponse.limit := limit;
               PaginatedResponse.total := total;
               PaginatedResponse.totalPages := ceil_div total limit |}
    end.

(** [now] and [newId] are the clock reading and the [_id] that
    [new Message(...)] gives the document.  The function has three
    parameters: it takes no reply-to id. *)
Definition createMessage (chatId senderId : string) (content : JsString) (now : Z)
    (newId : ObjectId) : M MessageResponse.t :=
  if negb (isValid chatId) || negb (isValid senderId) then throw InvalidChatOrSenderId
  else
    let! chat := validateChatParticipants chatId senderId in
    if negb (ChatStatus_eqb (IChat.status chat) accepted) then throw ChatNotAccepted
    else
      let message :=
        {| IMessage._id := newId;
           IMessage.chatId := toHexString chatId;
           IMessage.senderId := toHexString senderId;
           IMessage.content := trim content;
           IMessage.replyTo := None;
           IMessage.createdAt := now;
           IMessage.readAt := None |} in
      let! savedMessage := Message.save_new message in
      ret (toMessageResponse savedMessage None).

(** [chatService.deleteMessage], which [message.handler.ts] calls:
    the class [ChatService] declares no method of that name, so the
    property is [undefined] and the call throws a [TypeError],
    whatever the arguments.  Its text is the engine's, here that of
    V8 for the call as the source spells it; a transpiled script
    names the callee otherwise, and no statement below depends on
    more than that the text is not empty. *)
Definition deleteMessage (messageId userId : string) : M (bool * string) :=
  throw (TypeError "chatService.deleteMessage is not a function").
End with_ids.
End ChatService.

(** ** [websocket/message.handler.ts]

    What a handler sends is the list of its emissions in order: each
    is an event and the socket id it goes to ([socket.emit] goes to the
    socket of the caller, [io.to(socketId).emit] to [socketId]). *)

Inductive ServerToClientEvent :=
| MESSAGE_RECEIVED (message : MessageResponse.t) (chatId : string)
| MESSAGE_DELETED (messageId chatId : string)
| CHAT_REQUEST (chat : ChatResponse.t)
| CHAT_ACCEPTED (chat : ChatResponse.t)
| ERROR (error message : string).

Record Emission := emit_to { to : string; event : ServerToClientEvent }.

Module MessageSendData.
Record t := mk {
  chatId : string;
  content : JsString;
  senderId : string;
  replyToId : option string
}.
End MessageSendData.

Module MessageDeleteData.
Record t := mk { messageId : string; userId : string }.
End MessageDeleteData.

Module MessageHandler.
Section with_ids.
Context {ids : ObjectIdOps}.

(** [users.forEach(u => { const socketId = onlineUsers.get(u);
    if (socketId) io.to(socketId).emit(ev) })] *)
Definition emit_to_online (onlineUsers : gmap string string)
    (userIds : list string) (ev : ServerToClientEvent) : list Emission :=
  flat_map
    (λ userId,
       match onlineUsers !! userId with
       | Some socketId => if falsy socketId then [] else [emit_to socketId ev]
       | None => []
       end)
    userIds.

(** [socket] is the id of the calling socket.  The call of
    [createMessage] passes [replyToId] as a fourth argument, which the
    three-parameter function does not receive. *)
Definition handleMessageSend (socket : string) (data : MessageSendData.t)
    (onlineUsers : gmap string string) (now : Z) (newId : ObjectId)
  : Db → Result unit * list Emission * Db :=
  λ db,
    let chatId := MessageSendData.chatId data in
    let content := MessageSendData.content data in
    let senderId := MessageSendData.senderId data in
    if falsy chatId || falsy_text content || falsy senderId
    then (Ok tt,
          [emit_to socket (ERROR "Missing required fields"
                             "chatId, content, and senderId are required")], db)
    else
      let body : M (list Emission) :=
        let! chat := ChatService.validateChatParticipants chatId senderId in
        if negb (ChatStatus_eqb (IChat.status chat) accepted)
        then ret [emit_to socket
                    (ERROR "Chat not accepted"
                       "Cannot send messages to a chat that is not accepted")]
        else
          let! message := ChatService.createMessage chatId senderId content now newId in
          let participants := map (λ p, p) (IChat.participants chat) in
          ret (emit_to_online onlineUsers participants (MESSAGE_RECEIVED message chatId)) in
      match body db with
      | (Ok emitted, db') => (Ok tt, emitted, db')
      | (Throw error, db') =>
          (Throw error,
           [emit_to socket
              (ERROR (or_string (Error_message error) "Failed to send message")
                 "An error occurred while processing the message")], db')
      end.

Definition handleMessageDelete (socket : string) (data : MessageDeleteData.t)
    (onlineUsers : gmap string string)
  : Db → Result unit * list Emission * Db :=
  λ db,
    let messageId := MessageDeleteData.messageId data in
    let userId := MessageDeleteData.userId data in
    if falsy messageId || falsy userId
    then (Ok tt,
          [emit_to socket (ERROR "Missing required fields"
                             "messageId and userId are required")], db)
    else
      let body : M (list Emission) :=
        let! r := ChatService.deleteMessage messageId userId in
        let '(success, chatId) := r in
        if success
        then
          let! chat := ChatService.getChatById chatId in
          match chat with
          | Some chat =>
              let participants := map (λ p, p) (IChat.participants chat) in
              ret (emit_to_online onlineUsers participants
                     (MESSAGE_DELETED messageId chatId))
          | None => ret []
          end
        else ret [] in
      match body db with
      | (Ok emitted, db') => (Ok tt, emitted, db')
      | (Throw error, db') =>
          (Ok tt,
           [emit_to socket
              (ERROR (or_string (Error_message error) "Failed to delete message")
                 "An error occurred while deleting the message")], db')
      end.
End with_ids.
End MessageHandler.

(** ** A concrete id format

    The 24-digit hexadecimal form of an ObjectId, rendered in lower
    case: an instance of the interface on which the definitions above
    can be run. *)

Definition is_hex_digit (c : ascii) : bool :=
  let n := nat_of_ascii c in
  ((48 <=? n) && (n <=? 57) || (65 <=? n) && (n <=? 70) || (97 <=? n) && (n <=? 102))%nat.

Definition to_lower (c : ascii) : ascii :=
  let n := nat_of_ascii c in
  if ((65 <=? n) && (n <=? 90))%nat then ascii_of_nat (n + 32) else c.

Fixpoint string_forallb (f : ascii → bool) (s : string) : bool :=
  match s with
  | EmptyString => true
  | String c s' => f c && string_forallb f s'
  end.

Fixpoint string_map (f : ascii → ascii) (s : string) : string :=
  match s with
  | EmptyString => EmptyString
  | String c s' => String (f c) (string_map f s')
  end.

Definition hex24 : ObjectIdOps :=
  {| isValid s := (String.length s =? 24)%nat && string_forallb is_hex_digit s;
     toHexString s := string_map to_lower s |}.

(** ** Sample data

    Two users, a chat between them that the second has accepted, and
    the sockets of a session; used to run the definitions. *)

Module Sample.
Definition alice : string := "aaaaaaaaaaaaaaaaaaaaaaaa".
Definition bob : string := "bbbbbbbbbbbbbbbbbbbbbbbb".
Definition carol : string := "cccccccccccccccccccccccc".
Definition chat1 : string := "c1c1c1c1c1c1c1c1c1c1c1c1".
Definition chat2 : string := "c2c2c2c2c2c2c2c2c2c2c2c2".
Definition msg1 : string := "000000000000000000000001".
Definition msg2 : string := "000000000000000000000002".
Definition msg3 : string := "000000000000000000000003".
Definition no_such_message : string := "ffffffffffffffffffffffff".

Definition the_users : list IUser.t :=
  [IUser.mk alice "alice"; IUser.mk bob "bob"; IUser.mk carol "carol"].

Definition pending_chat : IChat.t :=
  IChat.mk chat1 [alice; bob] pending alice 10 None.
Definition accepted_chat : IChat.t :=
  IChat.mk chat1 [alice; bob] accepted alice 10 (Some 20).

Definition db_empty : Db := mkDb the_users [] [].
Definition db_pending : Db := mkDb the_users [pending_chat] [].
Definition db_accepted : Db := mkDb the_users [accepted_chat] [].

Definition message (id sender text : string) (at_ : Z) : IMessage.t :=
  IMessage.mk id chat1 sender (js text) None at_ None.

(** Three messages in the accepted chat, sent at times 31, 32, 33. *)
Definition db_three : Db :=
  mkDb the_users [accepted_chat]
    [message msg1 alice "one" 31; message msg2 bob "two" 32;
     message msg3 alice "three" 33].

(** Only bob is connected. *)
Definition bob_online : gmap string string := {[ bob := "socket-bob" ]}.
End Sample.

(** ** Vocabulary of the statements *)

Section vocabulary.
Context {ids : ObjectIdOps}.

(** The message document that [createMessage] builds and stores. *)
Definition created_message (chatId senderId : string) (content : JsString) (now : Z)
    (newId : ObjectId) : IMessage.t :=
  {| IMessage._id := newId;
     IMessage.chatId := toHexString chatId;
     IMessage.senderId := toHexString senderId;
     IMessage.content := trim content;
     IMessage.replyTo := None;
     IMessage.createdAt := now;
     IMessage.readAt := None |}.

(** The messages of a chat, in insertion order. *)
Definition chat_messages (chatId : string) (db : Db) : list IMessage.t :=
List.filter (Message.in_chat (toHexString chatId)) (messages db).

(** A stored message as [getChatMessages] renders it. *)
Definition listed (db : Db) (m : IMessage.t) : MessageResponse.t :=
let msg := Message.populate_senderId db m in
ChatService.toMessageResponse msg.1 (Some msg.2).

(** Creation times do not decrease from left to right. *)
Definition oldest_first (a b : MessageResponse.t) : Prop :=
MessageResponse.createdAt a ≤ MessageResponse.createdAt b.

#[global] Instance oldest_first_dec : RelDecision oldest_first :=
λ a b, Z_le_dec (MessageResponse.createdAt a) (MessageResponse.createdAt b).

(** The chronological history of a chat: all its messages, oldest
    first (the newest-first order of the store, read backwards). *)
Definition history (chatId : string) (db : Db) : list MessageResponse.t :=
rev (map (listed db) (Message.sort_createdAt_desc (chat_messages chatId db))).

(** The [data] of page [page] under the given [limit]. *)
Definition page_data (chatId : string) (limit : option Z) (db : Db) (page : Z)
  : list MessageResponse.t :=
match ChatService.getChatMessages chatId (PaginationQuery.mk (Some page) limit) db with
| (Ok r, _) => PaginatedResponse.data r
| (Throw _, _) => []
end.

(** The page and the limit in the words of the design document: the
    page is floored at 1 and is 1 when not given; the limit is clamped
    to 1..100 and is 50 when not given. *)
Definition clamp (lo hi v : Z) : Z := Z.min hi (Z.max lo v).

Definition spec_page (page : option Z) : Z :=
match page with Some v => Z.max 1 v | None => 1 end.

Definition spec_limit (limit : option Z) : Z :=
match limit with Some v => clamp 1 100 v | None => 50 end.
End vocabulary.

(** ** [services/chat.service.ts]: the chat list of a user *)

(** A chat as [.populate('participants', 'username')
    .populate('initiatedBy', 'username').lean()] gives it: the
    participants are the user documents found for the stored ids (an id
    without a user is dropped from the array), the initiator is the user
    document or [null]. *)
Module RawChat.
Record t := mk {
  _id : ObjectId;
  participants : list IUser.t;
  status : ChatStatus;
  initiatedBy : option IUser.t;
  createdAt : Z;
  acceptedAt : option Z
}.
End RawChat.

(** An element of the result of [getUserChats]: a [ChatResponse] with
    its [otherParticipant] field, which is [undefined] or an
    [{ _id, username }]. *)
Module UserChat.
Record t := mk {
  base : ChatResponse.t;
  otherParticipant : option (string * string)
}.
End UserChat.

Module ChatList.
Section with_ids.
Context {ids : ObjectIdOps}.

(** The filter [{ participants: userId }]. *)
Definition has_participant (userId : ObjectId) (c : IChat.t) : bool :=
  existsb (String.eqb userId) (IChat.participants c).

(** [sort({ createdAt: -1 })] on chats, one fixed order for ties. *)
Definition newer_first (a b : IChat.t) : Prop :=
  IChat.createdAt b ≤ IChat.createdAt a.

#[global] Instance newer_first_dec : RelDecision newer_first :=
  λ a b, Z_le_dec (IChat.createdAt b) (IChat.createdAt a).

Definition user_by_id (db : Db) (id : ObjectId) : option IUser.t :=
  List.find (λ u, String.eqb (IUser._id u) id) (users db).

Definition populate (db : Db) (c : IChat.t) : RawChat.t :=
  {| RawChat._id := IChat._id c;
     RawChat.participants := omap (user_by_id db) (IChat.participants c);
     RawChat.status := IChat.status c;
     RawChat.initiatedBy := user_by_id db (IChat.initiatedBy c);
     RawChat.createdAt := IChat.createdAt c;
     RawChat.acceptedAt := IChat.acceptedAt c |}.

(** [Chat.find({ participants: userId }).populate(...).populate(...)
      .sort({ createdAt: -1 }).lean()] *)
Definition find_populate_sort (userId : string) : M (list RawChat.t) :=
  λ db,
    if isValid userId
    then (Ok (map (populate db)
                (merge_sort newer_first
                   (List.filter (has_participant (toHexString userId)) (chats db)))), db)
    else (Throw CastError, db).

Definition toChatResponseFromRaw (chat : RawChat.t) : ChatResponse.t :=
  let participantIds := map (λ p, IUser._id p) (RawChat.participants chat) in
  let initiatedBy :=
    match RawChat.initiatedBy chat with
    | Some u => IUser._id u
    | None => ""
    end in
  {| ChatResponse._id := RawChat._id chat;
     ChatResponse.participants := participantIds;
     ChatResponse.status := RawChat.status chat;
     ChatResponse.initiatedBy := initiatedBy;
     ChatResponse.createdAt := RawChat.createdAt chat;
     ChatResponse.acceptedAt := RawChat.acceptedAt chat |}.

(** The callback of [chats.map] in [getUserChats]. *)
Definition toUserChat (userId : string) (chat : RawChat.t) : UserChat.t :=
  let base := toChatResponseFromRaw chat in
  let other :=
    List.find (λ p, negb (String.eqb (IUser._id p) userId)) (RawChat.participants chat) in
  {| UserChat.base := base;
     UserChat.otherParticipant :=
       match other with
       | Some other => Some (IUser._id other, IUser.username other)
       | None => None
       end |}.

Definition getUserChats (userId : string) : M (list UserChat.t) :=
  if negb (isValid userId) then throw InvalidUserId
  else
    let! chats := find_populate_sort userId in
    ret (map (toUserChat userId) chats).
End with_ids.
End ChatList.

(** ** [websocket/message.handler.ts]: notifications *)

Module Notify.
Definition notifyChatRequest (chat : ChatResponse.t) (onlineUsers : gmap string string)
  : list Emission :=
  let recipientId :=
    List.find (λ p, negb (String.eqb p (ChatResponse.initiatedBy chat)))
      (ChatResponse.participants chat) in
  match recipientId with
  | Some recipientId =>
      if falsy recipientId then []
      else
        match onlineUsers !! recipientId with
        | Some socketId => if falsy socketId then [] else [emit_to socketId (CHAT_REQUEST chat)]
        | None => []
        end
  | None => []
  end.

Definition notifyChatAccepted (chat : ChatResponse.t) (onlineUsers : gmap string string)
  : list Emission :=
  flat_map
    (λ userId,
       match onlineUsers !! userId with
       | Some socketId => if falsy socketId then [] else [emit_to socketId (CHAT_ACCEPTED chat)]
       | None => []
       end)
    (ChatResponse.participants chat).
End Notify.

(** ** [server.ts]: the service methods as patched at start-up, and
    the error-handling middleware *)

Module Server.
Section with_ids.
Context {ids : ObjectIdOps}.

(** [chatService.createChatRequest] after the assignment in
    [server.ts]: the original, then [notifyChatRequest] when the chat it
    returned is pending. *)
Definition createChatRequest (data : CreateChatRequest.t) (now : Z) (newId : ObjectId)
    (onlineUsers : gmap string string)
  : Db → Result ChatResponse.t * list Emission * Db :=
  λ db,
    match ChatService.createChatRequest data now newId db with
    | (Ok chat, db') =>
        (Ok chat,
         if ChatStatus_eqb (ChatResponse.status chat) pending
         then Notify.notifyChatRequest chat onlineUsers
         else [],
         db')
    | (Throw error, db') => (Throw error, [], db')
    end.

(** [chatService.acceptChat] after the assignment in [server.ts]. *)
Definition acceptChat (chatId userId : string) (now : Z)
    (onlineUsers : gmap string string)
  : Db → Result ChatResponse.t * list Emission * Db :=
  λ db,
    match ChatService.acceptChat chatId userId now db with
    | (Ok chat, db') => (Ok chat, Notify.notifyChatAccepted chat onlineUsers, db')
    | (Throw error, db') => (Throw error, [], db')
    end.

(** [err.statusCode]: no error of the chat service, and none that
    Mongoose raises, has this property. *)
Definition Error_statusCode (err : Error) : option Z := None.

(** The body of an HTTP response. *)
Inductive Body :=
| ChatJson (chat : ChatResponse.t)
| ChatsJson (chats : list UserChat.t)
| ErrorJson (error : string) (statusCode : Z).

Record Response := respond { status : Z; body : Body }.

(** The error-handling middleware (outside development mode). *)
Definition errorHandler (err : Error) : Response :=
  let statusCode := or_number (Error_statusCode err) 500 in
  let message := or_string (Error_message err) "Internal server error" in
  respond statusCode (ErrorJson message statusCode).
End with_ids.
End Server.

(** ** [controllers/chat.controller.ts]

    A body field that is absent is [None]. *)

Module ChatController.
Section with_ids.
Context {ids : ObjectIdOps}.

Definition falsy_field (f : option string) : bool :=
  match f with Some s => falsy s | None => true end.

Definition field (f : option string) : string :=
  match f with Some s => s | None => "" end.

(** [POST /api/chat/request] *)
Definition createChatRequest (fromUserId toUserId : option string) (now : Z)
    (newId : ObjectId) (onlineUsers : gmap string string)
  : Db → Server.Response * list Emission * Db :=
  λ db,
    if falsy_field fromUserId || falsy_field toUserId
    then (Server.respond 400
            (Server.ErrorJson "fromUserId and toUserId are required" 400), [], db)
    else
      match Server.createChatRequest
              (CreateChatRequest.mk (field fromUserId) (field toUserId))
              now newId onlineUsers db with
      | (Ok chat, emitted, db') => (Server.respond 201 (Server.ChatJson chat), emitted, db')
      | (Throw error, emitted, db') => (Server.errorHandler error, emitted, db')
      end.

(** [POST /api/chat/:chatId/accept] *)
Definition acceptChat (chatId : string) (userId : option string) (now : Z)
    (onlineUsers : gmap string string)
  : Db → Server.Response * list Emission * Db :=
  λ db,
    if falsy_field userId
    then (Server.respond 400
            (Server.ErrorJson "userId is required in request body" 400), [], db)
    else
      match Server.acceptChat chatId (field userId) now onlineUsers db with
      | (Ok chat, emitted, db') => (Server.respond 200 (Server.ChatJson chat), emitted, db')
      | (Throw error, emitted, db') => (Server.errorHandler error, emitted, db')
      end.

(** [GET /api/chat/user/:userId] *)
Definition getUserChats (userId : string) : Db → Server.Response * Db :=
  λ db,
    match ChatList.getUserChats userId db with
    | (Ok chats, db') => (Server.respond 200 (Server.ChatsJson chats), db')
    | (Throw error, db') => (Server.errorHandler error, db')
    end.
End with_ids.
End ChatController.

(** ** [websocket/socket.handler.ts]

    [onlineUsers] is a JavaScript [Map]: its entries are kept in
    insertion order, [set] on a key that is present replaces the value
    in place, and the keys are distinct. *)

Module JsMap.
Definition t : Type := list (string * string).

Definition get (k : string) (m : t) : option string :=
  match List.find (λ e, String.eqb e.1 k) m with
  | Some e => Some e.2
  | None => None
  end.

Fixpoint set (k v : string) (m : t) : t :=
  match m with
  | [] => [(k, v)]
  | e :: m' => if String.eqb e.1 k then (k, v) :: m' else e :: set k v m'
  end.

Definition delete (k : string) (m : t) : t :=
  List.filter (λ e, negb (String.eqb e.1 k)) m.

(** The map as the handlers of [message.handler.ts] read it. *)
Definition to_gmap (m : t) : gmap string string := list_to_map m.
End JsMap.

Module SocketHandler.
Section with_ids.
Context {ids : ObjectIdOps}.

(** [socket.on('USER_CONNECT', ...)] on the socket with id [socket]. *)
Definition USER_CONNECT (socket userId : string) (onlineUsers : JsMap.t) : JsMap.t :=
  if falsy userId then onlineUsers else JsMap.set userId socket onlineUsers.

(** [socket.on('disconnect', ...)]: the first entry, in the order of
    the map, whose socket id is that of the socket is deleted. *)
Definition disconnect (socket : string) (onlineUsers : JsMap.t) : JsMap.t :=
  match List.find (λ e, String.eqb e.2 socket) onlineUsers with
  | Some e => JsMap.delete e.1 onlineUsers
  | None => onlineUsers
  end.

Definition emitToUser (onlineUsers : JsMap.t) (userId : string)
    (ev : ServerToClientEvent) : list Emission :=
  match JsMap.get userId onlineUsers with
  | Some socketId => if falsy socketId then [] else [emit_to socketId ev]
  | None => []
  end.

Definition emitToUsers (onlineUsers : JsMap.t) (userIds : list string)
    (ev : ServerToClientEvent) : list Emission :=
  flat_map (λ userId, emitToUser onlineUsers userId ev) userIds.

(** [socket.on('MESSAGE_SEND', ...)]: the handler, and one more [ERROR]
    to the socket when the handler throws. *)
Definition MESSAGE_SEND (socket : string) (data : MessageSendData.t)
    (onlineUsers : JsMap.t) (now : Z) (newId : ObjectId)
  : Db → list Emission * Db :=
  λ db,
    match MessageHandler.handleMessageSend socket data (JsMap.to_gmap onlineUsers)
            now newId db with
    | (Ok _, emitted, db') => (emitted, db')
    | (Throw error, emitted, db') =>
        ((emitted ++
          [emit_to socket
             (ERROR (or_string (Error_message error) "Failed to send message")
                "An error occurred while sending the message")])%list, db')
    end.
End with_ids.
End SocketHandler.

(** ** Calls of the service, and the stores they lead to *)

Inductive Call :=
| CreateChatRequest (data : CreateChatRequest.t) (now : Z) (newId : ObjectId)
| AcceptChat (chatId userId : string) (now : Z)
| CreateMessage (chatId senderId : string) (content : JsString) (now : Z) (newId : ObjectId)
| GetChatMessages (chatId : string) (query : PaginationQuery.t)
| GetUserChats (userId : string)
| GetChatById (chatId : string)
| ValidateChatParticipants (chatId userId : string)
| UserExists (userId : string).

Section calls.
Context {ids : ObjectIdOps}.

(** The store a call leaves, whether it returns or throws. *)
Definition after (c : Call) (db : Db) : Db :=
  match c with
  | CreateChatRequest data now newId => (ChatService.createChatRequest data now newId db).2
  | AcceptChat chatId userId now => (ChatService.acceptChat chatId userId now db).2
  | CreateMessage chatId senderId content now newId =>
      (ChatService.createMessage chatId senderId content now newId db).2
  | GetChatMessages chatId query => (ChatService.getChatMessages chatId query db).2
  | GetUserChats userId => (ChatList.getUserChats userId db).2
  | GetChatById chatId => (ChatService.getChatById chatId db).2
  | ValidateChatParticipants chatId userId =>
      (ChatService.validateChatParticipants chatId userId db).2
  | UserExists userId => (UserService.userExists userId db).2
  end.

Definition step (db db' : Db) : Prop := ∃ c, db' = after c db.

(** The stores that calls of the service make of a store that has
    users and no chats or messages yet. *)
Definition reachable (db : Db) : Prop :=
  ∃ us, rtc step (mkDb us [] []) db.

(** A chat as the schema and the service mean it: two different
    participants, one of them the initiator, never rejected, and an
    acceptance time exactly when accepted. *)
Definition chat_ok (c : IChat.t) : Prop :=
  Chat.validator (IChat.participants c) = true
  ∧ In (IChat.initiatedBy c) (IChat.participants c)
  ∧ IChat.status c ≠ rejected
  ∧ (IChat.status c = accepted ↔ is_Some (IChat.acceptedAt c)).

(** Two chats are between the same two users. *)
Definition same_pair (c d : IChat.t) : Prop :=
  ∀ p, In p (IChat.participants c) ↔ In p (IChat.participants d).

(** A message as the service stores it: in an accepted chat of the
    store, sent by a participant of that chat, with trimmed content of
    1 to 5000 code units and no reply-to or read mark. *)
Definition message_ok (cs : list IChat.t) (m : IMessage.t) : Prop :=
  (∃ c, In c cs
        ∧ IChat._id c = IMessage.chatId m
        ∧ IChat.status c = accepted
        ∧ In (IMessage.senderId m) (IChat.participants c))
  ∧ trim (IMessage.content m) = IMessage.content m
  ∧ (1 ≤ List.length (IMessage.content m) ≤ 5000)%nat
  ∧ IMessage.replyTo m = None
  ∧ IMessage.readAt m = None.

(** A chat of the store at a later time: the same document but for
    the one change there is, from pending to accepted. *)
Definition chat_evolves (c c' : IChat.t) : Prop :=
  IChat._id c' = IChat._id c
  ∧ IChat.participants c' = IChat.participants c
  ∧ IChat.initiatedBy c' = IChat.initiatedBy c
  ∧ IChat.createdAt c' = IChat.createdAt c
  ∧ (c' = c ∨ (IChat.status c = pending ∧ IChat.status c' = accepted)).

(** What holds of every store the service makes: chat ids are
    distinct; every chat is as above and its participant ids are in
    canonical form; no two chats are between the same two users;
    message ids are distinct and every message is as above. *)
Definition store_ok (db : Db) : Prop :=
  NoDup (map IChat._id (chats db))
  ∧ Forall chat_ok (chats db)
  ∧ Forall (λ c, Forall (λ p, toHexString p = p) (IChat.participants c)) (chats db)
  ∧ (∀ i j c d, chats db !! i = Some c → chats db !! j = Some d → same_pair c d → i = j)
  ∧ NoDup (map IMessage._id (messages db))
  ∧ Forall (message_ok (chats db)) (messages db).

(** A store at a later time: the same users, the chats it had, each
    evolved, followed by new ones, and the messages it had, unchanged,
    followed by new ones. *)
Definition store_grows (db db' : Db) : Prop :=
  users db' = users db
  ∧ (∃ cs' new, chats db' = (cs' ++ new)%list ∧ Forall2 chat_evolves (chats db) cs')
  ∧ (∃ new, messages db' = (messages db ++ new)%list).
End calls.

(** The property of the id format that the canonical rendering of an
    id is its own canonical rendering. *)
Class ObjectIdLaws (ids : ObjectIdOps) := {
  toHexString_idemp : ∀ s, toHexString (toHexString s) = toHexString s
}.

(** * Properties *)

(** Running a computation step by step. *)
Ltac run := unfold bind, ret, throw, try_catch in *; simpl in *.

(** ** Facts about the collections *)

Section collection_facts.
Context {ids : ObjectIdOps}.

Lemma findById_Some chatId db chat :
  Chat.findById chatId db = (Ok (Some chat), db) →
  isValid chatId = true
  ∧ List.find (Chat.has_id (toHexString chatId)) (chats db) = Some chat.
Proof.
  unfold Chat.findById. destruct (isValid chatId); [|discriminate].
  intros [= ->]. done.
Qed.

Lemma findById_state chatId db r db' :
  Chat.findById chatId db = (r, db') → db' = db.
Proof. unfold Chat.findById. destruct (isValid chatId); by intros [= _ <-]. Qed.

Lemma find_has_id id cs (c : IChat.t) :
  List.find (Chat.has_id id) cs = Some c → IChat._id c = id.
Proof.
  intros Hf. apply find_some in Hf as [_ Hid].
  unfold Chat.has_id in Hid. by apply String.eqb_eq in Hid.
Qed.

Lemma find_replace (c d : IChat.t) cs :
  List.find (Chat.has_id (IChat._id c)) cs = Some d →
  List.find (Chat.has_id (IChat._id c)) (Chat.replace c cs) = Some c.
Proof.
  induction cs as [|x cs IH]; simpl; [done|].
  destruct (Chat.has_id (IChat._id c) x) eqn:Hx.
  - intros _. simpl. unfold Chat.has_id. by rewrite String.eqb_refl.
  - intros Hf. simpl. rewrite Hx. by apply IH.
Qed.

Lemma find_app_first {A} (f : A → bool) l1 l2 :
  List.find f (l1 ++ l2) =
  match List.find f l1 with Some x => Some x | None => List.find f l2 end.
Proof.
  induction l1 as [|x l1 IH]; simpl; [done|]. by destruct (f x).
Qed.

Lemma existsb_eqb_In (x : string) l :
  existsb (λ p, String.eqb p x) l = true ↔ In x l.
Proof.
  rewrite existsb_exists. split.
  - intros (p & Hp & Heq). apply String.eqb_eq in Heq. by subst.
  - intros Hin. exists x. split; [done|]. apply String.eqb_refl.
Qed.
End collection_facts.

(** ** [acceptChat] *)

Section acceptChat_facts.
Context {ids : ObjectIdOps}.

(** The checks of [acceptChat] on a chat that was found, in order. *)
Lemma acceptChat_found chatId userId now db chat :
  Chat.findById chatId db = (Ok (Some chat), db) →
  isValid userId = true →
  ChatService.acceptChat chatId userId now db =
    if negb (existsb (λ p, String.eqb p userId) (IChat.participants chat))
    then (Throw NotAParticipant, db)
    else if String.eqb (IChat.initiatedBy chat) userId
    then (Throw CannotAcceptOwnRequest, db)
    else if negb (ChatStatus_eqb (IChat.status chat) pending)
    then (Throw (ChatIsAlready (IChat.status chat)), db)
    else
      let chat' := IChat.mk (IChat._id chat) (IChat.participants chat) accepted
                     (IChat.initiatedBy chat) (IChat.createdAt chat) (Some now) in
      (Ok (ChatService.toChatResponse chat'),
       mkDb (users db) (Chat.replace chat' (chats db)) (messages db)).
Proof.
  intros Hfind Hu. pose proof (findById_Some _ _ _ Hfind) as [Hc _].
  unfold ChatService.acceptChat. rewrite Hc, Hu. run. rewrite Hfind.
  destruct (existsb _ _); simpl; [|done].
  destruct (String.eqb _ _); [done|].
  by destruct (ChatStatus_eqb _ _).
Qed.

(** C3: on an existing chat, [acceptChat] called by the user who
    initiated it throws a Forbidden error and leaves the store as it
    was, whatever the status of the chat: the error is the one of the
    initiator check (or, were the initiator not among the
    participants, the one of the participant check), never the
    status error. *)
Theorem acceptChat_initiator_forbidden chatId userId now db chat :
  Chat.findById chatId db = (Ok (Some chat), db) →
  isValid userId = true →
  userId = IChat.initiatedBy chat →
  ∃ e, ChatService.acceptChat chatId userId now db = (Throw e, db)
       ∧ Error_kind e = Forbidden
       ∧ (∀ s, e ≠ ChatIsAlready s)
       ∧ (In userId (IChat.participants chat) → e = CannotAcceptOwnRequest).
Proof.
  intros Hfind Hu ->. rewrite (acceptChat_found _ _ _ _ _ Hfind Hu).
  destruct (existsb _ _) eqn:Hp; simpl.
  - rewrite String.eqb_refl. exists CannotAcceptOwnRequest. done.
  - exists NotAParticipant. repeat split; [done|].
    intros Hin. apply existsb_eqb_In in Hin. congruence.
Qed.

(** C4: on an existing chat that is not pending, [acceptChat] called
    by a participant other than the initiator throws the Conflict
    error whose message ends in the current status, and the store is
    left as it was. *)
Theorem acceptChat_not_pending_conflict chatId userId now db chat :
  Chat.findById chatId db = (Ok (Some chat), db) →
  isValid userId = true →
  In userId (IChat.participants chat) →
  userId ≠ IChat.initiatedBy chat →
  IChat.status chat ≠ pending →
  ChatService.acceptChat chatId userId now db
    = (Throw (ChatIsAlready (IChat.status chat)), db)
  ∧ Error_kind (ChatIsAlready (IChat.status chat)) = Conflict
  ∧ Error_message (ChatIsAlready (IChat.status chat))
    = ("Chat is already " ++ ChatStatus_toString (IChat.status chat))%string.
Proof.
  intros Hfind Hu Hin Hne Hst. rewrite (acceptChat_found _ _ _ _ _ Hfind Hu).
  apply existsb_eqb_In in Hin. rewrite Hin. simpl.
  destruct (String.eqb_spec (IChat.initiatedBy chat) userId) as [Heq|_];
    [by subst|].
  by destruct (IChat.status chat).
Qed.

(** C9: on a pending chat, [acceptChat] called by the participant who
    did not initiate it succeeds; the chat then stored under that id
    has status accepted and [acceptedAt] set to the time of the call,
    and the same id, participants, initiator and creation time as
    before; users and messages are untouched and no chat is added or
    removed. *)
Theorem acceptChat_pending_frame chatId userId now db chat :
  Chat.findById chatId db = (Ok (Some chat), db) →
  isValid userId = true →
  In userId (IChat.participants chat) →
  userId ≠ IChat.initiatedBy chat →
  IChat.status chat = pending →
  ∃ chat' db',
    ChatService.acceptChat chatId userId now db
      = (Ok (ChatService.toChatResponse chat'), db')
    ∧ Chat.findById chatId db' = (Ok (Some chat'), db')
    ∧ IChat.status chat' = accepted
    ∧ IChat.acceptedAt chat' = Some now
    ∧ IChat._id chat' = IChat._id chat
    ∧ IChat.participants chat' = IChat.participants chat
    ∧ IChat.initiatedBy chat' = IChat.initiatedBy chat
    ∧ IChat.createdAt chat' = IChat.createdAt chat
    ∧ users db' = users db
    ∧ messages db' = messages db
    ∧ chats db' = Chat.replace chat' (chats db).
Proof.
  intros Hfind Hu Hin Hne Hst. rewrite (acceptChat_found _ _ _ _ _ Hfind Hu).
  apply existsb_eqb_In in Hin. rewrite Hin, Hst. simpl.
  destruct (String.eqb_spec (IChat.initiatedBy chat) userId) as [Heq|_];
    [by subst|].
  eexists _, _. split; [reflexivity|]. simpl.
  repeat split; try reflexivity.
  apply findById_Some in Hfind as [Hc Hf].
  unfold Chat.findById. rewrite Hc. simpl. f_equal. f_equal.
  pose proof (find_has_id _ _ _ Hf) as Hid. rewrite <- Hid in *.
  by apply (find_replace (IChat.mk _ _ _ _ _ _) chat).
Qed.
End acceptChat_facts.

(** ** Lookups on malformed ids *)

Section lookup_facts.
Context {ids : ObjectIdOps}.

(** The queries themselves do throw on an id that does not cast. *)
Lemma findById_malformed id db :
  isValid id = false →
  Chat.findById id db = (Throw CastError, db)
  ∧ User.findById id db = (Throw CastError, db).
Proof. intros Hid. unfold Chat.findById, User.findById. by rewrite Hid. Qed.

(** C10: on an id that is not a valid ObjectId, [getChatById] returns
    [null] and [userExists] returns [false]; neither throws and
    neither changes the store. *)
Theorem lookups_on_malformed_id id db :
  isValid id = false →
  ChatService.getChatById id db = (Ok None, db)
  ∧ UserService.userExists id db = (Ok false, db).
Proof.
  intros Hid. unfold ChatService.getChatById, UserService.userExists.
  by rewrite Hid.
Qed.

(** On any id at all the two lookups return normally. *)
Lemma lookups_never_throw id db :
  (∃ r, ChatService.getChatById id db = (Ok r, db))
  ∧ (∃ b, UserService.userExists id db = (Ok b, db)).
Proof.
  unfold ChatService.getChatById, UserService.userExists,
    Chat.findById, User.findById. run.
  destruct (isValid id); simpl; eauto.
Qed.
End lookup_facts.

(** ** [createChatRequest] *)

Section createChatRequest_facts.
Context {ids : ObjectIdOps}.

Lemma participants_all_comm a b c :
  Chat.participants_all a b c = Chat.participants_all b a c.
Proof. unfold Chat.participants_all. apply andb_comm. Qed.

Lemma find_participants_all_comm a b cs :
  List.find (Chat.participants_all a b) cs
  = List.find (Chat.participants_all b a) cs.
Proof.
  induction cs as [|c cs IH]; simpl; [done|].
  by rewrite (participants_all_comm a b c), IH.
Qed.

Lemma find_ex {A} (f : A → bool) l x :
  In x l → f x = true →
  ∃ y, List.find f l = Some y.
Proof.
  intros Hin Hf. destruct (List.find f l) eqn:E; [eauto|].
  by rewrite (find_none _ _ E _ Hin) in Hf.
Qed.

Lemma userExists_users id db db2 :
  users db2 = users db →
  UserService.userExists id db = (Ok true, db) →
  UserService.userExists id db2 = (Ok true, db2).
Proof.
  intros Hus. unfold UserService.userExists, User.findById. run.
  destruct (isValid id); simpl; [|done]. rewrite Hus.
  destruct (List.find _ _); by intros [= ].
Qed.

(** What [createChatRequest] does once its argument checks have
    passed. *)
Lemma createChatRequest_checked u1 u2 now newId db :
  isValid u1 = true → isValid u2 = true → u1 ≠ u2 →
  UserService.userExists u1 db = (Ok true, db) →
  UserService.userExists u2 db = (Ok true, db) →
  ChatService.createChatRequest (CreateChatRequest.mk u1 u2) now newId db =
    match List.find (Chat.participants_all (toHexString u1) (toHexString u2)) (chats db) with
    | Some c => (Ok (ChatService.toChatResponse c), db)
    | None =>
        let chat := IChat.mk newId [toHexString u1; toHexString u2] pending
                      (toHexString u1) now None in
        if negb (Chat.validator (IChat.participants chat))
        then (Throw (ValidationError "Chat" "participants"
                     "Chat must have exactly two different participants"), db)
        else if existsb (Chat.has_id newId) (chats db)
        then (Throw DuplicateKey, db)
        else (Ok (ChatService.toChatResponse chat),
              mkDb (users db) (chats db ++ [chat]) (messages db))
    end.
Proof.
  intros H1 H2 Hne E1 E2. unfold ChatService.createChatRequest. simpl.
  rewrite H1, H2. simpl.
  destruct (String.eqb_spec u1 u2) as [|_]; [done|].
  run. rewrite E1, E2. simpl.
  unfold Chat.findOne_participants_all, Chat.save_new. rewrite H1, H2. simpl.
  destruct (List.find _ _) eqn:Hfind; [done|]. simpl.
  destruct (negb (String.eqb _ _)); simpl; [|done].
  destruct (existsb _ _); simpl; [|done].
  by rewrite Hfind.
Qed.

Lemma find_none_all {A} (f : A → bool) l :
  (∀ x, In x l → f x = false) → List.find f l = None.
Proof.
  induction l as [|x l IH]; simpl; [done|]. intros Hall.
  rewrite (Hall x) by by left. apply IH. intros y Hy. apply Hall. by right.
Qed.

(** After a successful [createChatRequest] for a pair, a further call
    in either argument order returns the same response and changes
    nothing. *)
Lemma createChatRequest_again u1 u2 now newId now' newId' db r db1 :
  isValid u1 = true → isValid u2 = true → u1 ≠ u2 →
  UserService.userExists u1 db = (Ok true, db) →
  UserService.userExists u2 db = (Ok true, db) →
  ChatService.createChatRequest (CreateChatRequest.mk u1 u2) now newId db = (Ok r, db1) →
  ChatService.createChatRequest (CreateChatRequest.mk u1 u2) now' newId' db1 = (Ok r, db1)
  ∧ ChatService.createChatRequest (CreateChatRequest.mk u2 u1) now' newId' db1 = (Ok r, db1).
Proof.
  intros H1 H2 Hne E1 E2.
  assert (Hne' : u2 ≠ u1) by congruence.
  rewrite createChatRequest_checked by done.
  destruct (List.find _ (chats db)) as [c|] eqn:Hfind.
  - intros [= <- <-].
    rewrite !createChatRequest_checked by done.
    by rewrite (find_participants_all_comm (toHexString u2) (toHexString u1)), Hfind.
  - cbv zeta. destruct (negb (Chat.validator _)); [done|].
    destruct (existsb _ _); [done|]. intros [= <- <-].
    set (db1 := mkDb _ _ _).
    assert (Hu : ∀ u, UserService.userExists u db = (Ok true, db) →
                 UserService.userExists u db1 = (Ok true, db1)).
    { intros u. by apply userExists_users. }
    rewrite !createChatRequest_checked by auto. simpl.
    rewrite (find_participants_all_comm (toHexString u2) (toHexString u1)).
    rewrite find_app_first, Hfind. simpl.
    unfold Chat.participants_all. simpl.
    rewrite !String.eqb_refl. simpl. by rewrite orb_true_r.
Qed.

(** C1: for two distinct valid ids of existing users, (1) when some
    chat of the two is stored, [createChatRequest] returns a stored
    chat of the two, the same in either argument order, and leaves the
    store as it was; (2) after any successful [createChatRequest] for
    the pair, a further call in either argument order returns the
    same response, hence the same chat id, and changes nothing;
    (3) when no chat of the two is stored (the two ids are of
    different users and the id of the new document is not in use),
    the call succeeds: it appends one pending chat of the two,
    initiated by the first, and returns it under the new id, and a
    second call in either argument order returns that same chat,
    under that same id, and creates nothing. *)
Theorem createChatRequest_idempotent u1 u2 now newId now' newId' db :
  isValid u1 = true → isValid u2 = true → u1 ≠ u2 →
  UserService.userExists u1 db = (Ok true, db) →
  UserService.userExists u2 db = (Ok true, db) →
  (∀ c0, In c0 (chats db) →
         Chat.participants_all (toHexString u1) (toHexString u2) c0 = true →
     ∃ c, In c (chats db)
          ∧ Chat.participants_all (toHexString u1) (toHexString u2) c = true
          ∧ ChatService.createChatRequest (CreateChatRequest.mk u1 u2) now newId db
            = (Ok (ChatService.toChatResponse c), db)
          ∧ ChatService.createChatRequest (CreateChatRequest.mk u2 u1) now newId db
            = (Ok (ChatService.toChatResponse c), db))
  ∧ (∀ r db1,
       ChatService.createChatRequest (CreateChatRequest.mk u1 u2) now newId db
         = (Ok r, db1) →
       ChatService.createChatRequest (CreateChatRequest.mk u1 u2) now' newId' db1
         = (Ok r, db1)
       ∧ ChatService.createChatRequest (CreateChatRequest.mk u2 u1) now' newId' db1
         = (Ok r, db1))
  ∧ ((∀ c0, In c0 (chats db) →
            Chat.participants_all (toHexString u1) (toHexString u2) c0 = false) →
     toHexString u1 ≠ toHexString u2 →
     existsb (Chat.has_id newId) (chats db) = false →
     let chat := IChat.mk newId [toHexString u1; toHexString u2] pending
                   (toHexString u1) now None in
     let db1 := mkDb (users db) (chats db ++ [chat]) (messages db) in
     ChatService.createChatRequest (CreateChatRequest.mk u1 u2) now newId db
       = (Ok (ChatService.toChatResponse chat), db1)
     ∧ ChatResponse._id (ChatService.toChatResponse chat) = newId
     ∧ ChatService.createChatRequest (CreateChatRequest.mk u1 u2) now' newId' db1
       = (Ok (ChatService.toChatResponse chat), db1)
     ∧ ChatService.createChatRequest (CreateChatRequest.mk u2 u1) now' newId' db1
       = (Ok (ChatService.toChatResponse chat), db1)).
Proof.
  intros H1 H2 Hne E1 E2.
  assert (Hne' : u2 ≠ u1) by congruence.
  split_and!.
  - intros c0 Hin Hc0.
    destruct (find_ex _ _ _ Hin Hc0) as [c Hc].
    exists c. pose proof (find_some _ _ Hc) as [Hcin Hcp].
    repeat split; [done|done| |].
    + rewrite createChatRequest_checked by done. by rewrite Hc.
    + rewrite createChatRequest_checked by done.
      by rewrite (find_participants_all_comm (toHexString u2) (toHexString u1)), Hc.
  - intros r db1. by apply createChatRequest_again.
  - intros Hnone Hhex Hfresh chat db1.
    assert (Hfirst : ChatService.createChatRequest (CreateChatRequest.mk u1 u2) now newId db
                     = (Ok (ChatService.toChatResponse chat), db1)).
    { rewrite createChatRequest_checked by done.
      rewrite (find_none_all _ _ Hnone). cbv zeta. simpl.
      rewrite (proj2 (String.eqb_neq _ _) Hhex). simpl. by rewrite Hfresh. }
    split; [exact Hfirst|]. split; [done|].
    by apply (createChatRequest_again u1 u2 now newId now' newId' db).
Qed.
End createChatRequest_facts.

(** ** [trim] *)

Section trim_facts.
Lemma trimEnd_idemp s : trimEnd (trimEnd s) = trimEnd s.
Proof.
  induction s as [|c s IH]; simpl; [done|].
  destruct (trimEnd s) as [|d t] eqn:E.
  - destruct (is_white_space c) eqn:Hc; simpl; [done|]. by rewrite Hc.
  - change (trimEnd (c :: d :: t)) with
      (match trimEnd (d :: t) with
       | [] => if is_white_space c then [] else [c]
       | u => c :: u
       end).
    by rewrite IH.
Qed.

Lemma trimStart_trimEnd_head c s :
  is_white_space c = false →
  trimStart (trimEnd (c :: s)) = trimEnd (c :: s).
Proof.
  intros Hc. simpl. destruct (trimEnd s); rewrite ?Hc; simpl; by rewrite Hc.
Qed.

Lemma trimStart_head s :
  trimStart s = []
  ∨ ∃ c t, trimStart s = c :: t ∧ is_white_space c = false.
Proof.
  induction s as [|c s IH]; simpl; [by left|].
  destruct (is_white_space c) eqn:Hc; [done|]. right. eauto.
Qed.

Lemma trim_idemp s : trim (trim s) = trim s.
Proof.
  unfold trim. destruct (trimStart_head s) as [->|(c & t & -> & Hc)]; [done|].
  rewrite trimStart_trimEnd_head by done. apply trimEnd_idemp.
Qed.
End trim_facts.

(** ** [createMessage] *)

Section createMessage_facts.
Context {ids : ObjectIdOps}.

Lemma validateChatParticipants_found chatId userId db chat :
  Chat.findById chatId db = (Ok (Some chat), db) →
  isValid userId = true →
  ChatService.validateChatParticipants chatId userId db =
    if negb (existsb (λ p, String.eqb p userId) (IChat.participants chat))
    then (Throw NotAParticipant, db)
    else (Ok chat, db).
Proof.
  intros Hfind Hu. pose proof (findById_Some _ _ _ Hfind) as [Hc _].
  unfold ChatService.validateChatParticipants. rewrite Hc, Hu. run.
  rewrite Hfind. by destruct (existsb _ _).
Qed.

(** The checks of [createMessage] on a chat that was found, in order. *)
Lemma createMessage_found chatId senderId content now newId db chat :
  Chat.findById chatId db = (Ok (Some chat), db) →
  isValid senderId = true →
  ChatService.createMessage chatId senderId content now newId db =
    if negb (existsb (λ p, String.eqb p senderId) (IChat.participants chat))
    then (Throw NotAParticipant, db)
    else if negb (ChatStatus_eqb (IChat.status chat) accepted)
    then (Throw ChatNotAccepted, db)
    else
      match Message.validate_content content with
      | Some msg => (Throw (ValidationError "Message" "content" msg), db)
      | None =>
          if existsb (Message.has_id newId) (messages db)
          then (Throw DuplicateKey, db)
          else
            let m := created_message chatId senderId content now newId in
            (Ok (ChatService.toMessageResponse m None),
             mkDb (users db) (chats db) (messages db ++ [m]))
      end.
Proof.
  intros Hfind Hu. pose proof (findById_Some _ _ _ Hfind) as [Hc _].
  unfold ChatService.createMessage. rewrite Hc, Hu. simpl.
  unfold bind at 1. rewrite (validateChatParticipants_found _ _ _ _ Hfind Hu).
  destruct (existsb _ _); simpl; [|done].
  destruct (ChatStatus_eqb _ _); simpl; [|done].
  run. unfold Message.save_new. simpl.
  unfold Message.validate_content. rewrite trim_idemp.
  destruct (List.length (trim content) =? 0)%nat; [done|].
  destruct (5000 <? List.length (trim content))%nat; [done|].
  destruct (existsb _ _); [done|].
  done.
Qed.

Lemma validate_content_ok content :
  (0 < List.length (trim content) ≤ 5000)%nat →
  Message.validate_content content = None.
Proof.
  intros [Hlo Hhi]. unfold Message.validate_content.
  destruct (Nat.eqb_spec (List.length (trim content)) 0); [lia|].
  destruct (Nat.ltb_spec 5000 (List.length (trim content))); [lia|done].
Qed.

(** What a successful [acceptChat] leaves behind. *)
Lemma acceptChat_Ok chatId userId now db r db1 chat :
  Chat.findById chatId db = (Ok (Some chat), db) →
  ChatService.acceptChat chatId userId now db = (Ok r, db1) →
  ∃ chat',
    Chat.findById chatId db1 = (Ok (Some chat'), db1)
    ∧ IChat.status chat' = accepted
    ∧ IChat.participants chat' = IChat.participants chat
    ∧ messages db1 = messages db.
Proof.
  intros Hfind Hacc.
  assert (Hu : isValid userId = true).
  { unfold ChatService.acceptChat in Hacc.
    destruct (isValid userId); [done|].
    rewrite orb_true_r in Hacc. discriminate. }
  rewrite (acceptChat_found _ _ _ _ _ Hfind Hu) in Hacc.
  destruct (negb (existsb _ _)); [done|].
  destruct (String.eqb _ _); [done|].
  destruct (negb (ChatStatus_eqb _ _)); [done|].
  cbv zeta in Hacc. injection Hacc as _ <-.
  exists (IChat.mk (IChat._id chat) (IChat.participants chat) accepted
            (IChat.initiatedBy chat) (IChat.createdAt chat) (Some now)).
  split; [|done].
  apply findById_Some in Hfind as [Hc Hf].
  unfold Chat.findById. rewrite Hc. simpl. f_equal. f_equal.
  pose proof (find_has_id _ _ _ Hf) as Hid. rewrite <- Hid in *.
  by apply (find_replace (IChat.mk _ _ _ _ _ _) chat).
Qed.

(** C2: for a participant of an existing chat, (1) while the chat is
    not accepted [createMessage] throws the Conflict error and the
    store, so the message collection, is left as it was; (2) right
    after a successful [acceptChat] on that chat, [createMessage] with
    content of 1 to 5000 code units after [trim], which removes the
    white space of JavaScript at both ends, and a fresh message id
    succeeds and appends exactly the new message, with the trimmed
    content. *)
Theorem createMessage_needs_accepted chatId senderId content now newId db chat :
  Chat.findById chatId db = (Ok (Some chat), db) →
  isValid senderId = true →
  In senderId (IChat.participants chat) →
  (IChat.status chat ≠ accepted →
     ChatService.createMessage chatId senderId content now newId db
       = (Throw ChatNotAccepted, db)
     ∧ Error_kind ChatNotAccepted = Conflict)
  ∧ (∀ userId t r db1,
       ChatService.acceptChat chatId userId t db = (Ok r, db1) →
       (0 < List.length (trim content) ≤ 5000)%nat →
       existsb (Message.has_id newId) (messages db1) = false →
       let m := created_message chatId senderId content now newId in
       ChatService.createMessage chatId senderId content now newId db1
         = (Ok (ChatService.toMessageResponse m None),
            mkDb (users db1) (chats db1) (messages db1 ++ [m]))).
Proof.
  intros Hfind Hs Hin. apply existsb_eqb_In in Hin. split.
  - intros Hst. rewrite (createMessage_found _ _ _ _ _ _ _ Hfind Hs), Hin.
    simpl. by destruct (IChat.status chat).
  - intros userId t r db1 Hacc Hlen Hfresh m.
    destruct (acceptChat_Ok _ _ _ _ _ _ _ Hfind Hacc)
      as (chat' & Hfind' & Hst' & Hp' & _).
    rewrite (createMessage_found _ _ _ _ _ _ _ Hfind' Hs).
    rewrite Hp', Hin, Hst'. simpl.
    by rewrite (validate_content_ok _ Hlen), Hfresh.
Qed.
End createMessage_facts.

(** ** [handleMessageSend] *)

Section handleMessageSend_facts.
Context {ids : ObjectIdOps}.

Lemma falsy_false s : s ≠ "" → falsy s = false.
Proof. by destruct s. Qed.

Lemma falsy_text_false s : s ≠ [] → falsy_text s = false.
Proof. by destruct s. Qed.

Lemma validate_content_nonempty content :
  Message.validate_content content = None → content ≠ [].
Proof. by intros Hv ->. Qed.

(** What a successful [createMessage] implies about the call. *)
Lemma createMessage_Ok chatId senderId content now newId db chat message db' :
  Chat.findById chatId db = (Ok (Some chat), db) →
  ChatService.createMessage chatId senderId content now newId db = (Ok message, db') →
  ChatService.validateChatParticipants chatId senderId db = (Ok chat, db)
  ∧ IChat.status chat = accepted
  ∧ content ≠ []
  ∧ users db' = users db
  ∧ chats db' = chats db
  ∧ messages db' = (messages db ++ [created_message chatId senderId content now newId])%list.
Proof.
  intros Hfind Hcm.
  assert (Hs : isValid senderId = true).
  { unfold ChatService.createMessage in Hcm.
    destruct (isValid senderId); [done|].
    rewrite orb_true_r in Hcm. discriminate. }
  rewrite (createMessage_found _ _ _ _ _ _ _ Hfind Hs) in Hcm.
  rewrite (validateChatParticipants_found _ _ _ _ Hfind Hs).
  destruct (negb (existsb _ _)); [done|].
  destruct (IChat.status chat); simpl in Hcm; try done.
  destruct (Message.validate_content content) eqn:Hv; [done|].
  destruct (existsb _ _); [done|].
  cbv zeta in Hcm. injection Hcm as _ <-.
  repeat split. by apply validate_content_nonempty.
Qed.

(** The send handler never looks at [replyToId]. *)
Lemma handleMessageSend_replyToId_unused socket chatId content senderId r1 r2
    onlineUsers now newId db :
  MessageHandler.handleMessageSend socket
    (MessageSendData.mk chatId content senderId r1) onlineUsers now newId db
  = MessageHandler.handleMessageSend socket
      (MessageSendData.mk chatId content senderId r2) onlineUsers now newId db.
Proof. reflexivity. Qed.

(** Every message that [createMessage] stores has no reply-to
    reference. *)
Lemma createMessage_stores_no_replyTo chatId senderId content now newId db r db' :
  ChatService.createMessage chatId senderId content now newId db = (Ok r, db') →
  ∃ m, messages db' = (messages db ++ [m])%list ∧ IMessage.replyTo m = None.
Proof.
  intros Hcm.
  destruct (Chat.findById chatId db) as [[[chat|]|e] db0] eqn:Hfind.
  - pose proof (findById_state _ _ _ _ Hfind) as ->.
    destruct (createMessage_Ok _ _ _ _ _ _ _ _ _ Hfind Hcm)
      as (_ & _ & _ & _ & _ & Hm).
    eexists. split; [exact Hm|done].
  - exfalso. revert Hcm. unfold ChatService.createMessage,
      ChatService.validateChatParticipants.
    destruct (negb (isValid chatId) || negb (isValid senderId)); [done|].
    run. by rewrite Hfind.
  - exfalso. revert Hcm. unfold ChatService.createMessage,
      ChatService.validateChatParticipants.
    destruct (negb (isValid chatId) || negb (isValid senderId)); [done|].
    run. by rewrite Hfind.
Qed.

(** C6: when [createMessage] succeeds for the data of a
    [MESSAGE_SEND], and of the two participants of the chat one is
    in the presence map, under a non-empty socket id, and the other
    is not, [handleMessageSend] emits exactly one event: the
    [MESSAGE_RECEIVED] with the created message, to that socket id.
    The store it leaves is the one [createMessage] left, whose users
    and chats are those from before. *)
Theorem handleMessageSend_one_online socket data onlineUsers now newId db
    chat message db' on off socketId :
  MessageSendData.chatId data ≠ "" →
  MessageSendData.senderId data ≠ "" →
  Chat.findById (MessageSendData.chatId data) db = (Ok (Some chat), db) →
  ChatService.createMessage (MessageSendData.chatId data)
    (MessageSendData.senderId data) (MessageSendData.content data) now newId db
    = (Ok message, db') →
  IChat.participants chat = [on; off] ∨ IChat.participants chat = [off; on] →
  onlineUsers !! on = Some socketId →
  socketId ≠ "" →
  onlineUsers !! off = None →
  MessageHandler.handleMessageSend socket data onlineUsers now newId db
    = (Ok tt,
       [emit_to socketId (MESSAGE_RECEIVED message (MessageSendData.chatId data))],
       db')
  ∧ users db' = users db
  ∧ chats db' = chats db.
Proof.
  intros Hc Hs Hfind Hcm Hps Hon Hsock Hoff.
  destruct (createMessage_Ok _ _ _ _ _ _ _ _ _ Hfind Hcm)
    as (Hv & Hst & Hcontent & Hus & Hcs & _).
  split; [|done].
  unfold MessageHandler.handleMessageSend.
  rewrite !falsy_false, (falsy_text_false _ Hcontent) by done. simpl.
  unfold bind at 1. rewrite Hv, Hst. simpl.
  unfold bind, ret. rewrite Hcm. f_equal. f_equal.
  unfold MessageHandler.emit_to_online. rewrite map_id.
  destruct Hps as [-> | ->]; simpl;
    by rewrite Hon, Hoff, (falsy_false _ Hsock).
Qed.
End handleMessageSend_facts.

(** C8: a [MESSAGE_SEND] whose [replyToId] names no message at all, in
    an accepted chat with no messages, is carried out without any
    error: the message is stored, with no reply-to reference, and
    delivered. *)
Theorem handleMessageSend_reply_to_missing_message :
  MessageHandler.handleMessageSend (ids := hex24) "socket-alice"
    (MessageSendData.mk Sample.chat1 (js "hi") Sample.alice (Some Sample.no_such_message))
    Sample.bob_online 30 Sample.msg1 Sample.db_accepted
  = (Ok tt,
     [emit_to "socket-bob"
        (MESSAGE_RECEIVED
           (MessageResponse.mk Sample.msg1 Sample.chat1 Sample.alice (js "hi") 30 None)
           Sample.chat1)],
     mkDb Sample.the_users [Sample.accepted_chat]
       [IMessage.mk Sample.msg1 Sample.chat1 Sample.alice (js "hi") None 30 None]).
Proof. vm_compute. reflexivity. Qed.

(** ** The statements at the sample data *)

Lemma acceptChat_initiator_forbidden_sample :
  ∃ e, ChatService.acceptChat (ids := hex24) Sample.chat1 Sample.alice 50 Sample.db_accepted
         = (Throw e, Sample.db_accepted)
       ∧ Error_kind e = Forbidden
       ∧ (∀ s, e ≠ ChatIsAlready s)
       ∧ (In Sample.alice (IChat.participants Sample.accepted_chat) →
          e = CannotAcceptOwnRequest).
Proof.
  apply (acceptChat_initiator_forbidden (ids := hex24)
           Sample.chat1 Sample.alice 50 Sample.db_accepted Sample.accepted_chat);
    reflexivity.
Defined.

Lemma acceptChat_not_pending_conflict_sample :
  ChatService.acceptChat (ids := hex24) Sample.chat1 Sample.bob 50 Sample.db_accepted
    = (Throw (ChatIsAlready accepted), Sample.db_accepted)
  ∧ Error_kind (ChatIsAlready accepted) = Conflict
  ∧ Error_message (ChatIsAlready accepted) = "Chat is already accepted".
Proof.
  apply (acceptChat_not_pending_conflict (ids := hex24)
           Sample.chat1 Sample.bob 50 Sample.db_accepted Sample.accepted_chat).
  - reflexivity.
  - reflexivity.
  - right. left. reflexivity.
  - discriminate.
  - discriminate.
Defined.

Lemma acceptChat_pending_frame_sample :
  ∃ chat' db',
    ChatService.acceptChat (ids := hex24) Sample.chat1 Sample.bob 20 Sample.db_pending
      = (Ok (ChatService.toChatResponse chat'), db')
    ∧ Chat.findById (ids := hex24) Sample.chat1 db' = (Ok (Some chat'), db')
    ∧ IChat.status chat' = accepted
    ∧ IChat.acceptedAt chat' = Some 20
    ∧ IChat._id chat' = Sample.chat1
    ∧ IChat.participants chat' = [Sample.alice; Sample.bob]
    ∧ IChat.initiatedBy chat' = Sample.alice
    ∧ IChat.createdAt chat' = 10
    ∧ users db' = Sample.the_users
    ∧ messages db' = []
    ∧ chats db' = Chat.replace chat' [Sample.pending_chat].
Proof.
  apply (acceptChat_pending_frame (ids := hex24)
           Sample.chat1 Sample.bob 20 Sample.db_pending Sample.pending_chat).
  - reflexivity.
  - reflexivity.
  - right. left. reflexivity.
  - discriminate.
  - reflexivity.
Defined.

Lemma lookups_on_malformed_id_sample :
  ChatService.getChatById (ids := hex24) "not-an-object-id" Sample.db_accepted
    = (Ok None, Sample.db_accepted)
  ∧ UserService.userExists (ids := hex24) "not-an-object-id" Sample.db_accepted
    = (Ok false, Sample.db_accepted).
Proof.
  apply (lookups_on_malformed_id (ids := hex24) "not-an-object-id" Sample.db_accepted).
  reflexivity.
Defined.

(** At the sample data: alice asks bob for a chat when there is none,
    then each of the two asks again; all three calls return the chat
    with the id given to the first, and one chat is stored. *)
Lemma createChatRequest_idempotent_sample :
  ChatService.createChatRequest (ids := hex24)
    (CreateChatRequest.mk Sample.alice Sample.bob) 10 Sample.chat1 Sample.db_empty
    = (Ok (ChatService.toChatResponse Sample.pending_chat), Sample.db_pending)
  ∧ ChatResponse._id (ChatService.toChatResponse Sample.pending_chat) = Sample.chat1
  ∧ ChatService.createChatRequest (ids := hex24)
      (CreateChatRequest.mk Sample.alice Sample.bob) 11 Sample.chat2 Sample.db_pending
    = (Ok (ChatService.toChatResponse Sample.pending_chat), Sample.db_pending)
  ∧ ChatService.createChatRequest (ids := hex24)
      (CreateChatRequest.mk Sample.bob Sample.alice) 11 Sample.chat2 Sample.db_pending
    = (Ok (ChatService.toChatResponse Sample.pending_chat), Sample.db_pending).
Proof.
  apply (proj2 (proj2 (createChatRequest_idempotent (ids := hex24)
                         Sample.alice Sample.bob 10 Sample.chat1 11 Sample.chat2
                         Sample.db_empty
                         eq_refl eq_refl ltac:(discriminate) eq_refl eq_refl))).
  - intros c0 [].
  - discriminate.
  - reflexivity.
Defined.

(** At the sample data the content is "hi" between a no-break space
    and a space: refused while the chat is pending, stored as "hi"
    once it is accepted. *)
Lemma createMessage_needs_accepted_sample :
  (ChatService.createMessage (ids := hex24) Sample.chat1 Sample.alice (0xA0 :: js "hi ") 30
     Sample.msg1 Sample.db_pending
     = (Throw ChatNotAccepted, Sample.db_pending)
   ∧ Error_kind ChatNotAccepted = Conflict)
  ∧ ChatService.createMessage (ids := hex24) Sample.chat1 Sample.alice (0xA0 :: js "hi ") 30
      Sample.msg1 Sample.db_accepted
    = (Ok (MessageResponse.mk Sample.msg1 Sample.chat1 Sample.alice (js "hi") 30 None),
       mkDb Sample.the_users [Sample.accepted_chat]
         [Sample.message Sample.msg1 Sample.alice "hi" 30]).
Proof.
  destruct (createMessage_needs_accepted (ids := hex24)
              Sample.chat1 Sample.alice (0xA0 :: js "hi ") 30 Sample.msg1 Sample.db_pending
              Sample.pending_chat eq_refl eq_refl (or_introl eq_refl))
    as [Hpending Haccepted].
  split.
  - apply Hpending. discriminate.
  - apply (Haccepted Sample.bob 20 (ChatService.toChatResponse Sample.accepted_chat)
             Sample.db_accepted).
    + reflexivity.
    + simpl. lia.
    + reflexivity.
Defined.

Lemma handleMessageSend_one_online_sample :
  let data := MessageSendData.mk Sample.chat1 (js "hi") Sample.alice None in
  let message := MessageResponse.mk Sample.msg1 Sample.chat1 Sample.alice (js "hi") 30 None in
  let db' := mkDb Sample.the_users [Sample.accepted_chat]
               [Sample.message Sample.msg1 Sample.alice "hi" 30] in
  MessageHandler.handleMessageSend (ids := hex24) "socket-alice" data Sample.bob_online
    30 Sample.msg1 Sample.db_accepted
    = (Ok tt, [emit_to "socket-bob" (MESSAGE_RECEIVED message Sample.chat1)], db')
  ∧ users db' = users Sample.db_accepted
  ∧ chats db' = chats Sample.db_accepted.
Proof.
  intros data message db'.
  apply (handleMessageSend_one_online (ids := hex24) "socket-alice" data
           Sample.bob_online 30 Sample.msg1 Sample.db_accepted Sample.accepted_chat
           message db' Sample.bob Sample.alice "socket-bob").
  - discriminate.
  - discriminate.
  - reflexivity.
  - reflexivity.
  - right. reflexivity.
  - reflexivity.
  - discriminate.
  - reflexivity.
Defined.

(** ** Pages of a list *)

Section paging_facts.
Context {A B : Type}.
Implicit Types (l : list A) (n L k : nat).

(** Consecutive slices of length [L] put the list back together. *)
Lemma slices_concat L n l :
  (List.length l ≤ n * L)%nat →
  flat_map (λ k, take L (drop (k * L) l)) (seq 0 n) = l.
Proof.
  revert l. induction n as [|n IH]; intros l Hlen; simpl in *.
  - destruct l; [done|]. simpl in Hlen. lia.
  - rewrite <- seq_shift, flat_map_concat_map, map_map, <- flat_map_concat_map.
    transitivity (take L l ++ drop L l)%list; [|apply take_drop].
    f_equal. etransitivity; [|apply (IH (drop L l))].
    + apply flat_map_ext. intros k. rewrite drop_drop. do 2 f_equal; lia.
    + rewrite length_drop. lia.
Qed.

Lemma rev_flat_map (g : nat → list B) ks :
  rev (flat_map g ks) = flat_map (λ k, rev (g k)) (rev ks).
Proof.
  induction ks as [|k ks IH]; simpl; [done|].
  rewrite rev_app_distr, IH, flat_map_app. simpl. by rewrite app_nil_r.
Qed.

Lemma flat_map_map_inner (h : A → B) (g : nat → list A) ks :
  flat_map (λ k, map h (g k)) ks = map h (flat_map g ks).
Proof.
  induction ks as [|k ks IH]; simpl; [done|]. by rewrite map_app, IH.
Qed.

Lemma flat_map_Permutation (f g : nat → list B) ks :
  (∀ k, f k ≡ₚ g k) → flat_map f ks ≡ₚ flat_map g ks.
Proof.
  intros Hfg. induction ks as [|k ks IH]; simpl; [done|].
  by rewrite (Hfg k), IH.
Qed.

Lemma flat_map_fmap {C} (f : C → list B) (g : nat → C) ks :
  flat_map f (g <$> ks) = flat_map (λ k, f (g k)) ks.
Proof. induction ks as [|k ks IH]; simpl; [done|]. f_equal. apply IH. Qed.

Lemma flat_map_seqZ (f : Z → list B) n :
  flat_map f (seqZ 1 (Z.of_nat n)) = flat_map (λ k, f (Z.of_nat (S k))) (seq 0 n).
Proof.
  unfold seqZ. rewrite Nat2Z.id, flat_map_fmap. apply flat_map_ext.
  intros k. f_equal. lia.
Qed.

Lemma flat_map_rev_seqZ (f : Z → list B) n :
  flat_map f (rev (seqZ 1 (Z.of_nat n)))
  = flat_map (λ k, f (Z.of_nat (S k))) (rev (seq 0 n)).
Proof.
  unfold seqZ. rewrite Nat2Z.id.
  change (flat_map f (rev (map (λ i, Z.of_nat i + 1) (seq 0 n)))
          = flat_map (λ k, f (Z.of_nat (S k))) (rev (seq 0 n))).
  rewrite <- map_rev.
  change (flat_map f ((λ i, Z.of_nat i + 1) <$> rev (seq 0 n))
          = flat_map (λ k, f (Z.of_nat (S k))) (rev (seq 0 n))).
  rewrite flat_map_fmap. apply flat_map_ext. intros k. f_equal. lia.
Qed.
End paging_facts.

(** ** [getChatMessages] *)

Section getChatMessages_facts.
Context {ids : ObjectIdOps}.

#[local] Instance newer_first_trans : Transitive Message.newer_first.
Proof. unfold Message.newer_first. intros x y z. lia. Qed.

#[local] Instance newer_first_total : Total Message.newer_first.
Proof. unfold Message.newer_first. intros x y. lia. Qed.

Lemma sort_createdAt_desc_sorted ms :
  StronglySorted Message.newer_first (Message.sort_createdAt_desc ms).
Proof. apply StronglySorted_merge_sort; apply _. Qed.

Lemma sort_createdAt_desc_perm ms : Message.sort_createdAt_desc ms ≡ₚ ms.
Proof. apply merge_sort_Permutation. Qed.

Lemma sort_createdAt_desc_length ms :
  List.length (Message.sort_createdAt_desc ms) = List.length ms.
Proof. apply Permutation_length, sort_createdAt_desc_perm. Qed.

(** Reading a newest-first list backwards gives an oldest-first one. *)
Lemma listed_rev_sorted db xs :
  StronglySorted Message.newer_first xs →
  StronglySorted oldest_first (rev (map (listed db) xs)).
Proof.
  induction 1 as [|m xs Hs IH Hall]; simpl; [constructor|].
  apply StronglySorted_app_2; [|done|repeat constructor].
  intros a b Ha Hb. apply list_elem_of_singleton in Hb as ->.
  apply list_elem_of_In, in_rev, in_map_iff in Ha as (x & <- & Hx).
  rewrite Forall_forall in Hall. apply Hall. by apply list_elem_of_In.
Qed.

Lemma slice_sorted L s (xs : list IMessage.t) :
  StronglySorted Message.newer_first xs →
  StronglySorted Message.newer_first (take L (drop s xs)).
Proof.
  intros Hs. rewrite <- (take_drop s xs) in Hs.
  apply StronglySorted_app_1_r in Hs.
  rewrite <- (take_drop L (drop s xs)) in Hs.
  by apply StronglySorted_app_1_l in Hs.
Qed.

(** [getChatMessages] on a chat that was found. *)
Lemma getChatMessages_found chatId db chat query :
  Chat.findById chatId db = (Ok (Some chat), db) →
  ChatService.getChatMessages chatId query db =
    let page := Z.max 1 (or_number (PaginationQuery.page query) 1) in
    let limit := Z.min 100 (Z.max 1 (or_number (PaginationQuery.limit query) 50)) in
    let total := Z.of_nat (List.length (chat_messages chatId db)) in
    (Ok {| PaginatedResponse.data :=
             rev (map (listed db)
                    (take (Z.to_nat limit)
                       (drop (Z.to_nat ((page - 1) * limit))
                          (Message.sort_createdAt_desc (chat_messages chatId db)))));
           PaginatedResponse.page := page;
           PaginatedResponse.limit := limit;
           PaginatedResponse.total := total;
           PaginatedResponse.totalPages := ChatService.ceil_div total limit |}, db).
Proof.
  intros Hfind. pose proof (findById_Some _ _ _ Hfind) as [Hc _].
  unfold ChatService.getChatMessages. rewrite Hc. simpl.
  unfold bind at 1. rewrite Hfind.
  unfold bind, ret, Message.find_populate_sort_skip_limit, Message.countDocuments.
  rewrite Hc. cbv zeta. do 3 f_equal. by rewrite map_map.
Qed.

Lemma page_data_slice chatId limit db chat k :
  Chat.findById chatId db = (Ok (Some chat), db) →
  let L := Z.to_nat (Z.min 100 (Z.max 1 (or_number limit 50))) in
  page_data chatId limit db (Z.of_nat (S k))
  = rev (map (listed db)
           (take L (drop (k * L)
                      (Message.sort_createdAt_desc (chat_messages chatId db))))).
Proof.
  intros Hfind L. unfold page_data.
  rewrite (getChatMessages_found _ _ _ _ Hfind).
  cbn [PaginatedResponse.data PaginationQuery.page PaginationQuery.limit].
  assert (Hp : Z.max 1 (or_number (Some (Z.of_nat (S k))) 1) - 1 = Z.of_nat k).
  { unfold or_number. destruct (Z.eqb_spec (Z.of_nat (S k)) 0); lia. }
  rewrite Hp, Z2Nat.inj_mul, Nat2Z.id by lia. done.
Qed.

Lemma ceil_div_bounds total limit :
  0 ≤ total → 1 ≤ limit →
  0 ≤ ChatService.ceil_div total limit
  ∧ (ChatService.ceil_div total limit - 1) * limit < total
  ∧ total ≤ ChatService.ceil_div total limit * limit.
Proof.
  intros Ht Hl. unfold ChatService.ceil_div.
  pose proof (Z.div_mod (- total) limit ltac:(lia)) as Hdm.
  pose proof (Z.mod_pos_bound (- total) limit ltac:(lia)) as Hm.
  nia.
Qed.

Lemma effective_page_spec page :
  Z.max 1 (or_number page 1) = spec_page page.
Proof.
  destruct page as [v|]; simpl; [|done].
  destruct (Z.eqb_spec v 0); lia.
Qed.

Lemma effective_limit_spec limit :
  limit ≠ Some 0 →
  Z.min 100 (Z.max 1 (or_number limit 50)) = spec_limit limit.
Proof.
  destruct limit as [v|]; simpl; [|done]. intros Hv.
  destruct (Z.eqb_spec v 0); [by subst|done].
Qed.

(** The pages of a chat, last to first, are its history; first to
    last they are a rearrangement of it. *)
Lemma pages_history chatId limit db chat :
  Chat.findById chatId db = (Ok (Some chat), db) →
  let L := Z.min 100 (Z.max 1 (or_number limit 50)) in
  let N := ChatService.ceil_div (Z.of_nat (List.length (chat_messages chatId db))) L in
  flat_map (page_data chatId limit db) (rev (seqZ 1 N)) = history chatId db
  ∧ flat_map (page_data chatId limit db) (seqZ 1 N) ≡ₚ history chatId db.
Proof.
  intros Hfind L N.
  destruct (ceil_div_bounds (Z.of_nat (List.length (chat_messages chatId db))) L)
    as (HN & _ & Hup); [lia|lia|]. fold N in HN, Hup.
  rewrite <- (Z2Nat.id N HN).
  set (sorted := Message.sort_createdAt_desc (chat_messages chatId db)).
  assert (Hslices :
    flat_map (λ k, take (Z.to_nat L) (drop (k * Z.to_nat L) sorted))
      (seq 0 (Z.to_nat N)) = sorted).
  { apply slices_concat. subst sorted. rewrite sort_createdAt_desc_length. nia. }
  split.
  - rewrite flat_map_rev_seqZ.
    rewrite (flat_map_ext _ _ (λ k, page_data_slice chatId limit db chat k Hfind)).
    cbv zeta. fold L sorted.
    rewrite <- (rev_flat_map (λ k, map (listed db)
                   (take (Z.to_nat L) (drop (k * Z.to_nat L) sorted)))).
    rewrite flat_map_map_inner, Hslices. done.
  - rewrite flat_map_seqZ.
    rewrite (flat_map_ext _ _ (λ k, page_data_slice chatId limit db chat k Hfind)).
    cbv zeta. fold L sorted.
    rewrite (flat_map_Permutation _ (λ k, map (listed db)
               (take (Z.to_nat L) (drop (k * Z.to_nat L) sorted)))).
    + rewrite flat_map_map_inner, Hslices. unfold history. fold sorted.
      apply Permutation_rev.
    + intros k. symmetry. apply Permutation_rev.
Qed.
End getChatMessages_facts.

Section getChatMessages_claim.
Context {ids : ObjectIdOps}.

Lemma history_sorted chatId db : StronglySorted oldest_first (history chatId db).
Proof. apply listed_rev_sorted, sort_createdAt_desc_sorted. Qed.

Lemma history_complete chatId db :
  history chatId db ≡ₚ map (listed db) (chat_messages chatId db).
Proof.
  unfold history. rewrite <- Permutation_rev.
  apply Permutation_map, sort_createdAt_desc_perm.
Qed.

(** C5, amended: on an existing chat, [getChatMessages] succeeds and
    leaves the store as it was; the page it uses is the given one
    floored at 1, and 1 when none is given; the limit it uses is the
    given one clamped to 1..100, and 50 when none is given or 0 is
    given; [total] counts the messages of the chat; the returned
    messages are in non-decreasing order of creation time;
    [totalPages] is [total / limit] rounded up.  Page 1 holds the
    newest messages: pages [totalPages], ..., 2, 1 one after another
    are the full history of the chat, oldest first, and pages 1, 2,
    ..., [totalPages] are a rearrangement of it, every message once. *)
Theorem getChatMessages_pagination chatId db chat query :
  Chat.findById chatId db = (Ok (Some chat), db) →
  ∃ r,
    ChatService.getChatMessages chatId query db = (Ok r, db)
    ∧ PaginatedResponse.page r = spec_page (PaginationQuery.page query)
    ∧ PaginatedResponse.limit r
      = match PaginationQuery.limit query with
        | Some 0 => 50
        | limit => spec_limit limit
        end
    ∧ PaginatedResponse.total r = Z.of_nat (List.length (chat_messages chatId db))
    ∧ StronglySorted oldest_first (PaginatedResponse.data r)
    ∧ (PaginatedResponse.totalPages r - 1) * PaginatedResponse.limit r
      < PaginatedResponse.total r
    ∧ PaginatedResponse.total r
      ≤ PaginatedResponse.totalPages r * PaginatedResponse.limit r
    ∧ flat_map (page_data chatId (PaginationQuery.limit query) db)
        (rev (seqZ 1 (PaginatedResponse.totalPages r)))
      = history chatId db
    ∧ flat_map (page_data chatId (PaginationQuery.limit query) db)
        (seqZ 1 (PaginatedResponse.totalPages r))
      ≡ₚ history chatId db
    ∧ StronglySorted oldest_first (history chatId db)
    ∧ history chatId db ≡ₚ map (listed db) (chat_messages chatId db).
Proof.
  intros Hfind. eexists. split; [apply (getChatMessages_found _ _ _ _ Hfind)|].
  cbn [PaginatedResponse.data PaginatedResponse.page PaginatedResponse.limit
       PaginatedResponse.total PaginatedResponse.totalPages].
  set (L := Z.min 100 (Z.max 1 (or_number (PaginationQuery.limit query) 50))).
  set (total := Z.of_nat (List.length (chat_messages chatId db))).
  destruct (ceil_div_bounds total L) as (_ & Hlo & Hhi); [lia|lia|].
  destruct (pages_history chatId (PaginationQuery.limit query) db chat Hfind)
    as [Hrev Hperm].
  split_and!.
  - apply effective_page_spec.
  - subst L. destruct (PaginationQuery.limit query) as [[|v|v]|]; reflexivity.
  - reflexivity.
  - apply listed_rev_sorted, slice_sorted, sort_createdAt_desc_sorted.
  - exact Hlo.
  - exact Hhi.
  - exact Hrev.
  - exact Hperm.
  - apply history_sorted.
  - apply history_complete.
Qed.
End getChatMessages_claim.

Lemma getChatMessages_pagination_sample :
  ∃ r,
    ChatService.getChatMessages (ids := hex24) Sample.chat1
      (PaginationQuery.mk (Some 1) (Some 2)) Sample.db_three = (Ok r, Sample.db_three)
    ∧ PaginatedResponse.page r = 1
    ∧ PaginatedResponse.limit r = 2
    ∧ flat_map (page_data (ids := hex24) Sample.chat1 (Some 2) Sample.db_three)
        (rev (seqZ 1 (PaginatedResponse.totalPages r)))
      = history (ids := hex24) Sample.chat1 Sample.db_three.
Proof.
  destruct (getChatMessages_pagination (ids := hex24) Sample.chat1 Sample.db_three
              Sample.accepted_chat (PaginationQuery.mk (Some 1) (Some 2)) eq_refl)
    as (r & Hr & Hp & Hl & _ & _ & _ & _ & Hrev & _).
  exists r. repeat split; assumption.
Defined.

(** C5 as stated fails: with three messages and limit 2 there are two
    pages, and page 1 followed by page 2 is "two", "three", "one",
    which is neither the history nor oldest first; and a given limit
    of 0 is not clamped to 1 but replaced by 50. *)
Lemma getChatMessages_pages_first_to_last_counterexample :
  let pages :=
    flat_map (page_data (ids := hex24) Sample.chat1 (Some 2) Sample.db_three)
      (seqZ 1 2) in
  (∃ r, ChatService.getChatMessages (ids := hex24) Sample.chat1
          (PaginationQuery.mk (Some 1) (Some 2)) Sample.db_three = (Ok r, Sample.db_three)
        ∧ PaginatedResponse.totalPages r = 2)
  ∧ map MessageResponse.content pages = [js "two"; js "three"; js "one"]
  ∧ map MessageResponse.content (history (ids := hex24) Sample.chat1 Sample.db_three)
    = [js "one"; js "two"; js "three"]
  ∧ pages ≠ history (ids := hex24) Sample.chat1 Sample.db_three
  ∧ ¬ StronglySorted oldest_first pages
  ∧ (∃ r, ChatService.getChatMessages (ids := hex24) Sample.chat1
            (PaginationQuery.mk None (Some 0)) Sample.db_three = (Ok r, Sample.db_three)
          ∧ PaginatedResponse.limit r = 50
          ∧ PaginatedResponse.limit r ≠ clamp 1 100 0).
Proof.
  intros pages. split_and!.
  - eexists. split; [vm_compute; reflexivity|reflexivity].
  - vm_compute. reflexivity.
  - vm_compute. reflexivity.
  - intros Heq. apply (f_equal (map MessageResponse.content)) in Heq.
    vm_compute in Heq. discriminate.
  - intros Hs. subst pages. vm_compute in Hs.
    inversion Hs as [|? ? _ Hall]. inversion Hall as [|? ? _ Hall2].
    inversion Hall2 as [|? ? Hbad _]. apply Hbad. reflexivity.
  - eexists. split; [vm_compute; reflexivity|]. split; [reflexivity|].
    vm_compute. discriminate.
Qed.

(** ** [handleMessageDelete] *)

Section handleMessageDelete_facts.
Context {ids : ObjectIdOps}.

(** The handler on data with both fields: the call of
    [chatService.deleteMessage] throws, the [catch] reports it to the
    calling socket, and nothing else is done. *)
Lemma handleMessageDelete_run socket data onlineUsers db :
  MessageHandler.handleMessageDelete socket data onlineUsers db =
    if falsy (MessageDeleteData.messageId data) || falsy (MessageDeleteData.userId data)
    then (Ok tt,
          [emit_to socket (ERROR "Missing required fields"
                             "messageId and userId are required")], db)
    else (Ok tt,
          [emit_to socket
             (ERROR (or_string
                       (Error_message (TypeError "chatService.deleteMessage is not a function"))
                       "Failed to delete message")
                "An error occurred while deleting the message")], db).
Proof.
  unfold MessageHandler.handleMessageDelete.
  by destruct (falsy _ || falsy _).
Qed.
End handleMessageDelete_facts.

(** C7: [handleMessageDelete] calls [chatService.deleteMessage], and
    the service has no such method.  So for every [MESSAGE_DELETE],
    whoever sends it and whatever message it names, the handler sends
    exactly one event, an [ERROR] to the calling socket, and leaves
    the store as it was: no message is deleted or marked and no
    [MESSAGE_DELETED] goes out.  At the sample data, where alice asks
    to delete her own message "one": one [ERROR] to her socket, the
    store unchanged, and [getChatMessages] still lists "one", "two",
    "three". *)
Theorem handleMessageDelete_deletes_nothing :
  (∀ (ids : ObjectIdOps) socket data onlineUsers db,
     ∃ error message,
       MessageHandler.handleMessageDelete socket data onlineUsers db
       = (Ok tt, [emit_to socket (ERROR error message)], db)
       ∧ error ≠ ""
       ∧ message = if falsy (MessageDeleteData.messageId data)
                      || falsy (MessageDeleteData.userId data)
                   then "messageId and userId are required"
                   else "An error occurred while deleting the message")
  ∧ (let data := MessageDeleteData.mk Sample.msg1 Sample.alice in
     In (Sample.message Sample.msg1 Sample.alice "one" 31) (messages Sample.db_three)
     ∧ (∃ error,
          MessageHandler.handleMessageDelete (ids := hex24) "socket-alice" data
            Sample.bob_online Sample.db_three
          = (Ok tt,
             [emit_to "socket-alice"
                (ERROR error "An error occurred while deleting the message")],
             Sample.db_three))
     ∧ map MessageResponse.content
         (page_data (ids := hex24) Sample.chat1 None Sample.db_three 1)
       = [js "one"; js "two"; js "three"]).
Proof.
  split.
  - intros ids socket data onlineUsers db. rewrite handleMessageDelete_run.
    destruct (falsy _ || falsy _); by eexists _, _.
  - split; [by left|]. split; [|by vm_compute].
    eexists. by rewrite handleMessageDelete_run.
Qed.

(** * Further properties of the services *)

(** ** What each call does to the store *)

Section effects.
Context {ids : ObjectIdOps}.

Lemma userExists_run userId db :
  UserService.userExists userId db
  = (Ok (isValid userId
         && match ChatList.user_by_id db (toHexString userId) with
            | Some _ => true
            | None => false
            end), db).
Proof.
  unfold UserService.userExists, User.findById, ChatList.user_by_id. run.
  by destruct (isValid userId).
Qed.

(** [createChatRequest], check by check. *)
Lemma createChatRequest_run u1 u2 now newId db :
  ChatService.createChatRequest (CreateChatRequest.mk u1 u2) now newId db =
    if negb (isValid u1) || negb (isValid u2) then (Throw InvalidUserId, db)
    else if String.eqb u1 u2 then (Throw CannotChatWithYourself, db)
    else if negb (match ChatList.user_by_id db (toHexString u1) with
                  | Some _ => true | None => false end)
            || negb (match ChatList.user_by_id db (toHexString u2) with
                     | Some _ => true | None => false end)
    then (Throw UsersDoNotExist, db)
    else
      match List.find (Chat.participants_all (toHexString u1) (toHexString u2)) (chats db) with
      | Some c => (Ok (ChatService.toChatResponse c), db)
      | None =>
          let chat := IChat.mk newId [toHexString u1; toHexString u2] pending
                        (toHexString u1) now None in
          if negb (Chat.validator (IChat.participants chat))
          then (Throw (ValidationError "Chat" "participants"
                     "Chat must have exactly two different participants"), db)
          else if existsb (Chat.has_id newId) (chats db)
          then (Throw DuplicateKey, db)
          else (Ok (ChatService.toChatResponse chat),
                mkDb (users db) (chats db ++ [chat]) (messages db))
      end.
Proof.
  destruct (isValid u1) eqn:H1; [|by unfold ChatService.createChatRequest; simpl; rewrite H1].
  destruct (isValid u2) eqn:H2;
    [|by unfold ChatService.createChatRequest; simpl; rewrite H1, H2].
  simpl. destruct (String.eqb_spec u1 u2) as [Heq|Hne].
  { unfold ChatService.createChatRequest. simpl. rewrite H1, H2. simpl.
    by rewrite (proj2 (String.eqb_eq u1 u2) Heq). }
  pose proof (userExists_run u1 db) as E1. pose proof (userExists_run u2 db) as E2.
  rewrite H1 in E1. rewrite H2 in E2. simpl in E1, E2.
  destruct (ChatList.user_by_id db (toHexString u1)) eqn:F1;
    destruct (ChatList.user_by_id db (toHexString u2)) eqn:F2; simpl;
    try (by apply createChatRequest_checked).
  all: unfold ChatService.createChatRequest; simpl; rewrite H1, H2; simpl;
    rewrite (proj2 (String.eqb_neq u1 u2) Hne); unfold bind at 1; rewrite E1;
    unfold bind at 1; rewrite E2; done.
Qed.

(** The store after [createChatRequest]: the same, or one chat more. *)
Lemma createChatRequest_effect data now newId db r db' :
  ChatService.createChatRequest data now newId db = (r, db') →
  db' = db
  ∨ ∃ c, c = IChat.mk newId [toHexString (CreateChatRequest.fromUserId data);
                              toHexString (CreateChatRequest.toUserId data)]
               pending (toHexString (CreateChatRequest.fromUserId data)) now None
         ∧ r = Ok (ChatService.toChatResponse c)
         ∧ Chat.validator (IChat.participants c) = true
         ∧ existsb (Chat.has_id newId) (chats db) = false
         ∧ List.find (Chat.participants_all
                        (toHexString (CreateChatRequest.fromUserId data))
                        (toHexString (CreateChatRequest.toUserId data))) (chats db) = None
         ∧ db' = mkDb (users db) (chats db ++ [c]) (messages db).
Proof.
  destruct data as [u1 u2]. rewrite createChatRequest_run. simpl.
  destruct (negb (isValid u1) || negb (isValid u2)); [intros [= _ <-]; by left|].
  destruct (String.eqb u1 u2); [intros [= _ <-]; by left|].
  destruct (negb _ || negb _); [intros [= _ <-]; by left|].
  destruct (List.find _ _) eqn:Hfind; [intros [= _ <-]; by left|].
  destruct (negb (String.eqb _ _)) eqn:Hv; simpl; [|intros [= _ <-]; by left].
  destruct (existsb _ _) eqn:Hid; [intros [= _ <-]; by left|].
  intros [= <- <-]. right. eexists. split; [reflexivity|]. simpl. by rewrite Hv.
Qed.

(** The store after [acceptChat]: the same, or one pending chat
    replaced by its accepted version. *)
Lemma acceptChat_effect chatId userId now db r db' :
  ChatService.acceptChat chatId userId now db = (r, db') →
  db' = db
  ∨ ∃ c c', List.find (Chat.has_id (toHexString chatId)) (chats db) = Some c
            ∧ IChat.status c = pending
            ∧ In userId (IChat.participants c)
            ∧ userId ≠ IChat.initiatedBy c
            ∧ c' = IChat.mk (IChat._id c) (IChat.participants c) accepted
                     (IChat.initiatedBy c) (IChat.createdAt c) (Some now)
            ∧ r = Ok (ChatService.toChatResponse c')
            ∧ db' = mkDb (users db) (Chat.replace c' (chats db)) (messages db).
Proof.
  destruct (isValid chatId) eqn:Hc;
    [|unfold ChatService.acceptChat; rewrite Hc; intros [= _ <-]; by left].
  destruct (isValid userId) eqn:Hu;
    [|unfold ChatService.acceptChat; rewrite Hc, Hu; intros [= _ <-]; by left].
  destruct (List.find (Chat.has_id (toHexString chatId)) (chats db)) as [c|] eqn:Hf.
  - assert (Hfind : Chat.findById chatId db = (Ok (Some c), db)).
    { unfold Chat.findById. by rewrite Hc, Hf. }
    rewrite (acceptChat_found _ _ _ _ _ Hfind Hu).
    destruct (existsb _ _) eqn:Hp; simpl; [|intros [= _ <-]; by left].
    destruct (String.eqb_spec (IChat.initiatedBy c) userId) as [|Hne];
      [intros [= _ <-]; by left|].
    destruct (IChat.status c) eqn:Hs; simpl; try (intros [= _ <-]; by left).
    intros [= <- <-]. right. exists c. eexists.
    apply existsb_eqb_In in Hp. by split_and!.
  - unfold ChatService.acceptChat, Chat.findById. rewrite Hc, Hu. run.
    rewrite ?Hc, Hf. intros [= _ <-]. by left.
Qed.

(** The store after [createMessage]: the same, or one message more. *)
Lemma createMessage_effect chatId senderId content now newId db r db' :
  ChatService.createMessage chatId senderId content now newId db = (r, db') →
  (db' = db ∧ ∀ m, r ≠ Ok m)
  ∨ ∃ c, List.find (Chat.has_id (toHexString chatId)) (chats db) = Some c
         ∧ IChat.status c = accepted
         ∧ In senderId (IChat.participants c)
         ∧ Message.validate_content content = None
         ∧ existsb (Message.has_id newId) (messages db) = false
         ∧ r = Ok (ChatService.toMessageResponse
                     (created_message chatId senderId content now newId) None)
         ∧ db' = mkDb (users db) (chats db)
                   (messages db ++ [created_message chatId senderId content now newId]).
Proof.
  destruct (isValid chatId) eqn:Hc;
    [|unfold ChatService.createMessage; rewrite Hc; intros [= <- <-]; by left].
  destruct (isValid senderId) eqn:Hu;
    [|unfold ChatService.createMessage; rewrite Hc, Hu; intros [= <- <-]; by left].
  destruct (List.find (Chat.has_id (toHexString chatId)) (chats db)) as [c|] eqn:Hf.
  - assert (Hfind : Chat.findById chatId db = (Ok (Some c), db)).
    { unfold Chat.findById. by rewrite Hc, Hf. }
    rewrite (createMessage_found _ _ _ _ _ _ _ Hfind Hu).
    destruct (existsb _ (IChat.participants c)) eqn:Hp; simpl;
      [|intros [= <- <-]; by left].
    destruct (IChat.status c) eqn:Hs; simpl; try (intros [= <- <-]; by left).
    destruct (Message.validate_content content) eqn:Hv; [intros [= <- <-]; by left|].
    destruct (existsb _ (messages db)) eqn:Hid; [intros [= <- <-]; by left|].
    intros [= <- <-]. right. exists c.
    apply existsb_eqb_In in Hp. by split_and!.
  - unfold ChatService.createMessage, ChatService.validateChatParticipants,
      Chat.findById. rewrite Hc, Hu. run. rewrite ?Hc, Hf.
    intros [= <- <-]. by left.
Qed.

(** The calls that only read. *)
Lemma queries_read_only c db :
  match c with
  | CreateChatRequest _ _ _ | AcceptChat _ _ _ | CreateMessage _ _ _ _ _ => True
  | _ => after c db = db
  end.
Proof.
  destruct c as [| | |chatId query|userId|chatId|chatId userId|userId]; try done;
    unfold after.
  - unfold ChatService.getChatMessages, Chat.findById,
      Message.find_populate_sort_skip_limit, Message.countDocuments. run.
    destruct (isValid chatId); simpl; [|done]. by destruct (List.find _ _).
  - unfold ChatList.getUserChats, ChatList.find_populate_sort. run.
    by destruct (isValid userId).
  - unfold ChatService.getChatById, Chat.findById. run. by destruct (isValid chatId).
  - unfold ChatService.validateChatParticipants, Chat.findById. run.
    destruct (isValid chatId); simpl; [|done].
    destruct (isValid userId); simpl; [|done].
    destruct (List.find _ _); simpl; [|done]. by destruct (existsb _ _).
  - by rewrite userExists_run.
Qed.
End effects.

(** ** The stores that calls lead to *)

Section store_facts.
Context {ids : ObjectIdOps}.

Lemma chat_evolves_refl c : chat_evolves c c.
Proof. unfold chat_evolves. by split_and!; [..|left]. Qed.

Lemma chat_evolves_trans c1 c2 c3 :
  chat_evolves c1 c2 → chat_evolves c2 c3 → chat_evolves c1 c3.
Proof.
  intros (Hi & Hp & Hb & Ht & Hs) (Hi' & Hp' & Hb' & Ht' & Hs').
  unfold chat_evolves. split_and!; try congruence.
  destruct Hs as [->|[Hs1 Hs2]]; [done|].
  destruct Hs' as [->|[Hs1' Hs2']]; [by right|congruence].
Qed.

Lemma Forall2_chat_evolves_refl cs : Forall2 chat_evolves cs cs.
Proof. induction cs; constructor; auto using chat_evolves_refl. Qed.

Lemma replace_evolves c c' cs :
  List.find (Chat.has_id (IChat._id c')) cs = Some c →
  chat_evolves c c' →
  Forall2 chat_evolves cs (Chat.replace c' cs).
Proof.
  intros Hf Hev. induction cs as [|x cs IH]; simpl in *; [constructor|].
  destruct (Chat.has_id (IChat._id c') x).
  - injection Hf as ->. constructor; [done|apply Forall2_chat_evolves_refl].
  - constructor; [apply chat_evolves_refl|by apply IH].
Qed.

Lemma store_grows_refl db : store_grows db db.
Proof.
  split_and!; [done|exists (chats db), []|exists []]; rewrite ?app_nil_r;
    auto using Forall2_chat_evolves_refl.
Qed.

Lemma store_grows_trans db1 db2 db3 :
  store_grows db1 db2 → store_grows db2 db3 → store_grows db1 db3.
Proof.
  intros (Hu & (cs2 & n2 & Hc2 & He2) & (m2 & Hm2))
         (Hu' & (cs3 & n3 & Hc3 & He3) & (m3 & Hm3)).
  split_and!; [congruence| |].
  - rewrite Hc2 in He3. apply Forall2_app_inv_l in He3 as (k1 & k2 & Hk1 & Hk2 & ->).
    exists k1, (k2 ++ n3)%list. split; [by rewrite Hc3, app_assoc|].
    clear -He2 Hk1. revert k1 Hk1.
    induction He2 as [|x y l1 l2 Hxy Hl IH]; intros k1 Hk1; inv Hk1; constructor;
      eauto using chat_evolves_trans.
  - exists (m2 ++ m3)%list. by rewrite Hm3, Hm2, app_assoc.
Qed.

(** One call: the store stays, or gains a pending chat, or has a
    pending chat accepted, or gains a message. *)
Lemma step_cases db db' :
  step db db' →
  db' = db
  ∨ (∃ u1 u2 now newId c,
       c = IChat.mk newId [toHexString u1; toHexString u2] pending (toHexString u1) now None
       ∧ Chat.validator (IChat.participants c) = true
       ∧ existsb (Chat.has_id newId) (chats db) = false
       ∧ List.find (Chat.participants_all (toHexString u1) (toHexString u2)) (chats db) = None
       ∧ db' = mkDb (users db) (chats db ++ [c]) (messages db))
  ∨ (∃ c now c',
       List.find (Chat.has_id (IChat._id c)) (chats db) = Some c
       ∧ IChat.status c = pending
       ∧ c' = IChat.mk (IChat._id c) (IChat.participants c) accepted
                (IChat.initiatedBy c) (IChat.createdAt c) (Some now)
       ∧ db' = mkDb (users db) (Chat.replace c' (chats db)) (messages db))
  ∨ (∃ c chatId senderId content now newId,
       List.find (Chat.has_id (toHexString chatId)) (chats db) = Some c
       ∧ IChat.status c = accepted
       ∧ In senderId (IChat.participants c)
       ∧ Message.validate_content content = None
       ∧ existsb (Message.has_id newId) (messages db) = false
       ∧ db' = mkDb (users db) (chats db)
                 (messages db ++ [created_message chatId senderId content now newId])).
Proof.
  intros [call ->].
  destruct call as [data now newId|chatId userId now|chatId senderId content now newId
                    |chatId query|userId|chatId|chatId userId|userId];
    try (left; match goal with
               | |- after ?c db = db => exact (queries_read_only c db)
               end);
    unfold after.
  - destruct (ChatService.createChatRequest data now newId db) as [r db'] eqn:E.
    apply createChatRequest_effect in E as [->|(c & Hc & _ & Hv & Hid & Hf & ->)];
      [by left|].
    right. left. by exists (CreateChatRequest.fromUserId data),
      (CreateChatRequest.toUserId data), now, newId, c.
  - destruct (ChatService.acceptChat chatId userId now db) as [r db'] eqn:E.
    apply acceptChat_effect in E as [->|(c & c' & Hf & Hs & _ & _ & Hc' & _ & ->)];
      [by left|].
    right. right. left. exists c, now, c'.
    pose proof (find_has_id _ _ _ Hf) as Hid. rewrite <- Hid in Hf. done.
  - destruct (ChatService.createMessage chatId senderId content now newId db)
      as [r db'] eqn:E.
    apply createMessage_effect in E as [[-> _]|(c & Hf & Hs & Hin & Hv & Hid & _ & ->)];
      [by left|].
    right. right. right. by exists c, chatId, senderId, content, now, newId.
Qed.
End store_facts.

Section invariant_facts.
Context {ids : ObjectIdOps} {laws : ObjectIdLaws ids}.

Lemma chat_id_fresh newId cs :
  existsb (Chat.has_id newId) cs = false → ¬ In newId (map IChat._id cs).
Proof.
  intros Hex Hin. apply in_map_iff in Hin as (c & <- & Hc).
  assert (existsb (Chat.has_id (IChat._id c)) cs = true); [|congruence].
  apply existsb_exists. exists c. split; [done|]. apply String.eqb_refl.
Qed.

Lemma message_id_fresh newId ms :
  existsb (Message.has_id newId) ms = false → ¬ In newId (map IMessage._id ms).
Proof.
  intros Hex Hin. apply in_map_iff in Hin as (m & <- & Hm).
  assert (existsb (Message.has_id (IMessage._id m)) ms = true); [|congruence].
  apply existsb_exists. exists m. split; [done|]. apply String.eqb_refl.
Qed.

Lemma NoDup_snoc {A} (l : list A) x : NoDup l → ¬ In x l → NoDup (l ++ [x]).
Proof.
  intros Hl Hx. apply NoDup_app. split_and!; [done| |apply NoDup_singleton].
  intros y Hy Hyx. apply list_elem_of_singleton in Hyx as ->.
  by apply Hx, list_elem_of_In.
Qed.

Lemma evolves_ids cs cs' :
  Forall2 chat_evolves cs cs' → map IChat._id cs' = map IChat._id cs.
Proof.
  induction 1 as [|c c' cs cs' (Hid & _) _ IH]; simpl; [done|]. by rewrite Hid, IH.
Qed.

Lemma evolves_message_ok cs cs' m :
  Forall2 chat_evolves cs cs' → message_ok cs m → message_ok cs' m.
Proof.
  intros Hev ((c & Hin & Hid & Hst & Hs) & Hrest). split; [|done].
  apply list_elem_of_In, list_elem_of_lookup in Hin as [i Hi].
  destruct (Forall2_lookup_l _ _ _ _ _ Hev Hi) as (c' & Hi' & (_ & _ & _ & _ & Hcase)).
  destruct Hcase as [->|[Hp _]]; [|congruence].
  exists c. split_and!; try done.
  apply list_elem_of_In, list_elem_of_lookup. eauto.
Qed.

Lemma message_ok_more_chats cs new m :
  message_ok cs m → message_ok (cs ++ new) m.
Proof.
  intros ((c & Hin & Hrest) & Hm). split; [|done].
  exists c. split; [|done]. apply in_or_app. by left.
Qed.

Lemma same_pair_participants_all h1 h2 c d :
  IChat.participants c = [h1; h2] → same_pair c d →
  Chat.participants_all h1 h2 d = true.
Proof.
  intros Hc Hsame. unfold Chat.participants_all.
  assert (H1 : In h1 (IChat.participants d)) by (apply Hsame; rewrite Hc; by left).
  assert (H2 : In h2 (IChat.participants d)) by (apply Hsame; rewrite Hc; right; by left).
  apply andb_true_iff. split; apply existsb_exists; [exists h1|exists h2];
    (split; [done|apply String.eqb_refl]).
Qed.

Lemma same_pair_sym c d : same_pair c d → same_pair d c.
Proof. intros H p. symmetry. apply H. Qed.

(** Every call keeps [store_ok]. *)
Lemma step_store_ok db db' : store_ok db → step db db' → store_ok db'.
Proof.
  intros (Hids & Hok & Hcanon & Hpair & Hmids & Hmsgs) Hstep.
  apply step_cases in Hstep
    as [->|[(u1 & u2 & now & newId & c & Hc & Hv & Hfresh & Hnone & ->)
           |[(c & now & c' & Hf & Hst & Hc' & ->)
            |(c & chatId & senderId & content & now & newId
              & Hf & Hst & Hin & Hv & Hfresh & ->)]]].
  - done.
  - unfold store_ok. simpl. split_and!.
    + rewrite map_app. apply NoDup_snoc; [done|]. subst c. by apply chat_id_fresh.
    + apply Forall_app. split; [done|]. constructor; [|done].
      subst c. unfold chat_ok. simpl in *. split_and!; try done; try (by left).
    + apply Forall_app. split; [done|]. constructor; [|done].
      subst c. simpl. repeat constructor; apply toHexString_idemp.
    + intros i j x y Hi Hj Hsame.
      apply lookup_app_Some in Hi as [Hi|[Hil Hi]];
        apply lookup_app_Some in Hj as [Hj|[Hjl Hj]].
      * by apply (Hpair i j x y).
      * exfalso. apply list_lookup_singleton_Some in Hj as [_ <-].
        pose proof (find_none _ _ Hnone x) as Hx.
        rewrite (same_pair_participants_all (toHexString u1) (toHexString u2) c x) in Hx;
          [|by subst c|by apply same_pair_sym].
        discriminate Hx. apply list_elem_of_In, list_elem_of_lookup. eauto.
      * exfalso. apply list_lookup_singleton_Some in Hi as [_ <-].
        pose proof (find_none _ _ Hnone y) as Hy.
        rewrite (same_pair_participants_all (toHexString u1) (toHexString u2) c y) in Hy;
          [|by subst c|done].
        discriminate Hy. apply list_elem_of_In, list_elem_of_lookup. eauto.
      * apply list_lookup_singleton_Some in Hi as [Hi _].
        apply list_lookup_singleton_Some in Hj as [Hj _]. lia.
    + done.
    + eapply Forall_impl; [exact Hmsgs|]. intros m. apply message_ok_more_chats.
  - assert (Hev : chat_evolves c c').
    { subst c'. unfold chat_evolves. simpl. split_and!; try done. by right. }
    assert (Hid : IChat._id c' = IChat._id c) by (by subst c').
    rewrite <- Hid in Hf.
    pose proof (replace_evolves _ _ _ Hf Hev) as Hall.
    pose proof (find_some _ _ Hf) as [Hcin _].
    unfold store_ok. simpl. split_and!.
    + by rewrite (evolves_ids _ _ Hall).
    + apply Forall_lookup. intros i x Hi.
      destruct (Forall2_lookup_r _ _ _ _ _ Hall Hi) as (y & Hy & (_ & Hp & Hb & _ & Hcase)).
      pose proof (proj1 (Forall_lookup _ _) Hok i y Hy) as (Hv & Hinit & Hrej & Hacc).
      destruct Hcase as [->|[Hyp Hxa]]; [done|].
      unfold chat_ok. rewrite Hp, Hb. split_and!; try done; [congruence|].
      split; [|done]. intros _.
      assert (x = c') as ->; [|by subst c'].
      clear -Hall Hi Hy Hyp Hxa Hf.
      revert i Hi Hy. induction (chats db) as [|z zs IH]; intros i Hi Hy; [done|].
      simpl in *. destruct (Chat.has_id (IChat._id c') z) eqn:Hz.
      * destruct i; simpl in *; [congruence|].
        inv Hall. congruence.
      * destruct i; simpl in *; [congruence|].
        inv Hall. eapply IH; eauto.
    + apply Forall_lookup. intros i x Hi.
      destruct (Forall2_lookup_r _ _ _ _ _ Hall Hi) as (y & Hy & (_ & Hp & _)).
      rewrite Hp. exact (proj1 (Forall_lookup _ _) Hcanon i y Hy).
    + intros i j x y Hi Hj Hsame.
      destruct (Forall2_lookup_r _ _ _ _ _ Hall Hi) as (x0 & Hx0 & (_ & Hpx & _)).
      destruct (Forall2_lookup_r _ _ _ _ _ Hall Hj) as (y0 & Hy0 & (_ & Hpy & _)).
      apply (Hpair i j x0 y0); [done|done|].
      intros p. rewrite <- Hpx, <- Hpy. apply Hsame.
    + done.
    + eapply Forall_impl; [exact Hmsgs|]. intros m. by apply evolves_message_ok.
  - pose proof (find_some _ _ Hf) as [Hcin Hcid].
    unfold Chat.has_id in Hcid. apply String.eqb_eq in Hcid.
    assert (Hcanon_s : toHexString senderId = senderId).
    { rewrite Forall_forall in Hcanon.
      specialize (Hcanon c (proj2 (list_elem_of_In _ _) Hcin)).
      rewrite Forall_forall in Hcanon. by apply Hcanon, list_elem_of_In. }
    unfold store_ok. simpl. split_and!; try done.
    + rewrite map_app. apply NoDup_snoc; [done|]. by apply message_id_fresh.
    + apply Forall_app. split; [done|]. constructor; [|done].
      unfold message_ok, created_message. simpl. split_and!; try done.
      * exists c. rewrite Hcanon_s. by split_and!.
      * apply trim_idemp.
      * unfold Message.validate_content in Hv.
        destruct (Nat.eqb_spec (List.length (trim content)) 0); [done|]. lia.
      * unfold Message.validate_content in Hv.
        destruct (List.length (trim content) =? 0)%nat; [done|].
        destruct (Nat.ltb_spec 5000 (List.length (trim content))); [done|]. lia.
Qed.

Lemma store_ok_initial us : store_ok (mkDb us [] []).
Proof.
  unfold store_ok. simpl. split_and!; try constructor.
  intros i j c d Hi. by rewrite lookup_nil in Hi.
Qed.

Lemma reachable_store_ok db : reachable db → store_ok db.
Proof.
  intros [us Hsteps].
  apply (rtc_ind_r (R := step) (λ d, store_ok d) (mkDb us [] []));
    [|intros y z _ Hyz IH|done].
  - apply store_ok_initial.
  - by eapply step_store_ok.
Qed.
End invariant_facts.

Section growth_facts.
Context {ids : ObjectIdOps}.

Lemma step_grows db db' : step db db' → store_grows db db'.
Proof.
  intros Hstep.
  apply step_cases in Hstep
    as [->|[(u1 & u2 & now & newId & c & Hc & Hv & Hfresh & Hnone & ->)
           |[(c & now & c' & Hf & Hst & Hc' & ->)
            |(c & chatId & senderId & content & now & newId
              & Hf & Hst & Hin & Hv & Hfresh & ->)]]].
  - apply store_grows_refl.
  - split_and!; simpl; [done| |exists []; by rewrite app_nil_r].
    exists (chats db), [c]. split; [done|apply Forall2_chat_evolves_refl].
  - split_and!; simpl; [done| |exists []; by rewrite app_nil_r].
    exists (Chat.replace c' (chats db)), []. split; [by rewrite app_nil_r|].
    apply (replace_evolves c); [by subst c'|].
    subst c'. unfold chat_evolves. simpl. split_and!; try done. by right.
  - split_and!; simpl; [done| |by eexists].
    exists (chats db), []. split; [by rewrite app_nil_r|apply Forall2_chat_evolves_refl].
Qed.

(** X4: however many calls of the service are made, in whatever order and
    with whatever arguments and outcomes, the users stay the same, every
    chat stays in its place with its id, participants, initiator and
    creation time and changes at most from pending to accepted, new
    chats only come after the old ones, and the messages there were
    stay, unchanged, before the new ones. *)
Theorem calls_only_grow_the_store db db' :
  rtc step db db' → store_grows db db'.
Proof.
  intros Hsteps. induction Hsteps as [|x y z Hxy _ IH].
  - apply store_grows_refl.
  - eapply store_grows_trans; [by apply step_grows|done].
Qed.
End growth_facts.

(** ** The sample id format *)

Lemma to_lower_idemp c : to_lower (to_lower c) = to_lower c.
Proof. destruct c as [[] [] [] [] [] [] [] []]; reflexivity. Qed.

#[global] Instance hex24_laws : ObjectIdLaws hex24.
Proof.
  constructor. intros s. simpl. induction s as [|c s IH]; simpl; [done|].
  by rewrite to_lower_idemp, IH.
Qed.

Lemma sample_steps :
  rtc (step (ids := hex24)) Sample.db_empty Sample.db_pending
  ∧ rtc (step (ids := hex24)) Sample.db_pending Sample.db_accepted
  ∧ rtc (step (ids := hex24)) Sample.db_accepted
      (mkDb Sample.the_users [Sample.accepted_chat]
         [Sample.message Sample.msg1 Sample.alice "one" 31]).
Proof.
  split_and!; apply rtc_once.
  - by exists (CreateChatRequest (CreateChatRequest.mk Sample.alice Sample.bob) 10 Sample.chat1).
  - by exists (AcceptChat Sample.chat1 Sample.bob 20).
  - by exists (CreateMessage Sample.chat1 Sample.alice (0xA0 :: js " one ") 31 Sample.msg1).
Qed.

Lemma sample_reachable :
  reachable (ids := hex24)
    (mkDb Sample.the_users [Sample.accepted_chat]
       [Sample.message Sample.msg1 Sample.alice "one" 31]).
Proof.
  destruct sample_steps as (H1 & H2 & H3). exists Sample.the_users.
  etrans; [exact H1|]. etrans; [exact H2|exact H3].
Qed.

Lemma calls_only_grow_the_store_sample :
  store_grows Sample.db_pending Sample.db_accepted.
Proof.
  apply (calls_only_grow_the_store (ids := hex24)). apply sample_steps.
Defined.

(** ** What holds of every store the service makes *)

Section reachable_facts.
Context {ids : ObjectIdOps} {laws : ObjectIdLaws ids}.

(** X5: in every store made by calls of the service from one without
    chats, each chat has exactly two participants, different from each
    other, its initiator is one of them, it is not rejected, and it has
    an acceptance time exactly when it is accepted. *)
Theorem reachable_chats_well_formed db c :
  reachable db → In c (chats db) →
  (∃ p q, IChat.participants c = [p; q] ∧ p ≠ q)
  ∧ In (IChat.initiatedBy c) (IChat.participants c)
  ∧ IChat.status c ≠ rejected
  ∧ (IChat.status c = accepted ↔ is_Some (IChat.acceptedAt c)).
Proof.
  intros Hr Hin. destruct (reachable_store_ok db Hr) as (_ & Hok & _).
  rewrite Forall_forall in Hok.
  destruct (Hok c (proj2 (list_elem_of_In _ _) Hin)) as (Hv & Hrest).
  split; [|done]. unfold Chat.validator in Hv.
  destruct (IChat.participants c) as [|p [|q [|? ?]]]; try done.
  exists p, q. split; [done|]. intros ->. by rewrite String.eqb_refl in Hv.
Qed.

(** X6: in every such store the chat ids are distinct and no two chats
    have the same two participants. *)
Theorem reachable_one_chat_per_pair db :
  reachable db →
  NoDup (map IChat._id (chats db))
  ∧ ∀ i j c d, chats db !! i = Some c → chats db !! j = Some d →
               same_pair c d → i = j.
Proof.
  intros Hr. by destruct (reachable_store_ok db Hr) as (Hids & _ & _ & Hpair & _).
Qed.

(** X7: in every such store the message ids are distinct, and each
    message has the id of an accepted chat of the store, a sender who
    is a participant of that chat, content of 1 to 5000 code units
    that [trim] leaves as it is (no white space of JavaScript, of the
    basic Latin range or beyond it, at either end), and no reply-to
    reference or read time. *)
Theorem reachable_messages_valid db :
  reachable db →
  NoDup (map IMessage._id (messages db))
  ∧ ∀ m, In m (messages db) → message_ok (chats db) m.
Proof.
  intros Hr. destruct (reachable_store_ok db Hr) as (_ & _ & _ & _ & Hids & Hm).
  split; [done|]. intros m Hin. rewrite Forall_forall in Hm.
  by apply Hm, list_elem_of_In.
Qed.
End reachable_facts.

Lemma reachable_chats_well_formed_sample :
  (∃ p q, IChat.participants Sample.accepted_chat = [p; q] ∧ p ≠ q)
  ∧ In (IChat.initiatedBy Sample.accepted_chat) (IChat.participants Sample.accepted_chat)
  ∧ IChat.status Sample.accepted_chat ≠ rejected
  ∧ (IChat.status Sample.accepted_chat = accepted
     ↔ is_Some (IChat.acceptedAt Sample.accepted_chat)).
Proof.
  apply (reachable_chats_well_formed (ids := hex24) _ _ sample_reachable).
  by left.
Defined.

Lemma reachable_one_chat_per_pair_sample :
  NoDup (map IChat._id [Sample.accepted_chat])
  ∧ ∀ i j c d, [Sample.accepted_chat] !! i = Some c → [Sample.accepted_chat] !! j = Some d →
               same_pair c d → i = j.
Proof. exact (reachable_one_chat_per_pair (ids := hex24) _ sample_reachable). Defined.

Lemma reachable_messages_valid_sample :
  message_ok [Sample.accepted_chat] (Sample.message Sample.msg1 Sample.alice "one" 31).
Proof.
  apply (proj2 (reachable_messages_valid (ids := hex24) _ sample_reachable)).
  by left.
Defined.

(** ** Requesting, accepting, sending: refusals and the whole path *)

Section lifecycle_facts.
Context {ids : ObjectIdOps}.

(** X1: [createChatRequest] refuses, in this order and without touching
    the store: an id that is not a valid ObjectId; the same id twice,
    whether or not it is the id of a user; a user that does not exist. *)
Theorem createChatRequest_rejections u1 u2 now newId db :
  (isValid u1 = false ∨ isValid u2 = false →
     ChatService.createChatRequest (CreateChatRequest.mk u1 u2) now newId db
     = (Throw InvalidUserId, db))
  ∧ (isValid u1 = true → isValid u2 = true → u1 = u2 →
     ChatService.createChatRequest (CreateChatRequest.mk u1 u2) now newId db
     = (Throw CannotChatWithYourself, db))
  ∧ (isValid u1 = true → isValid u2 = true → u1 ≠ u2 →
     UserService.userExists u1 db = (Ok false, db)
     ∨ UserService.userExists u2 db = (Ok false, db) →
     ChatService.createChatRequest (CreateChatRequest.mk u1 u2) now newId db
     = (Throw UsersDoNotExist, db)).
Proof.
  rewrite createChatRequest_run. split_and!.
  - by intros [-> | ->]; rewrite ?orb_true_r.
  - intros -> -> ->. simpl. by rewrite String.eqb_refl.
  - intros H1 H2 Hne Hex. rewrite H1, H2. simpl.
    rewrite (proj2 (String.eqb_neq u1 u2) Hne).
    rewrite !userExists_run, H1, H2 in Hex. simpl in Hex.
    destruct Hex as [[= Hex]|[= Hex]]; rewrite Hex; simpl; by rewrite ?orb_true_r.
Qed.

Lemma replace_fresh_app c c' cs :
  existsb (Chat.has_id (IChat._id c')) cs = false →
  IChat._id c = IChat._id c' →
  Chat.replace c' (cs ++ [c]) = (cs ++ [c'])%list.
Proof.
  intros Hfresh Hid. induction cs as [|x cs IH]; simpl in *.
  - unfold Chat.has_id. by rewrite Hid, String.eqb_refl.
  - apply orb_false_iff in Hfresh as [-> Hfresh]. by rewrite IH.
Qed.

Lemma find_fresh_app id c cs :
  existsb (Chat.has_id id) cs = false →
  IChat._id c = id →
  List.find (Chat.has_id id) (cs ++ [c]) = Some c.
Proof.
  intros Hfresh Hid. rewrite find_app_first.
  destruct (List.find (Chat.has_id id) cs) as [x|] eqn:Hf.
  - apply find_some in Hf as [Hin Hx].
    assert (existsb (Chat.has_id id) cs = true); [|congruence].
    apply existsb_exists. eauto.
  - simpl. unfold Chat.has_id. by rewrite Hid, String.eqb_refl.
Qed.

(** X2: the whole path.  Two existing users with ids in canonical form
    and no chat between them: the first requests a chat, the second
    accepts it, the first sends a message, and the first page of the
    chat is that message.  Each call succeeds; the store ends with the
    accepted chat after the chats there were and the message after the
    messages there were. *)
Theorem request_accept_send_list u1 u2 chatId msgId content t1 t2 t3 db user1 :
  isValid u1 = true → isValid u2 = true → isValid chatId = true →
  toHexString u1 = u1 → toHexString u2 = u2 → toHexString chatId = chatId →
  u1 ≠ u2 →
  ChatList.user_by_id db u1 = Some user1 →
  UserService.userExists u2 db = (Ok true, db) →
  List.find (Chat.participants_all u1 u2) (chats db) = None →
  existsb (Chat.has_id chatId) (chats db) = false →
  chat_messages chatId db = [] →
  existsb (Message.has_id msgId) (messages db) = false →
  (0 < List.length (trim content) ≤ 5000)%nat →
  let c0 := IChat.mk chatId [u1; u2] pending u1 t1 None in
  let c1 := IChat.mk chatId [u1; u2] accepted u1 t1 (Some t2) in
  let m := IMessage.mk msgId chatId u1 (trim content) None t3 None in
  let db1 := mkDb (users db) (chats db ++ [c0]) (messages db) in
  let db2 := mkDb (users db) (chats db ++ [c1]) (messages db) in
  let db3 := mkDb (users db) (chats db ++ [c1]) (messages db ++ [m]) in
  ChatService.createChatRequest (CreateChatRequest.mk u1 u2) t1 chatId db
    = (Ok (ChatService.toChatResponse c0), db1)
  ∧ ChatService.acceptChat chatId u2 t2 db1
    = (Ok (ChatService.toChatResponse c1), db2)
  ∧ ChatService.createMessage chatId u1 content t3 msgId db2
    = (Ok (MessageResponse.mk msgId chatId u1 (trim content) t3 None), db3)
  ∧ ChatService.getChatMessages chatId (PaginationQuery.mk None None) db3
    = (Ok (PaginatedResponse.mk
             [MessageResponse.mk msgId chatId u1 (trim content) t3 None] 1 50 1 1),
       db3).
Proof.
  intros H1 H2 Hc K1 K2 Kc Hne Hu1 Hu2 Hnone Hfresh Hnomsg Hmfresh Hlen
    c0 c1 m db1 db2 db3.
  assert (Hid1 : IUser._id user1 = u1).
  { apply find_some in Hu1 as [_ Heq]. by apply String.eqb_eq in Heq. }
  assert (Hf1 : Chat.findById chatId db1 = (Ok (Some c0), db1)).
  { unfold Chat.findById. rewrite Hc, Kc. simpl. by rewrite find_fresh_app. }
  assert (Hf2 : Chat.findById chatId db2 = (Ok (Some c1), db2)).
  { unfold Chat.findById. rewrite Hc, Kc. simpl. by rewrite find_fresh_app. }
  assert (Hf3 : Chat.findById chatId db3 = (Ok (Some c1), db3)).
  { unfold Chat.findById. rewrite Hc, Kc. simpl. by rewrite find_fresh_app. }
  split_and!.
  - rewrite createChatRequest_run, H1, H2, K1, K2, Hu1. simpl.
    rewrite (proj2 (String.eqb_neq u1 u2) Hne).
    rewrite userExists_run, H2, K2 in Hu2. simpl in Hu2.
    destruct (ChatList.user_by_id db u2); [|by injection Hu2]. simpl.
    by rewrite Hnone, ?(proj2 (String.eqb_neq u1 u2) Hne), Hfresh.
  - rewrite (acceptChat_found _ _ _ _ _ Hf1 H2). simpl.
    rewrite String.eqb_refl, orb_true_r. simpl.
    rewrite (proj2 (String.eqb_neq u1 u2) Hne). simpl.
    unfold db2. by rewrite (replace_fresh_app c0 c1).
  - rewrite (createMessage_found _ _ _ _ _ _ _ Hf2 H1). simpl.
    rewrite String.eqb_refl. simpl.
    rewrite (validate_content_ok _ Hlen), Hmfresh.
    unfold created_message, ChatService.toMessageResponse. simpl.
    by rewrite Kc, K1.
  - rewrite (getChatMessages_found _ _ _ _ Hf3).
    assert (Hmsgs : chat_messages chatId db3 = [m]).
    { unfold chat_messages in *. simpl. rewrite List.filter_app, Hnomsg. simpl.
      unfold Message.in_chat. simpl. by rewrite Kc, String.eqb_refl. }
    rewrite Hmsgs. simpl. do 3 f_equal.
    unfold listed, Message.populate_senderId, ChatService.toMessageResponse. simpl.
    unfold ChatList.user_by_id in Hu1. by rewrite Hu1, Hid1.
Qed.

(** X3: a chat is accepted once: after a successful [acceptChat], every
    further [acceptChat] on that chat id, by whatever user, throws and
    leaves the store as it is. *)
Theorem acceptChat_only_once chatId userId now db r db1 :
  ChatService.acceptChat chatId userId now db = (Ok r, db1) →
  ∀ userId' now',
    ∃ e, ChatService.acceptChat chatId userId' now' db1 = (Throw e, db1).
Proof.
  intros Hacc userId' now'.
  assert (Hc : isValid chatId = true).
  { unfold ChatService.acceptChat in Hacc. by destruct (isValid chatId). }
  destruct (List.find (Chat.has_id (toHexString chatId)) (chats db)) as [c|] eqn:Hf.
  - assert (Hfind : Chat.findById chatId db = (Ok (Some c), db)).
    { unfold Chat.findById. by rewrite Hc, Hf. }
    destruct (acceptChat_Ok _ _ _ _ _ _ _ Hfind Hacc) as (c' & Hfind' & Hst & _).
    destruct (isValid userId') eqn:Hu.
    + rewrite (acceptChat_found _ _ _ _ _ Hfind' Hu), Hst. simpl.
      destruct (negb _); [by eexists|]. destruct (String.eqb _ _); by eexists.
    + unfold ChatService.acceptChat. rewrite Hc, Hu. by eexists.
  - exfalso. revert Hacc. unfold ChatService.acceptChat, Chat.findById.
    destruct (isValid userId); rewrite Hc; simpl; [|done]. run. by rewrite Hf.
Qed.
End lifecycle_facts.

Lemma createChatRequest_rejections_sample :
  ChatService.createChatRequest (ids := hex24)
    (CreateChatRequest.mk Sample.alice Sample.alice) 10 Sample.chat1 Sample.db_empty
    = (Throw CannotChatWithYourself, Sample.db_empty)
  ∧ ChatService.createChatRequest (ids := hex24)
      (CreateChatRequest.mk Sample.alice Sample.no_such_message) 10 Sample.chat1
      Sample.db_empty
    = (Throw UsersDoNotExist, Sample.db_empty)
  ∧ ChatService.createChatRequest (ids := hex24)
      (CreateChatRequest.mk Sample.alice "bob") 10 Sample.chat1 Sample.db_empty
    = (Throw InvalidUserId, Sample.db_empty).
Proof.
  split_and!.
  - by apply (createChatRequest_rejections (ids := hex24)).
  - apply (createChatRequest_rejections (ids := hex24)); try done. by right.
  - apply (createChatRequest_rejections (ids := hex24)). by right.
Defined.

Lemma request_accept_send_list_sample :
  ChatService.getChatMessages (ids := hex24) Sample.chat1 (PaginationQuery.mk None None)
    (mkDb Sample.the_users [Sample.accepted_chat]
       [Sample.message Sample.msg1 Sample.alice "hi" 30])
  = (Ok (PaginatedResponse.mk
           [MessageResponse.mk Sample.msg1 Sample.chat1 Sample.alice (js "hi") 30 None]
           1 50 1 1),
     mkDb Sample.the_users [Sample.accepted_chat]
       [Sample.message Sample.msg1 Sample.alice "hi" 30]).
Proof.
  apply (request_accept_send_list (ids := hex24) Sample.alice Sample.bob Sample.chat1
           Sample.msg1 (0xA0 :: js " hi ") 10 20 30 Sample.db_empty
           (IUser.mk Sample.alice "alice"));
    try reflexivity; try discriminate.
  simpl. lia.
Defined.

Lemma acceptChat_only_once_sample :
  ∃ e, ChatService.acceptChat (ids := hex24) Sample.chat1 Sample.bob 50 Sample.db_accepted
       = (Throw e, Sample.db_accepted).
Proof.
  apply (acceptChat_only_once (ids := hex24) Sample.chat1 Sample.bob 20 Sample.db_pending
           (ChatService.toChatResponse Sample.accepted_chat)).
  reflexivity.
Defined.

(** ** Sending: what is stored and what is emitted *)

Section send_facts.
Context {ids : ObjectIdOps}.

(** X8: a participant of an accepted chat cannot store a blank or an
    over-long message: content that [trim] leaves empty (white space
    of JavaScript only, whatever its length), or that is longer than
    5000 code units after [trim], is refused by the schema, with the
    [ValidationError] of Mongoose for the path [content] of the model
    [Message], and the store is left as it was. *)
Theorem createMessage_content_rejections chatId senderId content now newId db chat :
  Chat.findById chatId db = (Ok (Some chat), db) →
  isValid senderId = true →
  In senderId (IChat.participants chat) →
  IChat.status chat = accepted →
  (List.length (trim content) = 0%nat →
     ∃ e, ChatService.createMessage chatId senderId content now newId db = (Throw e, db)
          ∧ e = ValidationError "Message" "content" "Path `content` is required."
          ∧ Error_message e
            = "Message validation failed: content: Path `content` is required.")
  ∧ ((5000 < List.length (trim content))%nat →
     ∃ e, ChatService.createMessage chatId senderId content now newId db = (Throw e, db)
          ∧ e = ValidationError "Message" "content" "Message cannot exceed 5000 characters"
          ∧ Error_message e
            = "Message validation failed: content: Message cannot exceed 5000 characters").
Proof.
  intros Hfind Hs Hin Hst. apply existsb_eqb_In in Hin.
  rewrite (createMessage_found _ _ _ _ _ _ _ Hfind Hs), Hin, Hst. simpl.
  unfold Message.validate_content. split.
  - intros ->. by eexists.
  - intros Hlong. destruct (Nat.eqb_spec (List.length (trim content)) 0); [lia|].
    destruct (Nat.ltb_spec 5000 (List.length (trim content))); [by eexists|lia].
Qed.

Lemma validateChatParticipants_state chatId userId db r db' :
  ChatService.validateChatParticipants chatId userId db = (r, db') → db' = db.
Proof.
  intros E. pose proof (queries_read_only (ValidateChatParticipants chatId userId) db) as H.
  simpl in H. unfold after in H. rewrite E in H. done.
Qed.

(** X9: every [MESSAGE_SEND] ends in one of two ways.  Either the message
    is created and the handler emits [MESSAGE_RECEIVED] with it to the
    connected participants and nothing else; or nothing is stored and
    the handler emits exactly one [ERROR], to the calling socket. *)
Theorem handleMessageSend_outcomes socket data onlineUsers now newId db r emitted db' :
  MessageHandler.handleMessageSend socket data onlineUsers now newId db
    = (r, emitted, db') →
  (r = Ok tt
   ∧ ∃ chat message,
       ChatService.validateChatParticipants (MessageSendData.chatId data)
         (MessageSendData.senderId data) db = (Ok chat, db)
       ∧ ChatService.createMessage (MessageSendData.chatId data)
           (MessageSendData.senderId data) (MessageSendData.content data) now newId db
         = (Ok message, db')
       ∧ emitted = MessageHandler.emit_to_online onlineUsers (IChat.participants chat)
                     (MESSAGE_RECEIVED message (MessageSendData.chatId data)))
  ∨ (db' = db ∧ ∃ error message, emitted = [emit_to socket (ERROR error message)]).
Proof.
  unfold MessageHandler.handleMessageSend.
  destruct (falsy _ || falsy_text _ || falsy _); [intros [= <- <- <-]; right; eauto|].
  unfold bind at 1.
  destruct (ChatService.validateChatParticipants _ _ db) as [[chat|e] db0] eqn:Hv;
    pose proof (validateChatParticipants_state _ _ _ _ _ Hv) as ->.
  - destruct (negb (ChatStatus_eqb (IChat.status chat) accepted));
      [intros [= <- <- <-]; right; eauto|].
    unfold bind, ret.
    destruct (ChatService.createMessage _ _ _ now newId db) as [[message|e] db1] eqn:Hcm.
    + intros [= <- <- <-]. left. split; [done|]. exists chat, message.
      by rewrite map_id.
    + intros [= <- <- <-]. right.
      apply createMessage_effect in Hcm as [[-> _]|(? & _ & _ & _ & _ & _ & [=] & _)].
      eauto.
  - intros [= <- <- <-]. right. eauto.
Qed.

(** X10: a [MESSAGE_SEND] that the handler ends by throwing (the sender is
    not a participant, the chat is unknown, an id is malformed, the
    content is blank) is answered by two [ERROR] events to the calling
    socket, with the same error text: one from the handler, one from
    the listener that called it.  Nothing is stored. *)
Theorem MESSAGE_SEND_error_reported_twice socket data onlineUsers now newId db e emitted db' :
  MessageHandler.handleMessageSend socket data (JsMap.to_gmap onlineUsers) now newId db
    = (Throw e, emitted, db') →
  SocketHandler.MESSAGE_SEND socket data onlineUsers now newId db
  = ([emit_to socket
        (ERROR (or_string (Error_message e) "Failed to send message")
           "An error occurred while processing the message");
      emit_to socket
        (ERROR (or_string (Error_message e) "Failed to send message")
           "An error occurred while sending the message")], db).
Proof.
  intros Hh. unfold SocketHandler.MESSAGE_SEND. rewrite Hh.
  revert Hh. unfold MessageHandler.handleMessageSend.
  destruct (falsy _ || falsy_text _ || falsy _); [done|].
  unfold bind at 1.
  destruct (ChatService.validateChatParticipants _ _ db) as [[chat|e0] db0] eqn:Hv;
    pose proof (validateChatParticipants_state _ _ _ _ _ Hv) as ->.
  - destruct (negb (ChatStatus_eqb (IChat.status chat) accepted)); [done|].
    unfold bind, ret.
    destruct (ChatService.createMessage _ _ _ now newId db) as [[message|e1] db1] eqn:Hcm;
      [done|].
    intros [= <- <- <-].
    by apply createMessage_effect in Hcm as [[-> _]|(? & _ & _ & _ & _ & _ & [=] & _)].
  - by intros [= <- <- <-].
Qed.
End send_facts.

(** At the sample data: a space, a no-break space and a zero width
    no-break space make a blank message; 5001 letters make one that is
    too long. *)
Lemma createMessage_content_rejections_sample :
  (∃ e, ChatService.createMessage (ids := hex24) Sample.chat1 Sample.alice
          [0x20; 0xA0; 0xFEFF] 30 Sample.msg1 Sample.db_accepted
        = (Throw e, Sample.db_accepted)
        ∧ e = ValidationError "Message" "content" "Path `content` is required."
        ∧ Error_message e
          = "Message validation failed: content: Path `content` is required.")
  ∧ (∃ e, ChatService.createMessage (ids := hex24) Sample.chat1 Sample.alice
            (repeat 0x78 (Z.to_nat 5001)) 30 Sample.msg1 Sample.db_accepted
          = (Throw e, Sample.db_accepted)
          ∧ e = ValidationError "Message" "content" "Message cannot exceed 5000 characters"
          ∧ Error_message e
            = "Message validation failed: content: Message cannot exceed 5000 characters").
Proof.
  split.
  - apply (proj1 (createMessage_content_rejections (ids := hex24) Sample.chat1 Sample.alice
                    [0x20; 0xA0; 0xFEFF] 30 Sample.msg1 Sample.db_accepted
                    Sample.accepted_chat eq_refl eq_refl (or_introl eq_refl) eq_refl)).
    reflexivity.
  - apply (proj2 (createMessage_content_rejections (ids := hex24) Sample.chat1 Sample.alice
                    (repeat 0x78 (Z.to_nat 5001)) 30 Sample.msg1 Sample.db_accepted
                    Sample.accepted_chat eq_refl eq_refl (or_introl eq_refl) eq_refl)).
    apply Nat.ltb_lt. vm_compute. reflexivity.
Defined.

Lemma handleMessageSend_outcomes_sample :
  let data := MessageSendData.mk Sample.chat1 (js "hi") Sample.alice None in
  let emitted :=
    [emit_to "socket-alice"
       (ERROR "Chat not accepted" "Cannot send messages to a chat that is not accepted")] in
  (Ok tt = Ok tt
   ∧ ∃ chat message,
       ChatService.validateChatParticipants (ids := hex24) Sample.chat1 Sample.alice
         Sample.db_pending = (Ok chat, Sample.db_pending)
       ∧ ChatService.createMessage (ids := hex24) Sample.chat1 Sample.alice (js "hi") 30
           Sample.msg1 Sample.db_pending = (Ok message, Sample.db_pending)
       ∧ emitted = MessageHandler.emit_to_online Sample.bob_online (IChat.participants chat)
                     (MESSAGE_RECEIVED message Sample.chat1))
  ∨ (Sample.db_pending = Sample.db_pending
     ∧ ∃ error message, emitted = [emit_to "socket-alice" (ERROR error message)]).
Proof.
  intros data emitted.
  apply (handleMessageSend_outcomes (ids := hex24) "socket-alice" data Sample.bob_online
           30 Sample.msg1 Sample.db_pending (Ok tt) emitted Sample.db_pending).
  reflexivity.
Defined.

Lemma MESSAGE_SEND_error_reported_twice_sample :
  SocketHandler.MESSAGE_SEND (ids := hex24) "socket-carol"
    (MessageSendData.mk Sample.chat1 (js "hi") Sample.carol None) [(Sample.bob, "socket-bob")]
    30 Sample.msg1 Sample.db_accepted
  = ([emit_to "socket-carol"
        (ERROR "User is not a participant in this chat"
           "An error occurred while processing the message");
      emit_to "socket-carol"
        (ERROR "User is not a participant in this chat"
           "An error occurred while sending the message")], Sample.db_accepted).
Proof.
  apply (MESSAGE_SEND_error_reported_twice (ids := hex24) "socket-carol"
           (MessageSendData.mk Sample.chat1 (js "hi") Sample.carol None)
           [(Sample.bob, "socket-bob")] 30 Sample.msg1 Sample.db_accepted NotAParticipant
           [emit_to "socket-carol"
              (ERROR "User is not a participant in this chat"
                 "An error occurred while processing the message")]
           Sample.db_accepted).
  reflexivity.
Defined.

(** ** [getChatMessages]: refusals and page sizes *)

Section page_facts.
Context {ids : ObjectIdOps}.

(** X11: [getChatMessages] refuses a chat id that is not a valid ObjectId,
    and a valid one under which no chat is stored, whatever messages
    the store holds; the store is left as it was. *)
Theorem getChatMessages_rejections chatId query db :
  (isValid chatId = false →
     ChatService.getChatMessages chatId query db = (Throw InvalidChatId, db))
  ∧ (isValid chatId = true →
     List.find (Chat.has_id (toHexString chatId)) (chats db) = None →
     ChatService.getChatMessages chatId query db = (Throw ChatNotFound, db)).
Proof.
  unfold ChatService.getChatMessages, Chat.findById. split.
  - by intros ->.
  - intros Hc Hf. rewrite Hc. run. by rewrite ?Hc, Hf.
Qed.

Lemma in_chat_messages chatId db m :
  In m (chat_messages chatId db) → IMessage.chatId m = toHexString chatId.
Proof.
  unfold chat_messages. rewrite filter_In. intros [_ Hm].
  unfold Message.in_chat in Hm. by apply String.eqb_eq in Hm.
Qed.

(** X12: on an existing chat, a page holds the messages left after the
    pages before it, up to the limit: their number is the smaller of
    [limit] and [total - (page - 1) * limit], or 0 when that is
    negative.  So a page never has more than 100 messages, every page
    after [totalPages] is empty, and every message of the page carries
    the id of the chat. *)
Theorem getChatMessages_page_size chatId db chat query :
  Chat.findById chatId db = (Ok (Some chat), db) →
  ∃ r,
    ChatService.getChatMessages chatId query db = (Ok r, db)
    ∧ Z.of_nat (List.length (PaginatedResponse.data r))
      = Z.max 0 (Z.min (PaginatedResponse.limit r)
                   (PaginatedResponse.total r
                    - (PaginatedResponse.page r - 1) * PaginatedResponse.limit r))
    ∧ (List.length (PaginatedResponse.data r) ≤ 100)%nat
    ∧ (PaginatedResponse.totalPages r < PaginatedResponse.page r →
       PaginatedResponse.data r = [])
    ∧ Forall (λ x, MessageResponse.chatId x = toHexString chatId)
        (PaginatedResponse.data r).
Proof.
  intros Hfind. eexists. split; [apply (getChatMessages_found _ _ _ _ Hfind)|].
  cbn [PaginatedResponse.data PaginatedResponse.page PaginatedResponse.limit
       PaginatedResponse.total PaginatedResponse.totalPages].
  set (L := Z.min 100 (Z.max 1 (or_number (PaginationQuery.limit query) 50))).
  set (P := Z.max 1 (or_number (PaginationQuery.page query) 1)).
  set (sorted := Message.sort_createdAt_desc (chat_messages chatId db)).
  assert (Hlen : List.length sorted = List.length (chat_messages chatId db))
    by apply sort_createdAt_desc_length.
  assert (Hsize : Z.of_nat (List.length
             (rev (map (listed db) (take (Z.to_nat L) (drop (Z.to_nat ((P - 1) * L)) sorted)))))
           = Z.max 0 (Z.min L (Z.of_nat (List.length (chat_messages chatId db))
                               - (P - 1) * L))).
  { rewrite length_rev, length_map, length_take, length_drop, Hlen.
    assert (0 ≤ (P - 1) * L) by nia. lia. }
  split_and!.
  - exact Hsize.
  - apply Nat2Z.inj_le. rewrite Hsize. lia.
  - intros Hpast. apply length_zero_iff_nil, Nat2Z.inj. rewrite Hsize.
    destruct (ceil_div_bounds (Z.of_nat (List.length (chat_messages chatId db))) L)
      as (_ & _ & Hup); [lia|lia|]. nia.
  - apply Forall_forall. intros x Hx.
    apply list_elem_of_In, in_rev, in_map_iff in Hx as (m & <- & Hm).
    apply list_elem_of_In, subseteq_take, subseteq_drop in Hm.
    apply (in_chat_messages chatId db).
    apply list_elem_of_In. by rewrite <- (sort_createdAt_desc_perm (chat_messages chatId db)).
Qed.
End page_facts.

Lemma getChatMessages_rejections_sample :
  ChatService.getChatMessages (ids := hex24) "chat-1" (PaginationQuery.mk None None)
    Sample.db_three = (Throw InvalidChatId, Sample.db_three)
  ∧ ChatService.getChatMessages (ids := hex24) Sample.chat2 (PaginationQuery.mk None None)
      Sample.db_three = (Throw ChatNotFound, Sample.db_three).
Proof.
  split.
  - by apply (getChatMessages_rejections (ids := hex24)).
  - by apply (getChatMessages_rejections (ids := hex24)).
Defined.

Lemma getChatMessages_page_size_sample :
  ∃ r,
    ChatService.getChatMessages (ids := hex24) Sample.chat1
      (PaginationQuery.mk (Some 2) (Some 2)) Sample.db_three = (Ok r, Sample.db_three)
    ∧ Z.of_nat (List.length (PaginatedResponse.data r))
      = Z.max 0 (Z.min (PaginatedResponse.limit r)
                   (PaginatedResponse.total r
                    - (PaginatedResponse.page r - 1) * PaginatedResponse.limit r))
    ∧ (List.length (PaginatedResponse.data r) ≤ 100)%nat
    ∧ (PaginatedResponse.totalPages r < PaginatedResponse.page r →
       PaginatedResponse.data r = [])
    ∧ Forall (λ x, MessageResponse.chatId x = Sample.chat1) (PaginatedResponse.data r).
Proof.
  exact (getChatMessages_page_size (ids := hex24) Sample.chat1 Sample.db_three
           Sample.accepted_chat (PaginationQuery.mk (Some 2) (Some 2)) eq_refl).
Defined.

(** ** [getUserChats] *)

Section getUserChats_facts.
Context {ids : ObjectIdOps}.

#[local] Instance chat_newer_first_trans : Transitive ChatList.newer_first.
Proof. unfold ChatList.newer_first. intros x y z. lia. Qed.

#[local] Instance chat_newer_first_total : Total ChatList.newer_first.
Proof. unfold ChatList.newer_first. intros x y. lia. Qed.

(** X13: [getUserChats] refuses an id that is not a valid ObjectId.  On a
    valid one it returns, without touching the store, one element for
    each stored chat that has the user among its participants, and for
    no other chat, ordered by creation time, newest first; each
    element has the id, status, creation and acceptance time of its
    chat. *)
Theorem getUserChats_lists_the_chats_of_the_user userId db :
  (isValid userId = false →
     ChatList.getUserChats userId db = (Throw InvalidUserId, db))
  ∧ (isValid userId = true →
     ∃ found,
       found ≡ₚ List.filter (ChatList.has_participant (toHexString userId)) (chats db)
       ∧ StronglySorted ChatList.newer_first found
       ∧ ∃ items,
           ChatList.getUserChats userId db = (Ok items, db)
           ∧ Forall2 (λ c item,
                        ChatResponse._id (UserChat.base item) = IChat._id c
                        ∧ ChatResponse.status (UserChat.base item) = IChat.status c
                        ∧ ChatResponse.createdAt (UserChat.base item) = IChat.createdAt c
                        ∧ ChatResponse.acceptedAt (UserChat.base item) = IChat.acceptedAt c)
               found items).
Proof.
  unfold ChatList.getUserChats, ChatList.find_populate_sort. split.
  - by intros ->.
  - intros ->. run.
    exists (merge_sort ChatList.newer_first
              (List.filter (ChatList.has_participant (toHexString userId)) (chats db))).
    split_and!.
    + apply merge_sort_Permutation.
    + apply StronglySorted_merge_sort; apply _.
    + eexists. split; [reflexivity|]. rewrite map_map.
      generalize (merge_sort ChatList.newer_first
                    (List.filter (ChatList.has_participant (toHexString userId)) (chats db))).
      intros cs. induction cs as [|c cs IH]; simpl; [constructor|].
      constructor; [by split_and!|exact IH].
Qed.

(** The callback of [getUserChats] on a chat whose two participants
    are existing users. *)
Lemma toUserChat_otherParticipant userId db c a b ua ub :
  IChat.participants c = [a; b] →
  a ≠ b →
  ChatList.user_by_id db a = Some ua →
  ChatList.user_by_id db b = Some ub →
  let item := ChatList.toUserChat userId (ChatList.populate db c) in
  ChatResponse.participants (UserChat.base item) = [a; b]
  ∧ UserChat.otherParticipant item
    = Some (if String.eqb a userId then (b, IUser.username ub)
            else (a, IUser.username ua)).
Proof.
  intros Hp Hne Ha Hb item.
  assert (Hida : IUser._id ua = a).
  { apply find_some in Ha as [_ Heq]. by apply String.eqb_eq in Heq. }
  assert (Hidb : IUser._id ub = b).
  { apply find_some in Hb as [_ Heq]. by apply String.eqb_eq in Heq. }
  subst item. unfold ChatList.toUserChat, ChatList.populate,
    ChatList.toChatResponseFromRaw. simpl. rewrite Hp. simpl. rewrite Ha, Hb. simpl.
  rewrite Hida, Hidb. split; [done|].
  destruct (String.eqb_spec a userId) as [<-|_]; simpl; [|by rewrite Hida].
  rewrite (proj2 (String.eqb_neq b a)) by congruence. simpl. by rewrite Hidb.
Qed.

(** X14: the [otherParticipant] of the elements that [getUserChats]
    returns.  On a valid [userId] the call returns one element for
    each stored chat with the user among its participants, and for
    each such chat whose two participants are existing users the
    element has the two participant ids and, as [otherParticipant],
    the first participant whose id differs, as a string, from the
    [userId] the list was asked for, with that user's name: the
    second for the first, the first for the second, and the first,
    whoever asked, for a [userId] spelled unlike both stored ids. *)
Theorem getUserChats_otherParticipant userId db :
  isValid userId = true →
  ∃ found items,
    found ≡ₚ List.filter (ChatList.has_participant (toHexString userId)) (chats db)
    ∧ ChatList.getUserChats userId db = (Ok items, db)
    ∧ Forall2 (λ c item,
                 ChatResponse._id (UserChat.base item) = IChat._id c
                 ∧ ∀ a b ua ub,
                     IChat.participants c = [a; b] →
                     a ≠ b →
                     ChatList.user_by_id db a = Some ua →
                     ChatList.user_by_id db b = Some ub →
                     ChatResponse.participants (UserChat.base item) = [a; b]
                     ∧ UserChat.otherParticipant item
                       = Some (if String.eqb a userId then (b, IUser.username ub)
                               else (a, IUser.username ua)))
        found items.
Proof.
  intros Hu. unfold ChatList.getUserChats, ChatList.find_populate_sort.
  rewrite Hu. run.
  exists (merge_sort ChatList.newer_first
            (List.filter (ChatList.has_participant (toHexString userId)) (chats db))).
  eexists. split_and!; [apply merge_sort_Permutation|reflexivity|].
  rewrite map_map.
  generalize (merge_sort ChatList.newer_first
                (List.filter (ChatList.has_participant (toHexString userId)) (chats db))).
  intros cs. induction cs as [|c cs IH]; simpl; [constructor|].
  constructor; [|exact IH]. split; [done|].
  intros a b ua ub Hp Hne Ha Hb.
  exact (toUserChat_otherParticipant userId db c a b ua ub Hp Hne Ha Hb).
Qed.
End getUserChats_facts.

Lemma getUserChats_lists_the_chats_of_the_user_sample :
  ChatList.getUserChats (ids := hex24) "carol" Sample.db_accepted
  = (Throw InvalidUserId, Sample.db_accepted)
  ∧ ∃ found,
      found ≡ₚ List.filter (ChatList.has_participant Sample.bob) (chats Sample.db_accepted)
      ∧ StronglySorted ChatList.newer_first found
      ∧ ∃ items,
          ChatList.getUserChats (ids := hex24) Sample.bob Sample.db_accepted
          = (Ok items, Sample.db_accepted)
          ∧ Forall2 (λ c item,
                       ChatResponse._id (UserChat.base item) = IChat._id c
                       ∧ ChatResponse.status (UserChat.base item) = IChat.status c
                       ∧ ChatResponse.createdAt (UserChat.base item) = IChat.createdAt c
                       ∧ ChatResponse.acceptedAt (UserChat.base item) = IChat.acceptedAt c)
              found items.
Proof.
  split.
  - by apply (proj1 (getUserChats_lists_the_chats_of_the_user (ids := hex24) "carol"
                       Sample.db_accepted)).
  - by apply (proj2 (getUserChats_lists_the_chats_of_the_user (ids := hex24) Sample.bob
                       Sample.db_accepted)).
Defined.

(** At the sample data: the chat list of bob is the chat with alice,
    and its [otherParticipant] is alice. *)
Lemma getUserChats_otherParticipant_sample :
  ∃ found items,
    found ≡ₚ List.filter (ChatList.has_participant Sample.bob) (chats Sample.db_accepted)
    ∧ ChatList.getUserChats (ids := hex24) Sample.bob Sample.db_accepted
      = (Ok items, Sample.db_accepted)
    ∧ Forall2 (λ c item,
                 ChatResponse._id (UserChat.base item) = IChat._id c
                 ∧ ∀ a b ua ub,
                     IChat.participants c = [a; b] →
                     a ≠ b →
                     ChatList.user_by_id Sample.db_accepted a = Some ua →
                     ChatList.user_by_id Sample.db_accepted b = Some ub →
                     ChatResponse.participants (UserChat.base item) = [a; b]
                     ∧ UserChat.otherParticipant item
                       = Some (if String.eqb a Sample.bob then (b, IUser.username ub)
                               else (a, IUser.username ua)))
        found items.
Proof.
  exact (getUserChats_otherParticipant (ids := hex24) Sample.bob Sample.db_accepted eq_refl).
Defined.

Lemma getUserChats_sample :
  ChatList.getUserChats (ids := hex24) Sample.bob Sample.db_accepted
  = (Ok [UserChat.mk (ChatService.toChatResponse Sample.accepted_chat)
           (Some (Sample.alice, "alice"))],
     Sample.db_accepted).
Proof. vm_compute. reflexivity. Qed.

(** Asked with the upper-case spelling of alice's id, the list is
    alice's, and its [otherParticipant] is alice. *)
Lemma getUserChats_other_spelling_sample :
  ChatList.getUserChats (ids := hex24) "AAAAAAAAAAAAAAAAAAAAAAAA" Sample.db_accepted
  = (Ok [UserChat.mk (ChatService.toChatResponse Sample.accepted_chat)
           (Some (Sample.alice, "alice"))], Sample.db_accepted).
Proof. vm_compute. reflexivity. Qed.

(** ** Notifications *)

Section notification_facts.
Context {ids : ObjectIdOps}.

(** X15: [notifyChatRequest] on a chat of two different users: the only
    socket that can receive [CHAT_REQUEST] is the one registered for
    the participant who is not the initiator (the second when the first
    is the initiator, the first otherwise); when that participant has
    no entry, or the entry is empty, nothing is emitted.  The initiator
    is never looked up. *)
Theorem notifyChatRequest_goes_to_the_recipient chat onlineUsers a b :
  ChatResponse.participants chat = [a; b] →
  a ≠ b →
  let recipient := if String.eqb a (ChatResponse.initiatedBy chat) then b else a in
  recipient ≠ "" →
  Notify.notifyChatRequest chat onlineUsers
  = match onlineUsers !! recipient with
    | Some socketId => if falsy socketId then [] else [emit_to socketId (CHAT_REQUEST chat)]
    | None => []
    end.
Proof.
  intros Hp Hne recipient Hrec. unfold Notify.notifyChatRequest. rewrite Hp.
  subst recipient. simpl.
  destruct (String.eqb_spec a (ChatResponse.initiatedBy chat)) as [Ha|Ha]; simpl.
  - rewrite (proj2 (String.eqb_neq b (ChatResponse.initiatedBy chat))) by congruence.
    simpl. by rewrite (falsy_false _ Hrec).
  - by rewrite (falsy_false _ Hrec).
Qed.

(** X16: the patched [createChatRequest] when a chat of the two users is
    stored already: it returns that chat and leaves the store as it
    was, and it notifies again, as for a new request, as long as the
    chat is pending; once the chat is accepted it notifies nobody.  The
    notification goes to the participant who did not initiate the
    stored chat, whichever of the two is asking now. *)
Theorem Server_createChatRequest_on_existing_chat u1 u2 now newId onlineUsers db c :
  isValid u1 = true → isValid u2 = true → u1 ≠ u2 →
  UserService.userExists u1 db = (Ok true, db) →
  UserService.userExists u2 db = (Ok true, db) →
  List.find (Chat.participants_all (toHexString u1) (toHexString u2)) (chats db) = Some c →
  Server.createChatRequest (CreateChatRequest.mk u1 u2) now newId onlineUsers db
  = (Ok (ChatService.toChatResponse c),
     match IChat.status c with
     | pending => Notify.notifyChatRequest (ChatService.toChatResponse c) onlineUsers
     | _ => []
     end, db).
Proof.
  intros H1 H2 Hne E1 E2 Hf. unfold Server.createChatRequest.
  rewrite createChatRequest_checked by done. rewrite Hf. simpl.
  by destruct (IChat.status c).
Qed.

(** The patched services emit nothing when the service throws. *)
Lemma Server_silent_on_error data chatId userId now newId onlineUsers db :
  (∀ e db', ChatService.createChatRequest data now newId db = (Throw e, db') →
            Server.createChatRequest data now newId onlineUsers db = (Throw e, [], db'))
  ∧ (∀ e db', ChatService.acceptChat chatId userId now db = (Throw e, db') →
              Server.acceptChat chatId userId now onlineUsers db = (Throw e, [], db')).
Proof.
  unfold Server.createChatRequest, Server.acceptChat.
  split; intros e db' ->; done.
Qed.

(** X17: the patched [acceptChat] when the recipient accepts a pending chat
    of two users who are both connected: [CHAT_ACCEPTED], carrying the
    accepted chat, is emitted once to the socket of each, in the order
    of the participants. *)
Theorem Server_acceptChat_notifies_both chatId userId now onlineUsers db chat a b sa sb :
  Chat.findById chatId db = (Ok (Some chat), db) →
  isValid userId = true →
  IChat.participants chat = [a; b] →
  In userId [a; b] →
  userId ≠ IChat.initiatedBy chat →
  IChat.status chat = pending →
  onlineUsers !! a = Some sa → sa ≠ "" →
  onlineUsers !! b = Some sb → sb ≠ "" →
  let accepted_chat :=
    ChatService.toChatResponse
      (IChat.mk (IChat._id chat) [a; b] accepted (IChat.initiatedBy chat)
         (IChat.createdAt chat) (Some now)) in
  ∃ db',
    Server.acceptChat chatId userId now onlineUsers db
    = (Ok accepted_chat,
       [emit_to sa (CHAT_ACCEPTED accepted_chat); emit_to sb (CHAT_ACCEPTED accepted_chat)],
       db').
Proof.
  intros Hfind Hu Hp Hin Hne Hst Ha Hsa Hb Hsb accepted_chat.
  unfold Server.acceptChat. rewrite (acceptChat_found _ _ _ _ _ Hfind Hu).
  rewrite Hp. rewrite <- existsb_eqb_In in Hin. rewrite Hin, Hst. simpl.
  destruct (String.eqb_spec (IChat.initiatedBy chat) userId) as [Heq|_]; [by subst|].
  eexists. f_equal. f_equal. unfold Notify.notifyChatAccepted. simpl.
  by rewrite Ha, Hb, (falsy_false _ Hsa), (falsy_false _ Hsb).
Qed.
End notification_facts.

Lemma notifyChatRequest_goes_to_the_recipient_sample :
  Notify.notifyChatRequest (ChatService.toChatResponse Sample.pending_chat) Sample.bob_online
  = [emit_to "socket-bob" (CHAT_REQUEST (ChatService.toChatResponse Sample.pending_chat))].
Proof.
  apply (notifyChatRequest_goes_to_the_recipient
           (ChatService.toChatResponse Sample.pending_chat) Sample.bob_online
           Sample.alice Sample.bob); try reflexivity; discriminate.
Defined.

Lemma Server_createChatRequest_on_existing_chat_sample :
  Server.createChatRequest (ids := hex24) (CreateChatRequest.mk Sample.bob Sample.alice)
    11 Sample.chat2 Sample.bob_online Sample.db_pending
  = (Ok (ChatService.toChatResponse Sample.pending_chat),
     Notify.notifyChatRequest (ChatService.toChatResponse Sample.pending_chat)
       Sample.bob_online,
     Sample.db_pending).
Proof.
  apply (Server_createChatRequest_on_existing_chat (ids := hex24) Sample.bob Sample.alice
           11 Sample.chat2 Sample.bob_online Sample.db_pending Sample.pending_chat);
    try reflexivity.
  discriminate.
Defined.

Lemma Server_acceptChat_notifies_both_sample :
  let onlineUsers : gmap string string :=
    {[ Sample.alice := "socket-alice"; Sample.bob := "socket-bob" ]} in
  let accepted_chat := ChatService.toChatResponse Sample.accepted_chat in
  ∃ db',
    Server.acceptChat (ids := hex24) Sample.chat1 Sample.bob 20 onlineUsers Sample.db_pending
    = (Ok accepted_chat,
       [emit_to "socket-alice" (CHAT_ACCEPTED accepted_chat);
        emit_to "socket-bob" (CHAT_ACCEPTED accepted_chat)],
       db').
Proof.
  intros onlineUsers accepted_chat.
  apply (Server_acceptChat_notifies_both (ids := hex24) Sample.chat1 Sample.bob 20
           onlineUsers Sample.db_pending Sample.pending_chat Sample.alice Sample.bob
           "socket-alice" "socket-bob"); try reflexivity; try discriminate.
  right. by left.
Defined.

(** ** The chat routes *)

Section route_facts.
Context {ids : ObjectIdOps}.

(** X18: [POST /api/chat/request] and [POST /api/chat/:chatId/accept].
    When a required body field is missing or empty the route answers
    400 with its own text, calls nothing and leaves the store as it
    was.  Otherwise it calls the service with the fields: when the
    service returns a chat the answer is 201, respectively 200, with
    that chat; when the service throws, the answer is 500 with the
    message of the error, for a malformed id, an unknown user or chat,
    a user who may not accept and a chat already accepted alike, and
    nothing is emitted.  The store is the one the service left.
    Conversely, every answer of the two routes is one of these three,
    and 400 is given only for a missing or empty field. *)
Theorem chat_routes_statuses fromUserId toUserId chatId userId now newId onlineUsers db :
  (ChatController.falsy_field fromUserId = true
   ∨ ChatController.falsy_field toUserId = true →
     ChatController.createChatRequest fromUserId toUserId now newId onlineUsers db
     = (Server.respond 400 (Server.ErrorJson "fromUserId and toUserId are required" 400),
        [], db))
  ∧ (ChatController.falsy_field fromUserId = false →
     ChatController.falsy_field toUserId = false →
     ∀ r db',
       ChatService.createChatRequest
         (CreateChatRequest.mk (ChatController.field fromUserId)
            (ChatController.field toUserId)) now newId db = (r, db') →
       match r with
       | Ok chat =>
           ChatController.createChatRequest fromUserId toUserId now newId onlineUsers db
           = (Server.respond 201 (Server.ChatJson chat),
              if ChatStatus_eqb (ChatResponse.status chat) pending
              then Notify.notifyChatRequest chat onlineUsers else [],
              db')
       | Throw e =>
           ChatController.createChatRequest fromUserId toUserId now newId onlineUsers db
           = (Server.respond 500
                (Server.ErrorJson (or_string (Error_message e) "Internal server error") 500),
              [], db')
       end)
  ∧ (ChatController.falsy_field userId = true →
     ChatController.acceptChat chatId userId now onlineUsers db
     = (Server.respond 400 (Server.ErrorJson "userId is required in request body" 400),
        [], db))
  ∧ (ChatController.falsy_field userId = false →
     ∀ r db',
       ChatService.acceptChat chatId (ChatController.field userId) now db = (r, db') →
       match r with
       | Ok chat =>
           ChatController.acceptChat chatId userId now onlineUsers db
           = (Server.respond 200 (Server.ChatJson chat),
              Notify.notifyChatAccepted chat onlineUsers, db')
       | Throw e =>
           ChatController.acceptChat chatId userId now onlineUsers db
           = (Server.respond 500
                (Server.ErrorJson (or_string (Error_message e) "Internal server error") 500),
              [], db')
       end)
  ∧ (∀ resp emitted db',
     ChatController.createChatRequest fromUserId toUserId now newId onlineUsers db
       = (resp, emitted, db') →
     (∃ chat,
        resp = Server.respond 201 (Server.ChatJson chat)
        ∧ ChatService.createChatRequest
            (CreateChatRequest.mk (ChatController.field fromUserId)
               (ChatController.field toUserId)) now newId db = (Ok chat, db'))
     ∨ (resp = Server.respond 400
                 (Server.ErrorJson "fromUserId and toUserId are required" 400)
        ∧ (ChatController.falsy_field fromUserId = true
           ∨ ChatController.falsy_field toUserId = true)
        ∧ emitted = [] ∧ db' = db)
     ∨ (∃ e,
          resp = Server.respond 500
                   (Server.ErrorJson (or_string (Error_message e) "Internal server error") 500)
          ∧ ChatService.createChatRequest
              (CreateChatRequest.mk (ChatController.field fromUserId)
                 (ChatController.field toUserId)) now newId db = (Throw e, db')
          ∧ emitted = []))
  ∧ (∀ resp emitted db',
       ChatController.acceptChat chatId userId now onlineUsers db = (resp, emitted, db') →
       (∃ chat,
          resp = Server.respond 200 (Server.ChatJson chat)
          ∧ ChatService.acceptChat chatId (ChatController.field userId) now db
            = (Ok chat, db'))
       ∨ (resp = Server.respond 400
                   (Server.ErrorJson "userId is required in request body" 400)
          ∧ ChatController.falsy_field userId = true
          ∧ emitted = [] ∧ db' = db)
       ∨ (∃ e,
            resp = Server.respond 500
                     (Server.ErrorJson (or_string (Error_message e) "Internal server error")
                        500)
            ∧ ChatService.acceptChat chatId (ChatController.field userId) now db
              = (Throw e, db')
            ∧ emitted = [])).
Proof.
  split_and!.
  - intros Hmissing. unfold ChatController.createChatRequest.
    by destruct Hmissing as [-> | ->]; rewrite ?orb_true_r.
  - intros Hf Ht r db' Hr.
    unfold ChatController.createChatRequest, Server.createChatRequest.
    rewrite Hf, Ht, Hr. simpl. by destruct r.
  - intros Hmissing. unfold ChatController.acceptChat. by rewrite Hmissing.
  - intros Hu r db' Hr.
    unfold ChatController.acceptChat, Server.acceptChat.
    rewrite Hu, Hr. by destruct r.
  - intros resp emitted db'.
    unfold ChatController.createChatRequest, Server.createChatRequest.
    destruct (_ || _) eqn:Hmissing.
    + intros [= <- <- <-]. right. left. apply orb_true_iff in Hmissing. done.
    + destruct (ChatService.createChatRequest _ now newId db) as [[chat|e] db1];
        intros [= <- <- <-]; [left|right; right]; eauto.
  - intros resp emitted db'.
    unfold ChatController.acceptChat, Server.acceptChat.
    destruct (ChatController.falsy_field userId) eqn:Hmissing.
    + intros [= <- <- <-]. right. by left.
    + destruct (ChatService.acceptChat chatId _ now db) as [[chat|e] db1];
        intros [= <- <- <-]; [left|right; right]; eauto.
Qed.
End route_facts.

(** An unknown user, over HTTP: status 500. *)
Lemma chat_routes_unknown_user_sample :
  ChatController.createChatRequest (ids := hex24) (Some Sample.alice)
    (Some Sample.no_such_message) 10 Sample.chat1 Sample.bob_online Sample.db_empty
  = (Server.respond 500 (Server.ErrorJson "One or both users do not exist" 500), [],
     Sample.db_empty).
Proof. vm_compute. reflexivity. Qed.

(** ** The presence map *)

Section presence_facts.
Context {ids : ObjectIdOps}.

Lemma JsMap_get_set k v m : JsMap.get k (JsMap.set k v m) = Some v.
Proof.
  unfold JsMap.get. induction m as [|e m IH]; simpl.
  - by rewrite String.eqb_refl.
  - destruct (String.eqb e.1 k) eqn:He; simpl; [by rewrite String.eqb_refl|].
    by rewrite He.
Qed.

Lemma JsMap_get_set_ne k k' v m : k ≠ k' → JsMap.get k' (JsMap.set k v m) = JsMap.get k' m.
Proof.
  intros Hne. unfold JsMap.get. induction m as [|e m IH]; simpl.
  - by rewrite (proj2 (String.eqb_neq k k') Hne).
  - destruct (String.eqb_spec e.1 k) as [He|He]; simpl.
    + rewrite (proj2 (String.eqb_neq k k') Hne).
      by rewrite He, (proj2 (String.eqb_neq k k') Hne).
    + destruct (String.eqb e.1 k'); [done|apply IH].
Qed.

Lemma JsMap_get_delete k m : JsMap.get k (JsMap.delete k m) = None.
Proof.
  unfold JsMap.get, JsMap.delete. induction m as [|e m IH]; simpl; [done|].
  destruct (String.eqb e.1 k) eqn:He; simpl; [done|]. by rewrite He.
Qed.

Lemma JsMap_get_delete_ne k k' m :
  k ≠ k' → JsMap.get k' (JsMap.delete k m) = JsMap.get k' m.
Proof.
  intros Hne. unfold JsMap.get, JsMap.delete. induction m as [|e m IH]; simpl; [done|].
  destruct (String.eqb_spec e.1 k) as [He|He]; simpl.
  - rewrite He, (proj2 (String.eqb_neq k k') Hne). apply IH.
  - destruct (String.eqb e.1 k'); [done|apply IH].
Qed.

(** The map the message handlers are given reads as the [Map] does. *)
Lemma JsMap_to_gmap_lookup k m : JsMap.to_gmap m !! k = JsMap.get k m.
Proof.
  unfold JsMap.to_gmap, JsMap.get. induction m as [|[k' v] m IH]; simpl; [done|].
  destruct (String.eqb_spec k' k) as [->|Hne].
  - by rewrite lookup_insert_eq.
  - by rewrite lookup_insert_ne.
Qed.

(** X19: connecting twice: the last socket wins.  After [USER_CONNECT]
    from socket [s1] and then from socket [s2] for the same, non-empty
    user id, the user resolves to [s2], also in the map the message
    handlers read, and every other user resolves as before. *)
Theorem USER_CONNECT_last_write_wins s1 s2 userId onlineUsers :
  userId ≠ "" →
  let after2 :=
    SocketHandler.USER_CONNECT s2 userId (SocketHandler.USER_CONNECT s1 userId onlineUsers) in
  JsMap.get userId after2 = Some s2
  ∧ JsMap.to_gmap after2 !! userId = Some s2
  ∧ ∀ other, other ≠ userId → JsMap.get other after2 = JsMap.get other onlineUsers.
Proof.
  intros Hu after2. subst after2. unfold SocketHandler.USER_CONNECT.
  rewrite (falsy_false _ Hu). split_and!.
  - apply JsMap_get_set.
  - rewrite JsMap_to_gmap_lookup. apply JsMap_get_set.
  - intros other Hne. by rewrite !JsMap_get_set_ne.
Qed.

(** X20: a disconnect removes at most one user: when no entry holds the
    socket id the map is unchanged; otherwise the first entry that
    holds it, in the order of the map, is the one user removed, and
    every other user resolves as before, a user registered later from
    the same socket included. *)
Theorem disconnect_removes_the_first_entry socket onlineUsers :
  match List.find (λ e, String.eqb e.2 socket) onlineUsers with
  | None => SocketHandler.disconnect socket onlineUsers = onlineUsers
  | Some e =>
      JsMap.get e.1 (SocketHandler.disconnect socket onlineUsers) = None
      ∧ ∀ other, other ≠ e.1 →
          JsMap.get other (SocketHandler.disconnect socket onlineUsers)
          = JsMap.get other onlineUsers
  end.
Proof.
  unfold SocketHandler.disconnect.
  destruct (List.find _ onlineUsers) as [e|]; [|done]. split.
  - apply JsMap_get_delete.
  - intros other Hne. by apply JsMap_get_delete_ne.
Qed.

Lemma JsMap_In_set e k v m : In e (JsMap.set k v m) → e = (k, v) ∨ In e m.
Proof.
  induction m as [|x m IH]; simpl.
  - intros [<-|[]]. by left.
  - destruct (String.eqb x.1 k); simpl.
    + intros [<-|Hin]; [by left|right; by right].
    + intros [<-|Hin]; [right; by left|]. destruct (IH Hin); [by left|right; by right].
Qed.

Lemma JsMap_set_In k v m : In (k, v) (JsMap.set k v m).
Proof.
  induction m as [|x m IH]; simpl; [by left|].
  destruct (String.eqb x.1 k); simpl; [by left|by right].
Qed.

(** X21: connect, reconnect, disconnect.  When no other user is
    registered with socket [s2], a user who connects from [s1], then
    from [s2], and whose socket [s2] then disconnects, resolves to
    nothing afterwards, and every other user resolves as at the start. *)
Theorem connect_reconnect_disconnect s1 s2 userId onlineUsers :
  userId ≠ "" →
  (∀ e, In e onlineUsers → e.2 = s2 → e.1 = userId) →
  let final :=
    SocketHandler.disconnect s2
      (SocketHandler.USER_CONNECT s2 userId
         (SocketHandler.USER_CONNECT s1 userId onlineUsers)) in
  JsMap.get userId final = None
  ∧ ∀ other, other ≠ userId → JsMap.get other final = JsMap.get other onlineUsers.
Proof.
  intros Hu Hothers final. subst final. unfold SocketHandler.USER_CONNECT.
  rewrite (falsy_false _ Hu). unfold SocketHandler.disconnect.
  set (m2 := JsMap.set userId s2 (JsMap.set userId s1 onlineUsers)).
  destruct (find_ex (λ e : string * string, String.eqb e.2 s2) m2 (userId, s2))
    as [e He]; [apply JsMap_set_In|apply String.eqb_refl|].
  rewrite He. pose proof (find_some _ _ He) as [Hin Hs].
  apply String.eqb_eq in Hs.
  assert (Hkey : e.1 = userId).
  { apply JsMap_In_set in Hin as [->|Hin]; [done|].
    apply JsMap_In_set in Hin as [->|Hin]; [done|]. by apply Hothers. }
  rewrite Hkey. split.
  - apply JsMap_get_delete.
  - intros other Hne. subst m2.
    by rewrite JsMap_get_delete_ne, !JsMap_get_set_ne.
Qed.

(** X22: [emitToUsers] of the socket handler and the loops of the message
    handler deliver alike: for the same users and event they emit the
    same events to the same sockets, in the same order. *)
Theorem emitToUsers_as_the_handlers onlineUsers userIds ev :
  SocketHandler.emitToUsers onlineUsers userIds ev
  = MessageHandler.emit_to_online (JsMap.to_gmap onlineUsers) userIds ev.
Proof.
  unfold SocketHandler.emitToUsers, MessageHandler.emit_to_online,
    SocketHandler.emitToUser.
  apply flat_map_ext. intros u. by rewrite JsMap_to_gmap_lookup.
Qed.
End presence_facts.

Lemma USER_CONNECT_last_write_wins_sample :
  let after2 :=
    SocketHandler.USER_CONNECT "socket-2" Sample.bob
      (SocketHandler.USER_CONNECT "socket-1" Sample.bob [(Sample.alice, "socket-alice")]) in
  JsMap.get Sample.bob after2 = Some "socket-2"
  ∧ JsMap.to_gmap after2 !! Sample.bob = Some "socket-2"
  ∧ ∀ other, other ≠ Sample.bob →
      JsMap.get other after2 = JsMap.get other [(Sample.alice, "socket-alice")].
Proof.
  apply (USER_CONNECT_last_write_wins "socket-1" "socket-2" Sample.bob
           [(Sample.alice, "socket-alice")]).
  discriminate.
Defined.

Lemma connect_reconnect_disconnect_sample :
  let final :=
    SocketHandler.disconnect "socket-2"
      (SocketHandler.USER_CONNECT "socket-2" Sample.bob
         (SocketHandler.USER_CONNECT "socket-1" Sample.bob
            [(Sample.alice, "socket-alice")])) in
  JsMap.get Sample.bob final = None
  ∧ ∀ other, other ≠ Sample.bob →
      JsMap.get other final = JsMap.get other [(Sample.alice, "socket-alice")].
Proof.
  apply (connect_reconnect_disconnect "socket-1" "socket-2" Sample.bob
           [(Sample.alice, "socket-alice")]).
  - discriminate.
  - intros e [<-|[]]. discriminate.
Defined.

(** Two users registered from one socket: the disconnect of that
    socket removes the first and leaves the second registered. *)
Lemma disconnect_leaves_a_stale_entry_sample :
  SocketHandler.disconnect "socket-1"
    (SocketHandler.USER_CONNECT "socket-1" Sample.bob
       (SocketHandler.USER_CONNECT "socket-1" Sample.alice []))
  = [(Sample.bob, "socket-1")].
Proof. vm_compute. reflexivity. Qed.

(** ** Spelling of ids, echo to the sender, the newest message *)

Section more_send_facts.
Context {ids : ObjectIdOps}.

(** X24: when a message is sent in a chat whose two participants are
    both connected, [MESSAGE_RECEIVED] with the created message is
    emitted twice, once to the socket of each participant in the order
    of the participants: the sender's own socket receives the message
    it sent. *)
Theorem handleMessageSend_both_online socket data onlineUsers now newId db
    chat message db' a b sa sb :
  MessageSendData.chatId data ≠ "" →
  MessageSendData.senderId data ≠ "" →
  Chat.findById (MessageSendData.chatId data) db = (Ok (Some chat), db) →
  ChatService.createMessage (MessageSendData.chatId data)
    (MessageSendData.senderId data) (MessageSendData.content data) now newId db
    = (Ok message, db') →
  IChat.participants chat = [a; b] →
  onlineUsers !! a = Some sa → sa ≠ "" →
  onlineUsers !! b = Some sb → sb ≠ "" →
  MessageHandler.handleMessageSend socket data onlineUsers now newId db
  = (Ok tt,
     [emit_to sa (MESSAGE_RECEIVED message (MessageSendData.chatId data));
      emit_to sb (MESSAGE_RECEIVED message (MessageSendData.chatId data))],
     db')
  ∧ In (MessageSendData.senderId data) [a; b].
Proof.
  intros Hc Hs Hfind Hcm Hp Ha Hsa Hb Hsb.
  destruct (createMessage_Ok _ _ _ _ _ _ _ _ _ Hfind Hcm)
    as (Hv & Hst & Hcontent & _).
  split.
  - unfold MessageHandler.handleMessageSend.
    rewrite !falsy_false, (falsy_text_false _ Hcontent) by done. simpl.
    unfold bind at 1. rewrite Hv, Hst. simpl.
    unfold bind, ret. rewrite Hcm. f_equal. f_equal.
    unfold MessageHandler.emit_to_online. rewrite map_id, Hp. simpl.
    by rewrite Ha, Hb, (falsy_false _ Hsa), (falsy_false _ Hsb).
  - apply createMessage_effect in Hcm as [[_ Hno]|(c & Hf & _ & Hin & _)].
    + by destruct (Hno message).
    + apply findById_Some in Hfind as [_ Hf']. rewrite Hf' in Hf.
      injection Hf as <-. by rewrite <- Hp.
Qed.

#[local] Instance message_newer_first_trans : Transitive Message.newer_first.
Proof. unfold Message.newer_first. intros x y z. lia. Qed.

#[local] Instance message_newer_first_total : Total Message.newer_first.
Proof. unfold Message.newer_first. intros x y. lia. Qed.

Lemma newest_sorts_first (m : IMessage.t) old :
  Forall (λ x, IMessage.createdAt x < IMessage.createdAt m) old →
  ∃ rest, Message.sort_createdAt_desc (old ++ [m]) = m :: rest.
Proof.
  intros Hold. unfold Message.sort_createdAt_desc.
  pose proof (merge_sort_Permutation Message.newer_first (old ++ [m])) as Hperm.
  pose proof (StronglySorted_merge_sort Message.newer_first (old ++ [m])) as Hsorted.
  destruct (merge_sort Message.newer_first (old ++ [m])) as [|x rest].
  - apply Permutation_length in Hperm. rewrite length_app in Hperm. simpl in Hperm. lia.
  - exists rest. f_equal.
    assert (Hx : x ∈ (old ++ [m])%list) by (rewrite <- Hperm; by left).
    apply elem_of_app in Hx as [Hx|Hx]; [|by apply list_elem_of_singleton in Hx].
    exfalso. rewrite Forall_forall in Hold. specialize (Hold x Hx).
    assert (Hm : m ∈ x :: rest) by (rewrite Hperm; apply elem_of_app; right; by left).
    apply elem_of_cons in Hm as [->|Hm]; [lia|].
    apply StronglySorted_cons in Hsorted as [Hall _].
    rewrite Forall_forall in Hall. specialize (Hall m Hm).
    unfold Message.newer_first in Hall. lia.
Qed.

(** X25: a message created at a time later than that of every message
    of its chat is, right afterwards, the last element of the first
    page of the chat, whatever the limit. *)
Theorem new_message_is_last_on_first_page chatId senderId content now newId db r db' limit :
  ChatService.createMessage chatId senderId content now newId db = (Ok r, db') →
  Forall (λ x, IMessage.createdAt x < now) (chat_messages chatId db) →
  ∃ older last,
    page_data chatId limit db' 1 = (older ++ [last])%list
    ∧ MessageResponse._id last = newId
    ∧ MessageResponse.content last = trim content
    ∧ MessageResponse.createdAt last = now.
Proof.
  intros Hcm Hold.
  assert (Hc : isValid chatId = true).
  { unfold ChatService.createMessage in Hcm. by destruct (isValid chatId). }
  apply createMessage_effect in Hcm as [[_ Hno]|(c & Hf & _ & _ & _ & _ & _ & ->)];
    [by destruct (Hno r)|].
  set (m := created_message chatId senderId content now newId).
  set (db' := mkDb _ _ _).
  assert (Hfind : Chat.findById chatId db' = (Ok (Some c), db')).
  { unfold Chat.findById. rewrite Hc. simpl. by rewrite Hf. }
  assert (Hmsgs : chat_messages chatId db' = (chat_messages chatId db ++ [m])%list).
  { unfold chat_messages. simpl. rewrite List.filter_app. simpl.
    unfold Message.in_chat. simpl. by rewrite String.eqb_refl. }
  destruct (newest_sorts_first m (chat_messages chatId db) Hold) as [rest Hsort].
  pose proof (page_data_slice chatId limit db' c 0 Hfind) as Hpage.
  cbv zeta in Hpage. change (Z.of_nat 1) with 1 in Hpage.
  rewrite Hpage, Hmsgs, Hsort. simpl drop.
  set (L := Z.to_nat _).
  assert (HL : (1 ≤ L)%nat) by (subst L; lia).
  destruct L as [|L']; [lia|]. simpl.
  exists (rev (map (listed db') (take L' rest))), (listed db' m). done.
Qed.
End more_send_facts.

Section spelling_facts.
Context {ids : ObjectIdOps} {laws : ObjectIdLaws ids}.

(** X23: in every store the service makes, the participants of a chat
    are known by the canonical spelling of their ids only.  A valid
    user id in another spelling is refused as not a participant by
    [validateChatParticipants], [acceptChat] and [createMessage] on
    every existing chat, the user's own chats included. *)
Theorem other_spelling_is_no_participant chatId userId content now newId db chat :
  reachable db →
  Chat.findById chatId db = (Ok (Some chat), db) →
  isValid userId = true →
  toHexString userId ≠ userId →
  ChatService.validateChatParticipants chatId userId db = (Throw NotAParticipant, db)
  ∧ ChatService.acceptChat chatId userId now db = (Throw NotAParticipant, db)
  ∧ ChatService.createMessage chatId userId content now newId db
    = (Throw NotAParticipant, db).
Proof.
  intros Hr Hfind Hu Hspell.
  destruct (reachable_store_ok db Hr) as (_ & _ & Hcanon & _).
  assert (Hnot : existsb (λ p, String.eqb p userId) (IChat.participants chat) = false).
  { apply not_true_iff_false. intros Hin. apply existsb_eqb_In in Hin.
    apply findById_Some in Hfind as [_ Hf]. apply find_some in Hf as [Hcin _].
    rewrite Forall_forall in Hcanon.
    specialize (Hcanon chat (proj2 (list_elem_of_In _ _) Hcin)).
    rewrite Forall_forall in Hcanon.
    by apply Hspell, Hcanon, list_elem_of_In. }
  rewrite (validateChatParticipants_found _ _ _ _ Hfind Hu),
    (acceptChat_found _ _ _ _ _ Hfind Hu),
    (createMessage_found _ _ _ _ _ _ _ Hfind Hu), Hnot.
  done.
Qed.
End spelling_facts.

Lemma handleMessageSend_both_online_sample :
  let data := MessageSendData.mk Sample.chat1 (js "hi") Sample.alice None in
  let message := MessageResponse.mk Sample.msg1 Sample.chat1 Sample.alice (js "hi") 30 None in
  let onlineUsers : gmap string string :=
    {[ Sample.alice := "socket-alice"; Sample.bob := "socket-bob" ]} in
  MessageHandler.handleMessageSend (ids := hex24) "socket-alice" data onlineUsers
    30 Sample.msg1 Sample.db_accepted
  = (Ok tt,
     [emit_to "socket-alice" (MESSAGE_RECEIVED message Sample.chat1);
      emit_to "socket-bob" (MESSAGE_RECEIVED message Sample.chat1)],
     mkDb Sample.the_users [Sample.accepted_chat]
       [Sample.message Sample.msg1 Sample.alice "hi" 30])
  ∧ In Sample.alice [Sample.alice; Sample.bob].
Proof.
  intros data message onlineUsers.
  apply (handleMessageSend_both_online (ids := hex24) "socket-alice" data onlineUsers
           30 Sample.msg1 Sample.db_accepted Sample.accepted_chat message _
           Sample.alice Sample.bob "socket-alice" "socket-bob");
    try reflexivity; discriminate.
Defined.

Lemma new_message_is_last_on_first_page_sample :
  ∃ older last,
    page_data (ids := hex24) Sample.chat1 (Some 2)
      (mkDb Sample.the_users [Sample.accepted_chat]
         (messages Sample.db_three ++ [Sample.message "000000000000000000000004" Sample.bob "four" 34])) 1
    = (older ++ [last])%list
    ∧ MessageResponse._id last = "000000000000000000000004"
    ∧ MessageResponse.content last = js "four"
    ∧ MessageResponse.createdAt last = 34.
Proof.
  apply (new_message_is_last_on_first_page (ids := hex24) Sample.chat1 Sample.bob
           (0xA0 :: js "four" ++ [0x3000])
           34 "000000000000000000000004" Sample.db_three
           (MessageResponse.mk "000000000000000000000004" Sample.chat1 Sample.bob (js "four") 34 None)).
  - reflexivity.
  - repeat constructor.
Defined.

Lemma other_spelling_is_no_participant_sample :
  let db := mkDb Sample.the_users [Sample.accepted_chat]
              [Sample.message Sample.msg1 Sample.alice "one" 31] in
  let upper := "AAAAAAAAAAAAAAAAAAAAAAAA" in
  ChatService.validateChatParticipants (ids := hex24) Sample.chat1 upper db
    = (Throw NotAParticipant, db)
  ∧ ChatService.acceptChat (ids := hex24) Sample.chat1 upper 40 db
    = (Throw NotAParticipant, db)
  ∧ ChatService.createMessage (ids := hex24) Sample.chat1 upper (js "hi") 40 Sample.msg2 db
    = (Throw NotAParticipant, db).
Proof.
  intros db upper.
  apply (other_spelling_is_no_participant (ids := hex24) Sample.chat1 upper (js "hi") 40
           Sample.msg2 db Sample.accepted_chat sample_reachable);
    try reflexivity; discriminate.
Defined.
